(** * gpt-rag-avatar: session middleware, OAuth callback, authorization
      check and streaming proxy of [main.py]

    The development embeds the request-handling code of [main.py] as Rocq
    functions and proves the properties its specification states about them.

    Python values that can live in the session are JSON trees ([json]); a
    Python [dict] is an association list in insertion order whose keys are
    pairwise distinct.  Stateful code threads the session mapping, the state
    of the world outside the process and the trace of outbound calls.

    The session middleware is embedded twice: in [Store], on a directory of
    text files whose reads and writes always go through, and in [Io], on a
    disk and a codec of which nothing is assumed, where every library call
    may raise.  The streaming loop is embedded on exact clock readings in
    [Proxy] and on the binary64 floats of the event-loop clock in
    [Float64]. *)

From Stdlib Require Import ZArith NArith List Bool Ascii String Decimal DecimalString DecimalN DecimalFacts QArith Lia Lqa.
From Stdlib Require SpecFloat.
From stdpp Require Import base gmap strings list.

Local Open Scope string_scope.
Local Open Scope Z_scope.

(* ===================================================================== *)
(** * Python values held in a session                                    *)
(* ===================================================================== *)

Module Py.

(** The values [json.loads] produces and [json.dumps] accepts, floats
    apart: [None], [bool], [int], [str], [list] and [dict] with string
    keys.  A Python [str] is modelled by a Rocq string whose characters are
    the code points below 256. *)
#[warnings="-register-all"]
Inductive json : Type :=
| JNull
| JBool (b : bool)
| JInt (z : Z)
| JStr (s : string)
| JArr (l : list json)
| JObj (kvs : list (string * json)).

Definition pydict : Type := list (string * json).

(** Python truthiness ([if x:], [not x], [x or y]). *)
Definition truthy (v : json) : bool :=
  match v with
  | JNull => false
  | JBool b => b
  | JInt z => negb (z =? 0)
  | JStr s => negb (String.eqb s EmptyString)
  | JArr l => match l with [] => false | _ => true end
  | JObj kvs => match kvs with [] => false | _ => true end
  end.

(** [x or y] *)
Definition py_or (x y : json) : json := if truthy x then x else y.

(** [k in d] and [d.get(k)] without default ([None] when absent). *)
Fixpoint dict_lookup (d : pydict) (k : string) : option json :=
  match d with
  | [] => None
  | (k', v) :: d' => if String.eqb k' k then Some v else dict_lookup d' k
  end.

Definition dict_contains (d : pydict) (k : string) : bool :=
  match dict_lookup d k with Some _ => true | None => false end.

Definition dict_get_default (d : pydict) (k : string) (dflt : json) : json :=
  match dict_lookup d k with Some v => v | None => dflt end.

Definition dict_get (d : pydict) (k : string) : json := dict_get_default d k JNull.

(** [d[k] = v]: an existing key keeps its place, a new key goes last. *)
Fixpoint dict_set (d : pydict) (k : string) (v : json) : pydict :=
  match d with
  | [] => [(k, v)]
  | (k', v') :: d' =>
      if String.eqb k' k then (k', v) :: d' else (k', v') :: dict_set d' k v
  end.

(** [d.pop(k, None)], the mapping that remains. *)
Fixpoint dict_pop (d : pydict) (k : string) : pydict :=
  match d with
  | [] => []
  | (k', v') :: d' => if String.eqb k' k then d' else (k', v') :: dict_pop d' k
  end.

(** [d.clear()] *)
Definition dict_clear (d : pydict) : pydict := [].

(** [dict(pairs)]: later pairs overwrite earlier ones. *)
Definition dict_of_pairs (l : list (string * json)) : pydict :=
  fold_left (fun d kv => dict_set d (fst kv) (snd kv)) l [].

(** Keys of a [dict] are pairwise distinct, at every depth. *)
Fixpoint nodup_keys (ks : list string) : bool :=
  match ks with
  | [] => true
  | k :: ks' => negb (existsb (String.eqb k) ks') && nodup_keys ks'
  end.

Fixpoint wf_json (v : json) : bool :=
  match v with
  | JArr l => forallb wf_json l
  | JObj kvs =>
      nodup_keys (map fst kvs) && forallb (fun kv => wf_json (snd kv)) kvs
  | _ => true
  end.


(** Equality of two values ([==]); a [dict] compares regardless of order. *)
Fixpoint json_eqb (x y : json) : bool :=
  match x, y with
  | JNull, JNull => true
  | JBool a, JBool b => Bool.eqb a b
  | JInt a, JInt b => a =? b
  | JBool a, JInt b => (if a then 1 else 0) =? b
  | JInt a, JBool b => a =? (if b then 1 else 0)
  | JStr a, JStr b => String.eqb a b
  | JArr a, JArr b =>
      (fix go (a b : list json) : bool :=
         match a, b with
         | [], [] => true
         | u :: a', v :: b' => json_eqb u v && go a' b'
         | _, _ => false
         end) a b
  | JObj a, JObj b =>
      (length a =? length b)%nat &&
      forallb (fun kv =>
                 match dict_lookup b (fst kv) with
                 | Some w => json_eqb (snd kv) w
                 | None => false
                 end) a
  | _, _ => false
  end.

End Py.
Export Py.

(* ===================================================================== *)
(** * The JSON text of a session record                                   *)
(* ===================================================================== *)

Module Json.

Definition dquote : ascii := "034"%char.
Definition backslash : ascii := "092"%char.

Definition hex_digit (n : N) : ascii :=
  match n with
  | 0%N => "0" | 1%N => "1" | 2%N => "2" | 3%N => "3" | 4%N => "4"
  | 5%N => "5" | 6%N => "6" | 7%N => "7" | 8%N => "8" | 9%N => "9"
  | 10%N => "a" | 11%N => "b" | 12%N => "c" | 13%N => "d" | 14%N => "e"
  | _ => "f"
  end%char.

Definition hex_val (c : ascii) : option N :=
  let n := N_of_ascii c in
  if ((48 <=? n) && (n <=? 57))%N then Some (n - 48)%N
  else if ((97 <=? n) && (n <=? 102))%N then Some (n - 87)%N
  else if ((65 <=? n) && (n <=? 70))%N then Some (n - 55)%N
  else None.

(** [json.dumps], default arguments ([ensure_ascii=True], separators
    [", "] and [": "]).  A character outside the printable ASCII range is
    written as a [\uXXXX] escape. *)
Definition escape_char (c : ascii) : string :=
  let n := N_of_ascii c in
  if Ascii.eqb c dquote then String backslash (String dquote EmptyString)
  else if Ascii.eqb c backslash then String backslash (String backslash EmptyString)
  else if (n =? 10)%N then String backslash "n"
  else if (n =? 13)%N then String backslash "r"
  else if (n =? 9)%N then String backslash "t"
  else if (n =? 8)%N then String backslash "b"
  else if (n =? 12)%N then String backslash "f"
  else if ((32 <=? n) && (n <=? 126))%N then String c EmptyString
  else String backslash
         (String "u" (String "0" (String "0"
            (String (hex_digit (n / 16)) (String (hex_digit (n mod 16)) EmptyString))))).

Fixpoint escape (s : string) : string :=
  match s with
  | EmptyString => EmptyString
  | String c s' => escape_char c +:+ escape s'
  end.

Definition quote (s : string) : string :=
  String dquote (escape s +:+ String dquote EmptyString).

Definition dec_of_N (n : N) : string := NilEmpty.string_of_uint (N.to_uint n).

Definition dec_of_Z (z : Z) : string :=
  match z with
  | Z0 => "0"
  | Zpos p => dec_of_N (Npos p)
  | Zneg p => String "-" (dec_of_N (Npos p))
  end.

Fixpoint json_dumps (v : json) : string :=
  match v with
  | JNull => "null"
  | JBool true => "true"
  | JBool false => "false"
  | JInt z => dec_of_Z z
  | JStr s => quote s
  | JArr l => "[" +:+ String.concat ", " (map json_dumps l) +:+ "]"
  | JObj kvs =>
      "{" +:+ String.concat ", "
                (map (fun kv => match kv with
                                | (k, w) => quote k +:+ ": " +:+ json_dumps w
                                end) kvs) +:+ "}"
  end.

(** [json.loads] *)
Definition is_ws (c : ascii) : bool :=
  let n := N_of_ascii c in
  ((n =? 32) || (n =? 9) || (n =? 10) || (n =? 13))%N.

Fixpoint skip_ws (s : string) : string :=
  match s with
  | String c s' => if is_ws c then skip_ws s' else s
  | EmptyString => s
  end.

Fixpoint strip_prefix (p s : string) : option string :=
  match p, s with
  | EmptyString, _ => Some s
  | String a p', String b s' => if Ascii.eqb a b then strip_prefix p' s' else None
  | String _ _, EmptyString => None
  end.

(** The characters of a string literal after its opening quote, up to and
    including the closing quote (strict mode: a raw control character is an
    error).  A [\uXXXX] escape of a code point above 255 is outside the
    strings modelled. *)
Fixpoint parse_str_body (s : string) : option (string * string) :=
  match s with
  | EmptyString => None
  | String c s' =>
      if Ascii.eqb c dquote then Some (EmptyString, s')
      else if Ascii.eqb c backslash then
        match s' with
        | EmptyString => None
        | String e s'' =>
            let lit (x : ascii) :=
              match parse_str_body s'' with
              | Some (r, rest) => Some (String x r, rest)
              | None => None
              end in
            if Ascii.eqb e dquote then lit dquote
            else if Ascii.eqb e backslash then lit backslash
            else if Ascii.eqb e "/" then lit "/"%char
            else if Ascii.eqb e "b" then lit "008"%char
            else if Ascii.eqb e "f" then lit "012"%char
            else if Ascii.eqb e "n" then lit "010"%char
            else if Ascii.eqb e "r" then lit "013"%char
            else if Ascii.eqb e "t" then lit "009"%char
            else if Ascii.eqb e "u" then
              match s'' with
              | String h1 (String h2 (String h3 (String h4 s4))) =>
                  match hex_val h1, hex_val h2, hex_val h3, hex_val h4 with
                  | Some a, Some b, Some c', Some d =>
                      let n := (((a * 16 + b) * 16 + c') * 16 + d)%N in
                      if (n <? 256)%N then
                        match parse_str_body s4 with
                        | Some (r, rest) => Some (String (ascii_of_N n) r, rest)
                        | None => None
                        end
                      else None
                  | _, _, _, _ => None
                  end
              | _ => None
              end
            else None
        end
      else if (N_of_ascii c <? 32)%N then None
      else
        match parse_str_body s' with
        | Some (r, rest) => Some (String c r, rest)
        | None => None
        end
  end.

Definition digit_of (c : ascii) : option (Decimal.uint -> Decimal.uint) :=
  match N_of_ascii c with
  | 48%N => Some D0 | 49%N => Some D1 | 50%N => Some D2 | 51%N => Some D3
  | 52%N => Some D4 | 53%N => Some D5 | 54%N => Some D6 | 55%N => Some D7
  | 56%N => Some D8 | 57%N => Some D9
  | _ => None
  end.

Fixpoint read_digits (s : string) : Decimal.uint * string :=
  match s with
  | EmptyString => (Nil, s)
  | String c s' =>
      match digit_of c with
      | Some D => let (d, r) := read_digits s' in (D d, r)
      | None => (Nil, s)
      end
  end.

Definition starts_float_tail (s : string) : bool :=
  match s with
  | String c _ => Ascii.eqb c "." || Ascii.eqb c "e" || Ascii.eqb c "E"
  | EmptyString => false
  end.

(** A number: an optional minus sign, then either a single zero or a
    nonzero digit followed by digits; one that goes on with a fraction or an
    exponent is a float, which the values modelled do not include. *)
Definition parse_number (s : string) : option (json * string) :=
  let (neg, s1) :=
    match s with
    | String c r => if Ascii.eqb c "-" then (true, r) else (false, s)
    | EmptyString => (false, s)
    end in
  let mag :=
    match s1 with
    | String c r =>
        if Ascii.eqb c "0" then Some (0%N, r)
        else match read_digits s1 with
             | (Nil, _) => None
             | (d, r') => Some (N.of_uint d, r')
             end
    | EmptyString => None
    end in
  match mag with
  | Some (n, r) =>
      if starts_float_tail r then None
      else Some (JInt (if neg then - Z.of_N n else Z.of_N n), r)
  | None => None
  end.

Fixpoint parse_value (fuel : nat) (s : string) {struct fuel} : option (json * string) :=
  match fuel with
  | O => None
  | S f =>
      match s with
      | EmptyString => None
      | String c rest =>
          if Ascii.eqb c dquote then
            match parse_str_body rest with
            | Some (str, r) => Some (JStr str, r)
            | None => None
            end
          else if Ascii.eqb c "[" then
            match skip_ws rest with
            | String c' r' =>
                if Ascii.eqb c' "]" then Some (JArr [], r')
                else match parse_elems f (String c' r') with
                     | Some (vs, r'') => Some (JArr vs, r'')
                     | None => None
                     end
            | EmptyString => None
            end
          else if Ascii.eqb c "{" then
            match skip_ws rest with
            | String c' r' =>
                if Ascii.eqb c' "}" then Some (JObj [], r')
                else match parse_members f (String c' r') with
                     | Some (kvs, r'') => Some (JObj (dict_of_pairs kvs), r'')
                     | None => None
                     end
            | EmptyString => None
            end
          else if Ascii.eqb c "n" then
            match strip_prefix "null" s with
            | Some r => Some (JNull, r)
            | None => None
            end
          else if Ascii.eqb c "t" then
            match strip_prefix "true" s with
            | Some r => Some (JBool true, r)
            | None => None
            end
          else if Ascii.eqb c "f" then
            match strip_prefix "false" s with
            | Some r => Some (JBool false, r)
            | None => None
            end
          else parse_number s
      end
  end

with parse_elems (fuel : nat) (s : string) {struct fuel} : option (list json * string) :=
  match fuel with
  | O => None
  | S f =>
      match parse_value f s with
      | Some (v, r) =>
          match skip_ws r with
          | String c r' =>
              if Ascii.eqb c "]" then Some ([v], r')
              else if Ascii.eqb c "," then
                match parse_elems f (skip_ws r') with
                | Some (vs, r'') => Some (v :: vs, r'')
                | None => None
                end
              else None
          | EmptyString => None
          end
      | None => None
      end
  end

with parse_members (fuel : nat) (s : string) {struct fuel}
  : option (list (string * json) * string) :=
  match fuel with
  | O => None
  | S f =>
      match s with
      | String q r0 =>
          if Ascii.eqb q dquote then
            match parse_str_body r0 with
            | Some (k, r1) =>
                match skip_ws r1 with
                | String c r2 =>
                    if Ascii.eqb c ":" then
                      match parse_value f (skip_ws r2) with
                      | Some (v, r3) =>
                          match skip_ws r3 with
                          | String c' r4 =>
                              if Ascii.eqb c' "}" then Some ([(k, v)], r4)
                              else if Ascii.eqb c' "," then
                                match parse_members f (skip_ws r4) with
                                | Some (kvs, r5) => Some ((k, v) :: kvs, r5)
                                | None => None
                                end
                              else None
                          | EmptyString => None
                          end
                      | None => None
                      end
                    else None
                | EmptyString => None
                end
            | None => None
            end
          else None
      | EmptyString => None
      end
  end.

(** [json.loads(content)]: white space, one value, white space, the end.
    One unit of fuel is spent per value, element and member; the fuel given
    is twice the length of the text. *)
Definition json_loads (content : string) : option json :=
  match parse_value (2 * String.length content + 2) (skip_ws content) with
  | Some (v, r) =>
      match skip_ws r with
      | EmptyString => Some v
      | String _ _ => None
      end
  | None => None
  end.

End Json.
Export Json.

(* ===================================================================== *)
(** * Requests, responses and the session store                          *)
(* ===================================================================== *)

Module Http.

(** What a handler sees of a request: its cookies, its query parameters and
    the outcome of [await request.json()] ([None] when the body is not JSON
    and the call raises). *)
Record request : Type := {
  cookies : gmap string string;
  query_params : gmap string string;
  req_json : option json
}.

Inductive response : Type :=
| RedirectResponse (url : string) (status_code : Z)
| JSONResponse (content : json) (status_code : Z)
| FileResponse (path : string)
| StreamingResponse (payload headers : pydict) (media_type : string).

(** [query_params.get(k)] and a session value side by side: an absent
    parameter is [None]. *)
Definition opt_str (o : option string) : json :=
  match o with Some x => JStr x | None => JNull end.

End Http.
Export Http.

Module Store.

(** The session directory: the regular files by path, with their text.
    Every file can be read and written, and two paths name one file only
    when they are the same text; [Io] drops both assumptions. *)
Abbreviation filesystem := (gmap string string).

Record middleware : Type := {
  session_dir : string;
  cookie_name : string;
  max_age : Z
}.

(** [FileSessionMiddleware(app)] with the defaults of [__init__]. *)
Definition default_middleware : middleware :=
  {| session_dir := "sessions"; cookie_name := "session_id"; max_age := 86400 |}.

Definition starts_with_slash (p : string) : bool :=
  match p with String c _ => Ascii.eqb c "/" | EmptyString => false end.

Fixpoint ends_with_slash (p : string) : bool :=
  match p with
  | EmptyString => false
  | String c EmptyString => Ascii.eqb c "/"
  | String _ p' => ends_with_slash p'
  end.

(** [os.path.join(a, p)] on POSIX. *)
Definition path_join (a p : string) : string :=
  if starts_with_slash p then p
  else if String.eqb a EmptyString || ends_with_slash a then a +:+ p
  else a +:+ "/" +:+ p.

Definition session_file_of (mw : middleware) (session_id : string) : string :=
  path_join (session_dir mw) (session_id +:+ ".json").

(** [secrets.token_hex(n)]: the bytes [os.urandom(n)] returned, each as two
    lowercase hexadecimal digits. *)
Fixpoint hexlify (bytes : list ascii) : string :=
  match bytes with
  | [] => EmptyString
  | b :: bs =>
      String (hex_digit (N_of_ascii b / 16))
        (String (hex_digit (N_of_ascii b mod 16)) (hexlify bs))
  end.

Definition token_hex (urandom : list ascii) : string := hexlify urandom.

Record cookie : Type := {
  key : string;
  value : string;
  cookie_max_age : Z;
  httponly : bool;
  samesite : string
}.

(** What [await call_next(request)] does to the middleware: it yields a
    response, or the exception of the wrapped application comes out of the
    [await].  Either way the handler may have mutated
    [request.state.session], an object it shares with the middleware. *)
Inductive call_outcome : Type :=
| Responded (r : response) (session' : json)
| Propagated (exn : string) (session' : json).

(** The effects of one [dispatch], in the order they happen. *)
Inductive mw_event : Type :=
| EvRead (path : string)
| EvCallNext (session_data : json)
| EvWrite (path content : string).

Inductive dispatch_result : Type :=
| Sent (r : response) (set_cookie : option cookie)
| Failed (exn : string).

(** Lines 42-59: the mapping placed in [request.state.session]. *)
Definition session_id_of (mw : middleware) (req : request) : option string :=
  match cookies req !! cookie_name mw with
  | Some sid => if String.eqb sid EmptyString then None else Some sid
  | None => None
  end.

Definition load_session (mw : middleware) (fs : filesystem) (req : request)
  : json * list mw_event :=
  match session_id_of mw req with
  | Some session_id =>
      let session_file := session_file_of mw session_id in
      match fs !! session_file with
      | Some content =>
          (match json_loads content with
           | Some session_data => session_data
           | None => JObj []
           end, [EvRead session_file])
      | None => (JObj [], [])
      end
  | None => (JObj [], [])
  end.

(** [FileSessionMiddleware.dispatch] *)
Definition dispatch (mw : middleware) (fs : filesystem) (req : request)
    (call_next : json -> call_outcome) (urandom : list ascii)
  : dispatch_result * filesystem * list mw_event :=
  let (session_data, loaded) := load_session mw fs req in
  match call_next session_data with
  | Propagated exn _ => (Failed exn, fs, (loaded ++ [EvCallNext session_data])%list)
  | Responded response session' =>
      let (session_id, set_cookie) :=
        match session_id_of mw req with
        | Some sid => (sid, None)
        | None =>
            let sid := token_hex urandom in
            (sid, Some {| key := cookie_name mw; value := sid;
                          cookie_max_age := max_age mw; httponly := true;
                          samesite := "lax" |})
        end in
      let session_file := session_file_of mw session_id in
      let content := json_dumps session' in
      (Sent response set_cookie,
       <[session_file := content]> fs,
       (loaded ++ [EvCallNext session_data; EvWrite session_file content])%list)
  end.

End Store.
Export Store.

(* ===================================================================== *)
(** * Handlers: state, exceptions and outbound calls                      *)
(* ===================================================================== *)

Module Handler.

(** Module-level configuration read from the environment and the vault. *)
Record config : Type := {
  ENABLE_AUTHENTICATION : bool;
  AUTHORITY : string;
  REDIRECT_URI : string;
  OTHER_AUTH_SCOPES : string;
  FUNCTION_KEY : string
}.

Definition BASIC_SCOPE : list string := ["User.Read"].

(** The outbound calls a request makes, in order; [CheckAuthorization]
    marks each entry into [check_authorization]. *)
Inductive call : Type :=
| CheckAuthorization
| AcquireTokenSilent (scopes : list string)
| AcquireTokenByAuthorizationCode (code : string)
| GraphMemberOf (token : json)
| OrchestratorPost (payload headers : pydict).

Inductive exn : Type :=
| HTTPException (status_code : Z) (detail : string)
| Error (what : string).

Inductive result (A : Type) : Type :=
| Val (a : A)
| Exc (e : exn).
Arguments Val {A} a.
Arguments Exc {A} e.

(** What a library call does: it returns or it raises. *)
Inductive attempt (A : Type) : Type :=
| Returns (a : A)
| Raises.
Arguments Returns {A} a.
Arguments Raises {A}.

(** The response of the orchestrator as the generator sees it: the status,
    the reading of the event-loop clock when the body starts, and each line
    [aiter_lines] yields with the clock reading of its iteration.  Clock
    readings are in seconds. *)
Record upstream_response : Type := {
  upstream_status : Z;
  stream_start : Q;
  upstream_lines : list (Q * string)
}.

Section WithWorld.

(** [W] is the state of everything outside the process (identity provider,
    Graph, network); [C] is the content of an MSAL token cache. *)
Context {W C : Type}.

Record token_cache : Type := {
  contents : C;
  has_state_changed : bool
}.

(** The libraries the handlers call into.  Nothing is assumed of them. *)
Record services : Type := {
  cache_new : token_cache;
  cache_deserialize : json -> option token_cache;
  cache_serialize : C -> string;
  acquire_token_silent :
    W -> list string -> token_cache -> attempt (option pydict) * token_cache * W;
  acquire_token_by_authorization_code :
    W -> string -> token_cache -> attempt pydict * token_cache * W;
  graph_member_of : W -> json -> attempt json * W;
  orchestrator : W -> pydict -> pydict -> upstream_response * W
}.

Record hstate : Type := {
  session : pydict;
  world : W;
  calls : list call
}.

Definition M (A : Type) : Type := hstate -> result A * hstate.

Definition ret {A} (a : A) : M A := fun st => (Val a, st).

Definition bind {A B} (m : M A) (k : A -> M B) : M B :=
  fun st =>
    match m st with
    | (Val a, st') => k a st'
    | (Exc e, st') => (Exc e, st')
    end.

Definition raise {A} (e : exn) : M A := fun st => (Exc e, st).

(** [try: m  except Exception: h] *)
Definition try_except {A} (m h : M A) : M A :=
  fun st =>
    match m st with
    | (Val a, st') => (Val a, st')
    | (Exc _, st') => h st'
    end.

Definition get_session : M pydict := fun st => (Val (session st), st).

Definition put_session (d : pydict) : M unit :=
  fun st => (Val tt, {| session := d; world := world st; calls := calls st |}).

Definition session_setitem (k : string) (v : json) : M unit :=
  fun st => (Val tt, {| session := dict_set (session st) k v;
                        world := world st; calls := calls st |}).

Definition emit (c : call) : M unit :=
  fun st => (Val tt, {| session := session st; world := world st;
                        calls := (calls st ++ [c])%list |}).

(** A call into the outside world: it advances the world and is recorded. *)
Definition outbound {A} (c : call) (f : W -> A * W) : M A :=
  fun st =>
    let (a, w') := f (world st) in
    (Val a, {| session := session st; world := w';
               calls := (calls st ++ [c])%list |}).

End WithWorld.

Arguments token_cache : clear implicits.
Arguments services : clear implicits.
Arguments hstate : clear implicits.
Arguments M : clear implicits.

Notation "'let*' x ':=' m 'in' k" := (bind m (fun x => k))
  (at level 10, x pattern, m at level 100, k at level 200, only parsing).
Notation "'do*' m 'in' k" := (bind m (fun _ => k))
  (at level 10, m at level 100, k at level 200, only parsing).

End Handler.
Export Handler.

(* ===================================================================== *)
(** * Authentication endpoints                                            *)
(* ===================================================================== *)

Module Auth.

(** [str.isspace] on the code points below 256, [str.strip] and
    [str.split(",")]. *)
Definition py_isspace (c : ascii) : bool :=
  let n := N_of_ascii c in
  (((9 <=? n) && (n <=? 13)) || ((28 <=? n) && (n <=? 32))
   || (n =? 133) || (n =? 160))%N.

Fixpoint lstrip (s : string) : string :=
  match s with
  | String c s' => if py_isspace c then lstrip s' else s
  | EmptyString => s
  end.

Fixpoint rstrip (s : string) : string :=
  match s with
  | EmptyString => EmptyString
  | String c s' =>
      let r := rstrip s' in
      if py_isspace c && String.eqb r EmptyString then EmptyString else String c r
  end.

Definition strip (s : string) : string := rstrip (lstrip s).

Fixpoint split_comma (s : string) : list string :=
  match s with
  | EmptyString => [EmptyString]
  | String c s' =>
      if Ascii.eqb c "," then EmptyString :: split_comma s'
      else match split_comma s' with
           | x :: xs => String c x :: xs
           | [] => [String c EmptyString]
           end
  end.

(** [[s.strip() for s in OTHER_AUTH_SCOPES.split(",") if s.strip()]] *)
Definition other_scopes (other_auth_scopes : string) : list string :=
  List.filter (fun x => negb (String.eqb x EmptyString))
              (map strip (split_comma other_auth_scopes)).

(** The Authorization Decision [check_authorization] returns. *)
Record decision : Type := {
  authorized_ : bool;
  client_principal_id : json;
  client_principal_name : json;
  client_group_names : list json;
  access_token : json
}.

Section WithServices.

Context {W C : Type}.
Variable cfg : config.
Variable svc : services W C.

Definition _load_cache : M W (token_cache C) :=
  let* s := get_session in
  match dict_lookup s "msal_cache" with
  | Some blob =>
      match cache_deserialize svc blob with
      | Some cache => ret cache
      | None => ret (cache_new svc)
      end
  | None => ret (cache_new svc)
  end.

Definition _save_cache (cache : token_cache C) : M W unit :=
  if has_state_changed cache
  then session_setitem "msal_cache" (JStr (cache_serialize svc (contents cache)))
  else ret tt.

Definition get_valid_access_token (scopes : list string) : M W json :=
  let* cache := _load_cache in
  let* r := outbound (AcquireTokenSilent scopes)
         (fun w => match acquire_token_silent svc w scopes cache with
                   | (a, cache', w') => ((a, cache'), w')
                   end) in
  match r with
  | (Raises, _) => raise (Error "acquire_token_silent")
  | (Returns None, _) =>
      raise (Error "Could not refresh token silently: no token found in cache.")
  | (Returns (Some result), cache') =>
      if negb (truthy (JObj result)) || negb (dict_contains result "access_token")
      then raise (Error "Could not refresh token silently: no token found in cache.")
      else if dict_contains result "error"
      then raise (Error "Could not refresh token silently.")
      else do* _save_cache cache' in ret (dict_get result "access_token")
  end.

(** [GET REDIRECT_PATH] *)
Definition authorized (req : request) : M W response :=
  if negb (ENABLE_AUTHENTICATION cfg) then ret (RedirectResponse "/" 303)
  else
    let* s := get_session in
    if truthy (dict_get s "user") then ret (RedirectResponse "/" 303)
    else if negb (json_eqb (opt_str (query_params req !! "state")) (dict_get s "state"))
    then ret (JSONResponse (JObj [("error", JStr "State mismatch")]) 400)
    else
      match query_params req !! "error" with
      | Some _ =>
          let error_desc :=
            match query_params req !! "error_description" with
            | Some d => d
            | None => "Unknown error"
            end in
          ret (JSONResponse (JObj [("error", JStr error_desc)]) 400)
      | None =>
          let code := query_params req !! "code" in
          if negb (truthy (opt_str code))
          then ret (JSONResponse
                      (JObj [("error", JStr "Authorization code not found")]) 400)
          else
            let code := default EmptyString code in
            let* cache := _load_cache in
            let* r := outbound (AcquireTokenByAuthorizationCode code)
                        (fun w =>
                           match acquire_token_by_authorization_code svc w code cache with
                           | (a, cache', w') => ((a, cache'), w')
                           end) in
            match r with
            | (Raises, _) => raise (Error "acquire_token_by_authorization_code")
            | (Returns result, cache') =>
                if dict_contains result "error"
                then ret (JSONResponse
                            (JObj [("error",
                                    dict_get_default result "error_description"
                                      (JStr "Could not acquire token"))]) 400)
                else
                  match dict_get_default result "id_token_claims" (JObj []) with
                  | JObj user_claims =>
                      let minimal_user :=
                        JObj [("oid", dict_get user_claims "oid");
                              ("preferred_username",
                               py_or (dict_get user_claims "preferred_username")
                                     (dict_get user_claims "upn"))] in
                      do* session_setitem "user" minimal_user in
                      do* session_setitem "graph_access_token"
                            (dict_get result "access_token") in
                      do* session_setitem "refresh_token"
                            (dict_get result "refresh_token") in
                      do* _save_cache cache' in
                      let* s' := get_session in
                      do* put_session (dict_pop s' "state") in
                      ret (RedirectResponse "/" 303)
                  | _ => raise (Error "AttributeError")
                  end
            end
      end.

(** [GET /logout] *)
Definition logout (req : request) : M W response :=
  let* s := get_session in
  do* put_session (dict_clear s) in
  ret (RedirectResponse
         (AUTHORITY cfg +:+ "/oauth2/v2.0/logout?post_logout_redirect_uri="
            +:+ REDIRECT_URI cfg) 303).

End WithServices.

End Auth.
Export Auth.

(* ===================================================================== *)
(** * The authorization check                                             *)
(* ===================================================================== *)

Module Authz.

Section WithServices.

Context {W C : Type}.
Variable cfg : config.
Variable svc : services W C.

(** [g.get("displayName", "missing-group") for g in group_data.get("value", [])]
    inside the [try] of lines 248-257: any exception leaves [groups] empty. *)
Fixpoint display_names (value : list json) : option (list json) :=
  match value with
  | [] => Some []
  | JObj g :: rest =>
      match display_names rest with
      | Some names => Some (dict_get_default g "displayName" (JStr "missing-group") :: names)
      | None => None
      end
  | _ :: _ => None
  end.

Definition groups_of (graph_reply : attempt json) : list json :=
  match graph_reply with
  | Returns (JObj group_data) =>
      match dict_get_default group_data "value" (JArr []) with
      | JArr value => default [] (display_names value)
      | _ => []
      end
  | _ => []
  end.

Definition check_authorization : M W decision :=
  do* emit CheckAuthorization in
  if negb (ENABLE_AUTHENTICATION cfg) then
    ret {| authorized_ := true;
           client_principal_id := JStr "no-auth";
           client_principal_name := JStr "anonymous";
           client_group_names := [];
           access_token := JNull |}
  else
    let* s := get_session in
    let user := dict_get s "user" in
    if negb (truthy user) then
      ret {| authorized_ := false;
             client_principal_id := JNull;
             client_principal_name := JNull;
             client_group_names := [];
             access_token := JNull |}
    else
      match user with
      | JObj user =>
          let client_principal_id := dict_get user "oid" in
          let client_principal_name :=
            py_or (dict_get user "preferred_username") (dict_get user "upn") in
          let* graph_access_token :=
            try_except
              (let* t := get_valid_access_token svc BASIC_SCOPE in
               do* session_setitem "graph_access_token" t in
               ret t)
              (let* s := get_session in
               ret (dict_get_default s "graph_access_token" JNull)) in
          let* other_access_token :=
            if truthy (JStr (OTHER_AUTH_SCOPES cfg)) then
              try_except
                (let scopes := other_scopes (OTHER_AUTH_SCOPES cfg) in
                 let* t := get_valid_access_token svc scopes in
                 do* session_setitem "other_access_token" t in
                 ret t)
                (let* s := get_session in
                 ret (dict_get_default s "other_access_token" JNull))
            else ret JNull in
          let access_token :=
            if truthy other_access_token then other_access_token
            else graph_access_token in
          let* groups :=
            if truthy graph_access_token then
              let* reply := outbound (GraphMemberOf graph_access_token)
                              (fun w => graph_member_of svc w graph_access_token) in
              ret (groups_of reply)
            else ret [] in
          ret {| authorized_ := true;
                 client_principal_id := client_principal_id;
                 client_principal_name := client_principal_name;
                 client_group_names := groups;
                 access_token := access_token |}
      | _ => raise (Error "AttributeError")
      end.

End WithServices.

End Authz.
Export Authz.

(* ===================================================================== *)
(** * The streaming proxy                                                 *)
(* ===================================================================== *)

Module Proxy.

(** What the generator yields: the heartbeat of line 334, a line of the
    upstream (line 338), or the error line of a refused request (line 324). *)
Inductive chunk : Type :=
| Heartbeat
| Line (line : string)
| ErrorLine (status : Z).

Definition LF : ascii := "010"%char.

Definition render (c : chunk) : string :=
  match c with
  | Heartbeat => String ":" (String LF (String LF EmptyString))
  | Line l => l
  | ErrorLine status => "Error: " +:+ dec_of_Z status
  end.

(** [now - last_yield > 15], on exact clock readings; [Float64] has the
    test on the floats the clock returns. *)
Definition heartbeat_due (now last_yield : Q) : bool :=
  negb (Qle_bool (now - last_yield) 15).

(** The body of [async for line in resp.aiter_lines()], lines 328-339. *)
Fixpoint stream_loop (last_yield : Q) (lines : list (Q * string)) : list chunk :=
  match lines with
  | [] => []
  | (now, line) :: rest =>
      let beat := heartbeat_due now last_yield in
      let last_yield := if beat then now else last_yield in
      let forward := truthy (JStr line) in
      let last_yield := if forward then now else last_yield in
      ((if beat then [Heartbeat] else []) ++
       (if forward then [Line line] else []) ++
       stream_loop last_yield rest)%list
  end.

Definition stream_body (resp : upstream_response) : list chunk :=
  if negb (upstream_status resp =? 200) then [ErrorLine (upstream_status resp)]
  else stream_loop (stream_start resp) (upstream_lines resp).

(** The lines the client receives that came from the upstream. *)
Fixpoint forwarded (out : list chunk) : list string :=
  match out with
  | [] => []
  | Line l :: out' => l :: forwarded out'
  | _ :: out' => forwarded out'
  end.

Section WithServices.

Context {W C : Type}.
Variable cfg : config.
Variable svc : services W C.

(** [POST /speak] *)
Definition speak (req : request) : M W response :=
  match req_json req with
  | None => raise (Error "JSONDecodeError")
  | Some (JObj body) =>
      let question := dict_get body "spokenText" in
      let conversation_id := dict_get_default body "conversation_id" (JStr EmptyString) in
      if negb (truthy question)
      then raise (HTTPException 400 "Missing spokenText in request.")
      else
        let* auth_info := check_authorization cfg svc in
        if negb (authorized_ auth_info) then
          ret (JSONResponse
                 (JObj [("answer",
                         JStr "You are not authorized to access this service. Please contact your administrator.");
                        ("thoughts", JStr "User not authorized.");
                        ("conversation_id", conversation_id)])
                 401)
        else
          let access_token := access_token auth_info in
          let payload :=
            [("conversation_id", conversation_id);
             ("question", question);
             ("text_only", JBool true);
             ("client_principal_id", client_principal_id auth_info);
             ("client_principal_name", client_principal_name auth_info);
             ("client_group_names", JArr (client_group_names auth_info))] in
          let payload :=
            if truthy access_token
            then dict_set payload "access_token" access_token
            else payload in
          let headers :=
            [("x-functions-key", JStr (FUNCTION_KEY cfg));
             ("Content-Type", JStr "application/json")] in
          ret (StreamingResponse payload headers "text/event-stream")
  | Some _ => raise (Error "AttributeError")
  end.

(** [stream_generator()], run when the response body is sent: the POST to
    the orchestrator is made here and nowhere else. *)
Definition stream_generator (payload headers : pydict) : M W (list chunk) :=
  let* resp := outbound (OrchestratorPost payload headers)
                 (fun w => orchestrator svc w payload headers) in
  ret (stream_body resp).

(** The endpoint as the client observes it: the response of [speak] and,
    for a streaming response, the text chunks of its body. *)
Definition serve_speak (req : request) : M W (response * list string) :=
  let* r := speak req in
  match r with
  | StreamingResponse payload headers _ =>
      let* out := stream_generator payload headers in
      ret (r, map render out)
  | _ => ret (r, [])
  end.

End WithServices.

End Proxy.
Export Proxy.

(* ===================================================================== *)
(** * The application behind the middleware                               *)
(* ===================================================================== *)

Module App.

Section WithServices.

Context {W C : Type}.

(** [call_next] for a route handler [h].  FastAPI's exception middleware
    sits inside the session middleware and answers an [HTTPException] with a
    JSON response of that status; any other exception comes out of
    [await call_next(request)].  The handlers are modelled on a session
    that is a mapping, which is what the middleware loads from a record it
    wrote; the last case stands for the failure of a dictionary operation
    on any other record. *)
Definition call_next_of (h : M W response) (w : W) (session_data : json) : call_outcome :=
  match session_data with
  | JObj d =>
      match h {| session := d; world := w; calls := [] |} with
      | (Val r, st) => Responded r (JObj (session st))
      | (Exc (HTTPException status detail), st) =>
          Responded (JSONResponse (JObj [("detail", JStr detail)]) status)
                    (JObj (session st))
      | (Exc (Error what), st) => Propagated what (JObj (session st))
      end
  | _ => Propagated "session record is not a mapping" session_data
  end.

End WithServices.

End App.
Export App.

(* ===================================================================== *)
(** * Login, page routes and configuration endpoints                      *)
(* ===================================================================== *)

Module Pages.

(** What [login] needs from outside: [uuid.uuid4()] and MSAL's
    [get_authorization_request_url], which may raise. *)
Record login_services (W : Type) : Type := {
  uuid4 : W -> string * W;
  get_authorization_request_url :
    W -> list string -> string -> string -> attempt string * W
}.
Arguments uuid4 {W} _ _.
Arguments get_authorization_request_url {W} _ _ _ _ _.

(** A step of the outside world that [call] does not list. *)
Definition world_step {W A : Type} (f : W -> A * W) : M W A :=
  fun st =>
    let (a, w') := f (world st) in
    (Val a, {| session := session st; world := w'; calls := calls st |}).

Section WithServices.

Context {W : Type}.
Variable cfg : config.
Variable ids : login_services W.

(** [_build_auth_url(state)] *)
Definition _build_auth_url (state : string) : M W string :=
  let* url := world_step
                (fun w => get_authorization_request_url ids w BASIC_SCOPE state
                            (REDIRECT_URI cfg)) in
  match url with
  | Returns auth_url => ret auth_url
  | Raises => raise (Error "get_authorization_request_url")
  end.

(** [GET /login] *)
Definition login (req : request) : M W response :=
  if negb (ENABLE_AUTHENTICATION cfg) then ret (RedirectResponse "/" 303)
  else
    let* state := world_step (uuid4 ids) in
    do* session_setitem "state" (JStr state) in
    let* auth_url := _build_auth_url state in
    ret (RedirectResponse auth_url 303).

(** [GET /] *)
Definition serve_index (req : request) : M W response :=
  let* s := get_session in
  if ENABLE_AUTHENTICATION cfg && negb (truthy (dict_get s "user"))
  then ret (RedirectResponse "/login" 303)
  else ret (FileResponse "static/index.html").

(** [GET /favicon.ico] *)
Definition serve_favicon (req : request) : M W response :=
  let* s := get_session in
  if ENABLE_AUTHENTICATION cfg && negb (truthy (dict_get s "user"))
  then ret (RedirectResponse "/login" 303)
  else ret (FileResponse "static/image/favicon.ico").

End WithServices.

(** [GET /get-supported-languages]; the argument is the value of the
    environment variable [SUPPORTED_LANGUAGES], if set. *)
Definition languages_list (supported_languages : string) : list string :=
  map strip (split_comma supported_languages).

Definition get_supported_languages (env : option string) : response :=
  let supported_languages := default "en-US,de-DE,zh-CN,nl-NL" env in
  JSONResponse
    (JObj [("supported_languages", JArr (map JStr (languages_list supported_languages)))])
    200.

End Pages.
Export Pages.

(* ===================================================================== *)
(** * The session middleware on a store and a codec that can fail         *)
(* ===================================================================== *)

Module Io.

(** [dispatch] once more, lines 41-77, with every library call it makes as
    an operation that may raise: [os.path.exists], [aiofiles.open] and
    [f.read] on line 46-47, [json.loads] inside the [try] of lines 48-52,
    [aiofiles.open] on line 75, [json.dumps] and [f.write] on line 76.
    Nothing is assumed of the disk, of the way paths name files, or of the
    values a session holds. *)

(** The library call an exception came out of. *)
Inductive stage : Type :=
| Reading
| Opening
| Serializing
| Writing.

(** Why [dispatch] ended without a response: a library call of its own
    raised, or the exception of the wrapped application came out of
    [await call_next(request)]. *)
Inductive failure : Type :=
| Library (at_stage : stage)
| Application (exn : string).

Section WithStore.

(** [S] is the type of the values a session can be, [D] the state of the
    disk. *)
Context {S D : Type}.

Record codec : Type := {
  empty_dict : S;
  loads : string -> option S;
  dumps : S -> attempt string
}.

Record store : Type := {
  path_exists : D -> string -> bool;
  read_text : D -> string -> attempt string;
  open_w : D -> string -> attempt unit * D;
  write_text : D -> string -> string -> attempt unit * D
}.

Inductive outcome : Type :=
| Responded (r : response) (session' : S)
| Propagated (exn : string) (session' : S).

Inductive event : Type :=
| ReadText (path : string)
| CallNext (session_data : S)
| OpenW (path : string)
| WriteText (path content : string).

Inductive result : Type :=
| Sent (r : response) (set_cookie : option cookie)
| Failed (f : failure).

Variable mw : middleware.
Variable cd : codec.
Variable os : store.

(** Lines 42-56.  The [open] and the [read] of lines 46-47 are outside the
    [try]: when one of them raises, so does [dispatch]. *)
Definition load_session (d : D) (req : request) : attempt S * list event :=
  match session_id_of mw req with
  | Some session_id =>
      let session_file := session_file_of mw session_id in
      if path_exists os d session_file then
        match read_text os d session_file with
        | Returns content =>
            (Returns (match loads cd content with
                      | Some session_data => session_data
                      | None => empty_dict cd
                      end), [ReadText session_file])
        | Raises => (Raises, [ReadText session_file])
        end
      else (Returns (empty_dict cd), [])
  | None => (Returns (empty_dict cd), [])
  end.

(** Lines 74-76, once the response exists: the file is opened for writing,
    which creates or truncates it, the mapping is serialized, the text is
    written. *)
Definition persist (d : D) (session_file : string) (session' : S)
  : option stage * D * list event :=
  match open_w os d session_file with
  | (Raises, opened) => (Some Opening, opened, [OpenW session_file])
  | (Returns _, opened) =>
      match dumps cd session' with
      | Raises => (Some Serializing, opened, [OpenW session_file])
      | Returns content =>
          match write_text os opened session_file content with
          | (Raises, written_to) =>
              (Some Writing, written_to, [OpenW session_file; WriteText session_file content])
          | (Returns _, written_to) =>
              (None, written_to, [OpenW session_file; WriteText session_file content])
          end
      end
  end.

(** [FileSessionMiddleware.dispatch] *)
Definition dispatch (d : D) (req : request) (call_next : S -> outcome)
    (urandom : list ascii) : result * D * list event :=
  match load_session d req with
  | (Raises, loaded) => (Failed (Library Reading), d, loaded)
  | (Returns session_data, loaded) =>
      match call_next session_data with
      | Propagated exn _ =>
          (Failed (Application exn), d, (loaded ++ [CallNext session_data])%list)
      | Responded response session' =>
          let (session_id, set_cookie) :=
            match session_id_of mw req with
            | Some sid => (sid, None)
            | None =>
                let sid := token_hex urandom in
                (sid, Some {| key := cookie_name mw; value := sid;
                              cookie_max_age := max_age mw; httponly := true;
                              samesite := "lax" |})
            end in
          match persist d (session_file_of mw session_id) session' with
          | (Some raised, d', written) =>
              (Failed (Library raised), d',
               (loaded ++ CallNext session_data :: written)%list)
          | (None, d', written) =>
              (Sent response set_cookie, d',
               (loaded ++ CallNext session_data :: written)%list)
          end
      end
  end.

End WithStore.

Arguments codec : clear implicits.
Arguments store : clear implicits.
Arguments outcome : clear implicits.
Arguments event : clear implicits.

(** The store and the codec of [Store.dispatch]: a directory of text files
    that can always be read and written, and the JSON text of [Json]. *)
Definition text_files : store (gmap string string) :=
  {| path_exists := fun fs path => bool_decide (is_Some (fs !! path));
     read_text := fun fs path =>
                    match fs !! path with
                    | Some content => Returns content
                    | None => Raises
                    end;
     open_w := fun fs path => (Returns tt, <[path := EmptyString]> fs);
     write_text := fun fs path content => (Returns tt, <[path := content]> fs) |}.

Definition json_codec : codec json :=
  {| empty_dict := JObj [];
     loads := json_loads;
     dumps := fun v => Returns (json_dumps v) |}.

(** What [Store.dispatch] reports, in the terms of this module. *)
Definition of_outcome (o : call_outcome) : outcome json :=
  match o with
  | Store.Responded r s' => Responded r s'
  | Store.Propagated exn s' => Propagated exn s'
  end.

Definition of_event (ev : mw_event) : list (event json) :=
  match ev with
  | EvRead path => [ReadText path]
  | EvCallNext session_data => [CallNext session_data]
  | EvWrite path content => [OpenW path; WriteText path content]
  end.

Definition of_result (res : dispatch_result) : result :=
  match res with
  | Store.Sent r set_cookie => Sent r set_cookie
  | Store.Failed exn => Failed (Application exn)
  end.

End Io.

(* ===================================================================== *)
(** * Python objects that [json.dumps] accepts                            *)
(* ===================================================================== *)

Module PyObj.





End PyObj.

(* ===================================================================== *)
(** * The heartbeat test on the floats of the event-loop clock            *)
(* ===================================================================== *)

Module Float64.

(** [asyncio.get_event_loop().time()] returns a Python [float], an IEEE 754
    binary64 number, and [now - last_yield] is the binary64 subtraction,
    rounded to nearest even. *)
Definition float : Type := SpecFloat.spec_float.

Definition of_int (z : Z) : float := SpecFloat.binary_normalize 53 1024 z 0 false.

Definition sub (x y : float) : float := SpecFloat.SFsub 53 1024 x y.

(** [now - last_yield > 15]: a float against an integer it represents
    exactly. *)
Definition heartbeat_due (now last_yield : float) : bool :=
  SpecFloat.SFltb (of_int 15) (sub now last_yield).

(** The response of the orchestrator with the readings of the clock as the
    floats they are; [stream_end] is the reading when [aiter_lines] is
    exhausted, which the generator never takes. *)
Record upstream_response : Type := {
  upstream_status : Z;
  stream_start : float;
  upstream_lines : list (float * string);
  stream_end : float
}.

(** Lines 328-339. *)
Fixpoint stream_loop (last_yield : float) (lines : list (float * string)) : list chunk :=
  match lines with
  | [] => []
  | (now, line) :: rest =>
      let beat := heartbeat_due now last_yield in
      let last_yield := if beat then now else last_yield in
      let forward := truthy (JStr line) in
      let last_yield := if forward then now else last_yield in
      ((if beat then [Heartbeat] else []) ++
       (if forward then [Line line] else []) ++
       stream_loop last_yield rest)%list
  end.

(** Lines 323-339. *)
Definition stream_body (resp : upstream_response) : list chunk :=
  if negb (upstream_status resp =? 200) then [ErrorLine (upstream_status resp)]
  else stream_loop (stream_start resp) (upstream_lines resp).

End Float64.

(* ===================================================================== *)
(** * Vocabulary of the statements                                        *)
(* ===================================================================== *)

Module Spec.

(** Past the state check the callback only adds outbound calls after the
    ones already made; the first it can add is the token exchange. *)
Definition exchanges_code {W : Type} (code : string) (before after : hstate W) : Prop :=
  exists later,
    calls after = (calls before ++ AcquireTokenByAuthorizationCode code :: later)%list.

End Spec.
Export Spec.

Module StreamSpec.

(** C4 as stated: every line received from the upstream is forwarded, in
    order, none omitted. *)
Definition forwards_every_line (resp : upstream_response) : Prop :=
  forwarded (stream_body resp) = map snd (upstream_lines resp).

(** The lines of the upstream that are not blank. *)
Definition nonblank (lines : list (Q * string)) : list string :=
  List.filter (fun l => truthy (JStr l)) (map snd lines).

(** The value of [last_yield] once the loop has consumed [lines]. *)
Fixpoint last_yield_after (last_yield : Q) (lines : list (Q * string)) : Q :=
  match lines with
  | [] => last_yield
  | (now, line) :: rest =>
      last_yield_after
        (if heartbeat_due now last_yield || truthy (JStr line) then now else last_yield)
        rest
  end.


End StreamSpec.
Export StreamSpec.

Module StoreSpec.

(** The session identifier a request ends up with: the one of its cookie,
    or the one minted for it. *)
Definition session_id_used (mw : middleware) (req : request) (urandom : list ascii) : string :=
  default (token_hex urandom) (session_id_of mw req).

End StoreSpec.
Export StoreSpec.

Module JsonSpec.

(** What can follow a value in a JSON text: the end, a comma or a closing
    bracket. *)
Definition ends_value (s : string) : bool :=
  match s with
  | EmptyString => true
  | String c _ => Ascii.eqb c "," || Ascii.eqb c "]" || Ascii.eqb c "}"
  end.

(** A text that starts a value: not with white space, not with a closing
    bracket. *)
Definition starts_value (s : string) : bool :=
  match s with
  | EmptyString => false
  | String c _ => negb (is_ws c) && negb (Ascii.eqb c "]") && negb (Ascii.eqb c "}")
  end.

(** Fuel that parsing the text of a value takes. *)
Fixpoint cost (v : json) : nat :=
  match v with
  | JArr l => S (list_sum (map (fun x => S (cost x)) l))
  | JObj kvs => S (list_sum (map (fun kv => S (cost (snd kv))) kvs))
  | _ => 1
  end.

(** The text of [v], followed by anything that can follow a value, parses
    back to [v] whenever the fuel covers its cost. *)
Definition parses_back (v : json) : Prop :=
  forall (fuel : nat) (rest : string),
    (cost v <= fuel)%nat -> wf_json v = true -> ends_value rest = true ->
    parse_value fuel (json_dumps v +:+ rest) = Some (v, rest).

Definition member_text (kv : string * json) : string :=
  match kv with (k, w) => quote k +:+ ": " +:+ json_dumps w end.

End JsonSpec.
Export JsonSpec.

Module StoreProps.

Definition is_hex_lower (c : ascii) : bool :=
  let n := N_of_ascii c in
  (((48 <=? n) && (n <=? 57)) || ((97 <=? n) && (n <=? 102)))%N.

Fixpoint all_chars (p : ascii -> bool) (s : string) : bool :=
  match s with
  | EmptyString => true
  | String c s' => p c && all_chars p s'
  end.

(** The file system once [dispatch] is over. *)
Definition files_after (mw : middleware) (fs : gmap string string) (req : request)
    (call_next : json -> call_outcome) (urandom : list ascii) : gmap string string :=
  snd (fst (dispatch mw fs req call_next urandom)).

End StoreProps.
Export StoreProps.

Module AuthProps.

(** The token cache [_load_cache] hands to MSAL for a session. *)
Definition loaded_cache {W C : Type} (svc : services W C) (s : pydict) : token_cache C :=
  match dict_lookup s "msal_cache" with
  | Some blob => default (cache_new svc) (cache_deserialize svc blob)
  | None => cache_new svc
  end.

(** The identity stored for the claims of an identity token. *)
Definition minimal_user_of (user_claims : pydict) : json :=
  JObj [("oid", dict_get user_claims "oid");
        ("preferred_username",
         py_or (dict_get user_claims "preferred_username") (dict_get user_claims "upn"))].

(** A state for a later request on the session [s]. *)
Definition later {W : Type} (s : pydict) (w : W) : hstate W :=
  {| session := s; world := w; calls := [] |}.

End AuthProps.
Export AuthProps.

Module AuthzProps.

(** The state once [check_authorization] has been entered. *)
Definition entered {W : Type} (st : hstate W) : hstate W :=
  {| session := session st; world := world st;
     calls := (calls st ++ [CheckAuthorization])%list |}.

(** What a [try]/[except] block around a silent acquisition yields: the
    token and the state it leaves. *)
Definition refreshed {W C : Type} (svc : services W C) (scopes : list string)
    (key : string) (st : hstate W) : json * hstate W :=
  match get_valid_access_token svc scopes st with
  | (Val t, st') => (t, snd (session_setitem key t st'))
  | (Exc _, st') => (dict_get (session st') key, st')
  end.

(** The secondary token, when [OTHER_AUTH_SCOPES] is set. *)
Definition refreshed_other {W C : Type} (cfg : config) (svc : services W C)
    (st : hstate W) : json * hstate W :=
  if truthy (JStr (OTHER_AUTH_SCOPES cfg))
  then refreshed svc (other_scopes (OTHER_AUTH_SCOPES cfg)) "other_access_token" st
  else (JNull, st).

Definition is_object (v : json) : bool :=
  match v with JObj _ => true | _ => false end.

Definition display_name (g : json) : json :=
  match g with
  | JObj d => dict_get_default d "displayName" (JStr "missing-group")
  | _ => JNull
  end.

End AuthzProps.
Export AuthzProps.

Module ProxyProps.

Fixpoint heartbeats (out : list chunk) : nat :=
  match out with
  | [] => 0
  | Heartbeat :: out' => S (heartbeats out')
  | _ :: out' => heartbeats out'
  end.

(** Every line is non-blank and comes at most 15 seconds after the line
    before it ([t] for the first). *)
Fixpoint steady (t : Q) (lines : list (Q * string)) : Prop :=
  match lines with
  | [] => True
  | (now, line) :: rest =>
      (now - t <= 15)%Q /\ line <> EmptyString /\ steady now rest
  end.

Fixpoint count_commas (s : string) : nat :=
  match s with
  | EmptyString => 0
  | String c s' => (if Ascii.eqb c "," then 1 else 0) + count_commas s'
  end.

Definition not_comma (c : ascii) : bool := negb (Ascii.eqb c ",").

Definition separator (c : ascii) : bool := Ascii.eqb c "," || py_isspace c.

End ProxyProps.
Export ProxyProps.

Module IoSpec.

Definition is_read {S : Type} (ev : Io.event S) : Prop := exists path, ev = Io.ReadText path.

(** The two steps of lines 75-76 on the file [session_file]. *)
Definition is_persist {S : Type} (session_file : string) (ev : Io.event S) : Prop :=
  ev = Io.OpenW session_file \/ exists content, ev = Io.WriteText session_file content.

(** The mapping the handler left in [request.state.session], whether it
    returned or raised. *)
Definition left_by {S : Type} (o : Io.outcome S) : S :=
  match o with
  | Io.Responded _ session' => session'
  | Io.Propagated _ session' => session'
  end.

(** C1 as stated: once the handler has completed, by returning or by
    raising, the mapping it left is serialized and written to the session
    file. *)
Definition writes_back_after_handler {S D : Type} (mw : middleware)
    (cd : Io.codec S) (os : Io.store D) (d : D) (req : request)
    (call_next : S -> Io.outcome S) (urandom : list ascii) : Prop :=
  forall session_data loaded,
    Io.load_session mw cd os d req = (Returns session_data, loaded) ->
    exists content,
      Io.dumps cd (left_by (call_next session_data)) = Returns content
      /\ In (Io.WriteText (session_file_of mw (session_id_used mw req urandom)) content)
            (snd (Io.dispatch mw cd os d req call_next urandom)).

(** A disk that keeps what was written to it: a path whose write went
    through exists afterwards and reads as the text written. *)
Definition keeps_text {D : Type} (os : Io.store D) : Prop :=
  forall d path content d',
    Io.write_text os d path content = (Returns tt, d') ->
    Io.path_exists os d' path = true /\ Io.read_text os d' path = Returns content.


End IoSpec.

Module JsonProps.

(** CPython refuses to print or parse an integer of more than 4300 decimal
    digits ([sys.get_int_max_str_digits()]); [json.dumps] and [json.loads]
    raise [ValueError] on one. *)
Fixpoint small_ints (v : json) : bool :=
  match v with
  | JInt z => Z.abs z <? 10 ^ 4300
  | JArr l => forallb small_ints l
  | JObj kvs => forallb (fun kv => small_ints (snd kv)) kvs
  | _ => true
  end.

(** The characters a JSON value can start with, for [json.loads]: a quote,
    a bracket, a brace, a minus sign, a digit, and the first letters of
    [true], [false], [null], [NaN] and [Infinity]. *)
Definition starts_json_value (c : ascii) : bool :=
  let n := N_of_ascii c in
  (Ascii.eqb c dquote || Ascii.eqb c "[" || Ascii.eqb c "{" || Ascii.eqb c "-"
   || ((48 <=? n) && (n <=? 57))%N
   || Ascii.eqb c "t" || Ascii.eqb c "f" || Ascii.eqb c "n"
   || Ascii.eqb c "N" || Ascii.eqb c "I").

(** A text that is not JSON from its first character on: it is blank, or
    the first character after the white space cannot start a value. *)
Definition not_json (content : string) : bool :=
  match skip_ws content with
  | EmptyString => true
  | String c _ => negb (starts_json_value c)
  end.

End JsonProps.
Export JsonProps.

Module Float64Spec.

(** The number a finite float stands for. *)
Definition exact (x : Float64.float) : Q :=
  match x with
  | SpecFloat.S754_finite s m e =>
      (inject_Z (if s then Zneg m else Zpos m) * Qpower 2 e)%Q
  | _ => 0%Q
  end.


(** The value of [last_yield] once the loop has consumed [lines]. *)
Fixpoint last_yield_after (last_yield : Float64.float)
    (lines : list (Float64.float * string)) : Float64.float :=
  match lines with
  | [] => last_yield
  | (now, line) :: rest =>
      last_yield_after
        (if Float64.heartbeat_due now last_yield || truthy (JStr line)
         then now else last_yield)
        rest
  end.


End Float64Spec.

(* ===================================================================== *)
(** * Sample configurations, services and requests                        *)
(* ===================================================================== *)

Module Sample.

Definition cfg_auth : config :=
  {| ENABLE_AUTHENTICATION := true;
     AUTHORITY := "https://login.microsoftonline.com/your_tenant_id";
     REDIRECT_URI := "http://localhost:8000/getAToken";
     OTHER_AUTH_SCOPES := "api://orc/.default, api://kb/.default";
     FUNCTION_KEY := "function-key" |}.

Definition no_upstream : upstream_response :=
  {| upstream_status := 503; stream_start := 0%Q; upstream_lines := [] |}.

(** The identity provider cannot be reached: every MSAL call raises, and so
    does the Graph request. *)
Definition svc_offline : services unit string :=
  {| cache_new := {| contents := EmptyString; has_state_changed := false |};
     cache_deserialize := fun _ => None;
     cache_serialize := fun c => c;
     acquire_token_silent := fun w _ cache => (Raises, cache, w);
     acquire_token_by_authorization_code := fun w _ cache => (Raises, cache, w);
     graph_member_of := fun w _ => (Raises, w);
     orchestrator := fun w _ _ => (no_upstream, w) |}.

(** An identity provider that answers every code with tokens for one user. *)
Definition svc_online : services unit string :=
  {| cache_new := {| contents := EmptyString; has_state_changed := false |};
     cache_deserialize :=
       fun blob => match blob with
                   | JStr c => Some {| contents := c; has_state_changed := false |}
                   | _ => None
                   end;
     cache_serialize := fun c => c;
     acquire_token_silent :=
       fun w _ cache => (Returns (Some [("access_token", JStr "fresh")]), cache, w);
     acquire_token_by_authorization_code :=
       fun w code cache =>
         (Returns [("access_token", JStr "at"); ("refresh_token", JStr "rt");
                   ("id_token_claims",
                    JObj [("oid", JStr "0001"); ("upn", JStr "ada@example.org")])],
          {| contents := "cache:" +:+ code; has_state_changed := true |}, w);
     graph_member_of :=
       fun w _ => (Returns (JObj [("value", JArr [JObj [("displayName", JStr "staff")];
                                                  JObj []])]), w);
     orchestrator := fun w _ _ => (no_upstream, w) |}.

Definition start (s : pydict) : hstate unit :=
  {| session := s; world := tt; calls := [] |}.

Definition get_request (query : list (string * string)) : request :=
  {| cookies := ∅; query_params := list_to_map query; req_json := None |}.

Definition post_request (sid : string) (body : pydict) : request :=
  {| cookies := {[ "session_id" := sid ]}; query_params := ∅;
     req_json := Some (JObj body) |}.

(** The identity provider cannot be reached when the login URL is built. *)
Definition ids_down : login_services unit :=
  {| uuid4 := fun w => ("3f2b8c1e-7a44-4d0e-9b1a-5c6d7e8f9a0b", w);
     get_authorization_request_url := fun w _ _ _ => (Raises, w) |}.

(** A session directory without subdirectories: a file can be opened for
    writing when its path is the directory, a slash and a name without
    slash, and not otherwise. *)
Definition in_directory (dir path : string) : bool :=
  match strip_prefix (dir +:+ "/") path with
  | Some name => all_chars (fun c => negb (Ascii.eqb c "/")) name
  | None => false
  end.

Definition flat_directory (dir : string) : Io.store (gmap string string) :=
  {| Io.path_exists := Io.path_exists Io.text_files;
     Io.read_text := Io.read_text Io.text_files;
     Io.open_w := fun fs path =>
                    if in_directory dir path then Io.open_w Io.text_files fs path
                    else (Raises, fs);
     Io.write_text := Io.write_text Io.text_files |}.


(** A request of the session [sid] with the query parameters [query]. *)
Definition with_cookie (sid : string) (query : list (string * string)) : request :=
  {| cookies := {[ "session_id" := sid ]}; query_params := list_to_map query;
     req_json := None |}.

End Sample.

(* ===================================================================== *)
(** * Properties                                                          *)
(* ===================================================================== *)

(** ** Values *)

Lemma json_eqb_opt_str (o : option string) (v : json) :
  json_eqb (opt_str o) v = true <-> opt_str o = v.
Proof.
  destruct o as [a|]; destruct v; simpl; split; intros H;
    try discriminate; try reflexivity.
  - apply String.eqb_eq in H. now subst.
  - injection H as ->. apply String.eqb_refl.
Qed.

(** ** The JSON text of a value parses back to the value *)

Lemma append_cons (x : ascii) (a b : string) : String x a +:+ b = String x (a +:+ b).
Proof. reflexivity. Qed.

Lemma append_assoc (a b c : string) : (a +:+ b) +:+ c = a +:+ (b +:+ c).
Proof.
  induction a as [|x a IH]; [reflexivity|].
  rewrite !append_cons. now f_equal.
Qed.

Lemma append_empty_r (a : string) : a +:+ EmptyString = a.
Proof.
  induction a as [|x a IH]; [reflexivity|]. rewrite append_cons. now f_equal.
Qed.

Lemma length_append (a b : string) :
  String.length (a +:+ b) = (String.length a + String.length b)%nat.
Proof.
  induction a as [|x a IH]; [reflexivity|].
  rewrite append_cons. cbn [String.length]. now rewrite IH.
Qed.

(** *** String literals *)

Lemma parse_str_body_escape_char (c : ascii) (s : string) :
  parse_str_body (escape_char c +:+ s) =
  match parse_str_body s with
  | Some (r, rest) => Some (String c r, rest)
  | None => None
  end.
Proof.
  destruct c as [[] [] [] [] [] [] [] []]; reflexivity.
Qed.

Lemma parse_str_body_escape (s rest : string) :
  parse_str_body (escape s +:+ String dquote rest) = Some (s, rest).
Proof.
  induction s as [|c s IH]; [reflexivity|].
  cbn [escape]. rewrite append_assoc, parse_str_body_escape_char, IH. reflexivity.
Qed.

Lemma parse_str_body_quote (s rest : string) :
  exists body, quote s +:+ rest = String dquote body
               /\ parse_str_body body = Some (s, rest).
Proof.
  exists (escape s +:+ String dquote rest). split.
  - unfold quote. rewrite append_cons, append_assoc. reflexivity.
  - apply parse_str_body_escape.
Qed.
(** *** Numbers *)

Lemma read_digits_string_of_uint (d : Decimal.uint) (rest : string) :
  ends_value rest = true ->
  read_digits (NilEmpty.string_of_uint d +:+ rest) = (d, rest).
Proof.
  intros Hrest.
  induction d as [|d IH|d IH|d IH|d IH|d IH|d IH|d IH|d IH|d IH|d IH];
    cbn [NilEmpty.string_of_uint]; rewrite ?append_cons;
    try (cbn [read_digits digit_of N_of_ascii N_of_digits]; cbn; rewrite IH; reflexivity).
  change (EmptyString +:+ rest) with rest.
  destruct rest as [|c rest]; [reflexivity|].
  cbn [read_digits]. cbn in Hrest.
  destruct (digit_of c) eqn:E; [|reflexivity].
  exfalso. revert Hrest E.
  destruct c as [[] [] [] [] [] [] [] []]; cbn; discriminate.
Qed.

Lemma unorm_head (d d' : Decimal.uint) : unorm d = D0 d' -> d' = Nil.
Proof.
  unfold unorm. induction d; cbn [nzhead]; try discriminate.
  - intros [= <-]. reflexivity.
  - exact IHd.
Qed.

Lemma to_uint_head (p : positive) :
  match Pos.to_uint p with
  | Nil | D0 _ => False
  | _ => True
  end.
Proof.
  pose proof (DecimalPos.Unsigned.to_uint_nonzero p) as Hnz.
  pose proof (DecimalPos.Unsigned.to_of (Pos.to_uint p)) as Hnorm.
  rewrite (DecimalPos.Unsigned.of_to p) in Hnorm. cbn [N.to_uint] in Hnorm.
  pose proof (DecimalPos.Unsigned.to_uint_nonnil p) as Hnn.
  destruct (Pos.to_uint p) as [|d| | | | | | | | |]; try exact I.
  - now apply Hnn.
  - symmetry in Hnorm. apply unorm_head in Hnorm. subst d. now apply Hnz.
Qed.

Lemma parse_magnitude (p : positive) (rest : string) :
  ends_value rest = true ->
  exists c s, dec_of_N (Npos p) = String c s
    /\ Ascii.eqb c "-" = false /\ Ascii.eqb c "0" = false
    /\ is_ws c = false /\ Ascii.eqb c "]" = false /\ Ascii.eqb c "}" = false
    /\ Ascii.eqb c dquote = false /\ Ascii.eqb c "[" = false /\ Ascii.eqb c "{" = false
    /\ Ascii.eqb c "n" = false /\ Ascii.eqb c "t" = false /\ Ascii.eqb c "f" = false
    /\ read_digits (String c s +:+ rest) = (Pos.to_uint p, rest)
    /\ Pos.to_uint p <> Nil.
Proof.
  intros Hrest. unfold dec_of_N. cbn [N.to_uint].
  pose proof (read_digits_string_of_uint (Pos.to_uint p) rest Hrest) as Hread.
  pose proof (to_uint_head p) as Hhead.
  destruct (Pos.to_uint p) as [|d|d|d|d|d|d|d|d|d|d]; try contradiction;
    cbn [NilEmpty.string_of_uint] in *;
    do 2 eexists; (split; [reflexivity|]); repeat (split; [reflexivity|]);
    (split; [exact Hread|discriminate]).
Qed.
(** *** Values *)

Lemma json_ind' (P : json -> Prop)
    (HNull : P JNull) (HBool : forall b, P (JBool b)) (HInt : forall z, P (JInt z))
    (HStr : forall s, P (JStr s))
    (HArr : forall l, Forall P l -> P (JArr l))
    (HObj : forall kvs, Forall (fun kv => P (snd kv)) kvs -> P (JObj kvs)) :
  forall v, P v.
Proof.
  fix IH 1. intros [| b | z | s | l | kvs].
  - exact HNull.
  - apply HBool.
  - apply HInt.
  - apply HStr.
  - apply HArr. induction l as [|x l IHl]; constructor; [apply IH|exact IHl].
  - apply HObj. induction kvs as [|[k x] kvs IHl]; constructor; [apply IH|exact IHl].
Qed.

Lemma skip_ws_starts (s : string) : starts_value s = true -> skip_ws s = s.
Proof.
  destruct s as [|c s]; [reflexivity|]. cbn [starts_value skip_ws].
  destruct (is_ws c); [discriminate|reflexivity].
Qed.

Lemma ends_value_no_float (rest : string) :
  ends_value rest = true -> starts_float_tail rest = false.
Proof.
  destruct rest as [|c rest]; [reflexivity|].
  destruct c as [[] [] [] [] [] [] [] []]; cbn; try reflexivity; discriminate.
Qed.

Lemma parse_number_dec (z : Z) (rest : string) :
  ends_value rest = true ->
  parse_number (dec_of_Z z +:+ rest) = Some (JInt z, rest).
Proof.
  intros Hrest. pose proof (ends_value_no_float rest Hrest) as Hfloat.
  destruct z as [|p|p]; cbn [dec_of_Z].
  - unfold parse_number. change ("0" +:+ rest) with (String "0" rest).
    cbn [Ascii.eqb Bool.eqb]. rewrite Hfloat. reflexivity.
  - destruct (parse_magnitude p rest Hrest)
      as (c & s & -> & Hm & Hz & _ & _ & _ & _ & _ & _ & _ & _ & _ & Hread & Hnn).
    unfold parse_number. rewrite append_cons, Hm, Hz.
    rewrite <- append_cons, Hread.
    pose proof (DecimalPos.Unsigned.of_to p) as Hof.
    destruct (Pos.to_uint p) eqn:E; try contradiction;
      rewrite Hfloat; unfold N.of_uint; rewrite Hof; reflexivity.
  - destruct (parse_magnitude p rest Hrest)
      as (c & s & -> & Hm & Hz & _ & _ & _ & _ & _ & _ & _ & _ & _ & Hread & Hnn).
    unfold parse_number. rewrite !append_cons. cbn [Ascii.eqb Bool.eqb]. rewrite Hz.
    rewrite <- append_cons, Hread.
    pose proof (DecimalPos.Unsigned.of_to p) as Hof.
    destruct (Pos.to_uint p) eqn:E; try contradiction;
      rewrite Hfloat; unfold N.of_uint; rewrite Hof; reflexivity.
Qed.

Lemma head_dec_of_Z (z : Z) (rest : string) :
  exists c s, dec_of_Z z +:+ rest = String c s
    /\ is_ws c = false /\ Ascii.eqb c "]" = false /\ Ascii.eqb c "}" = false
    /\ Ascii.eqb c dquote = false /\ Ascii.eqb c "[" = false /\ Ascii.eqb c "{" = false
    /\ Ascii.eqb c "n" = false /\ Ascii.eqb c "t" = false /\ Ascii.eqb c "f" = false.
Proof.
  destruct z as [|p|p]; cbn [dec_of_Z].
  - do 2 eexists. split; [reflexivity|]. repeat split.
  - destruct (parse_magnitude p EmptyString eq_refl)
      as (c & s & -> & _ & _ & H1 & H2 & H3 & H4 & H5 & H6 & H7 & H8 & H9 & _).
    exists c, (s +:+ rest). rewrite append_cons. repeat split; assumption.
  - do 2 eexists. rewrite append_cons. split; [reflexivity|]. repeat split.
Qed.

Lemma starts_value_dumps (v : json) (rest : string) :
  starts_value (json_dumps v +:+ rest) = true.
Proof.
  destruct v as [| [] | z | s | l | kvs]; try reflexivity.
  destruct (head_dec_of_Z z rest) as (c & s & E & Hws & Hb & Hc & _).
  cbn [json_dumps]. rewrite E. cbn [starts_value]. now rewrite Hws, Hb, Hc.
Qed.

Lemma parse_value_leaf (f : nat) (v : json) (rest : string) :
  match v with JArr _ | JObj _ => False | _ => True end ->
  ends_value rest = true ->
  parse_value (S f) (json_dumps v +:+ rest) = Some (v, rest).
Proof.
  intros Hleaf Hrest. destruct v as [| [] | z | s | l | kvs]; try contradiction;
    try reflexivity.
  - destruct (head_dec_of_Z z rest)
      as (c & s & E & _ & _ & _ & H4 & H5 & H6 & H7 & H8 & H9).
    cbn [json_dumps parse_value]. rewrite E, H4, H5, H6, H7, H8, H9, <- E.
    now apply parse_number_dec.
  - destruct (parse_str_body_quote s rest) as (body & E & Hbody).
    cbn [json_dumps parse_value]. rewrite E. cbn [Ascii.eqb Bool.eqb dquote].
    now rewrite Hbody.
Qed.
(** *** Dictionaries without a repeated key *)

Lemma nodup_keys_NoDup (ks : list string) : nodup_keys ks = true <-> NoDup ks.
Proof.
  induction ks as [|k ks IH]; cbn [nodup_keys].
  - split; [constructor|reflexivity].
  - rewrite andb_true_iff, negb_true_iff, IH, NoDup_cons.
    assert (Hin : existsb (String.eqb k) ks = false <-> k ∉ ks).
    { rewrite <- not_true_iff_false, existsb_exists. split.
      - intros Hn Hk. apply Hn. exists k. split; [now apply list_elem_of_In|].
        apply String.eqb_refl.
      - intros Hn (x & Hx & E). apply String.eqb_eq in E. subst x.
        apply Hn. now apply list_elem_of_In. }
    now rewrite Hin.
Qed.

Lemma dict_set_fresh (d : pydict) (k : string) (v : json) :
  k ∉ map fst d -> dict_set d k v = (d ++ [(k, v)])%list.
Proof.
  induction d as [|[k0 v0] d IH]; cbn [dict_set map fst app]; [reflexivity|].
  intros Hk. apply not_elem_of_cons in Hk as [Hne Hk].
  destruct (String.eqb k0 k) eqn:E.
  - apply String.eqb_eq in E. congruence.
  - now rewrite IH.
Qed.

Lemma fold_dict_set_nodup (l acc : pydict) :
  NoDup (map fst (acc ++ l)%list) ->
  fold_left (fun d kv => dict_set d (fst kv) (snd kv)) l acc = (acc ++ l)%list.
Proof.
  revert acc. induction l as [|[k v] l IH]; intros acc Hnd; cbn [fold_left fst snd].
  - now rewrite app_nil_r.
  - rewrite dict_set_fresh.
    + rewrite IH; rewrite <- app_assoc; [reflexivity|exact Hnd].
    + rewrite map_app in Hnd. apply NoDup_app in Hnd as (_ & Hdisj & _).
      intros Hk. apply (Hdisj k Hk). cbn. left.
Qed.

Lemma dict_of_pairs_nodup (kvs : pydict) :
  nodup_keys (map fst kvs) = true -> dict_of_pairs kvs = kvs.
Proof.
  intros Hnd. apply nodup_keys_NoDup in Hnd.
  unfold dict_of_pairs. now rewrite fold_dict_set_nodup.
Qed.

(** *** Arrays and objects *)

Lemma skip_ws_space_dumps (v : json) (rest : string) :
  skip_ws (String " " (json_dumps v +:+ rest)) = json_dumps v +:+ rest.
Proof.
  cbn [skip_ws is_ws N_of_ascii N_of_digits]. cbn.
  apply skip_ws_starts, starts_value_dumps.
Qed.

Lemma concat_head {A : Type} (text : A -> string) (y : A) (l : list A) (rest : string) :
  exists tail, String.concat ", " (map text (y :: l)) +:+ rest = text y +:+ tail.
Proof.
  destruct l as [|z l].
  - now exists rest.
  - exists (", " +:+ String.concat ", " (map text (z :: l)) +:+ rest).
    change (String.concat ", " (map text (y :: z :: l)))
      with (text y +:+ ", " +:+ String.concat ", " (map text (z :: l))).
    now rewrite !append_assoc.
Qed.

Lemma skip_ws_sep_dumps (y : json) (l : list json) (rest : string) :
  skip_ws (String " " (String.concat ", " (map json_dumps (y :: l)) +:+ rest)) =
  String.concat ", " (map json_dumps (y :: l)) +:+ rest.
Proof.
  destruct (concat_head json_dumps y l rest) as [tail ->].
  apply skip_ws_space_dumps.
Qed.

Lemma parse_elems_dumps (l : list json) :
  l <> [] -> Forall parses_back l -> forallb wf_json l = true ->
  forall (fuel : nat) (rest : string),
    (list_sum (map (fun x => S (cost x)) l) <= fuel)%nat ->
    ends_value rest = true ->
    parse_elems fuel (String.concat ", " (map json_dumps l) +:+ String "]" rest) =
      Some (l, rest).
Proof.
  induction l as [|x l IH]; [contradiction|].
  intros _ Hall Hwf fuel rest Hfuel Hrest.
  apply Forall_cons in Hall as [Hx Hall].
  cbn [forallb] in Hwf. apply andb_true_iff in Hwf as [Hwx Hwf].
  change (S (cost x) + list_sum (map (fun x => S (cost x)) l) <= fuel)%nat in Hfuel.
  destruct fuel as [|f]; [lia|]. cbn [parse_elems].
  destruct l as [|y l].
  - cbn [map String.concat].
    rewrite (Hx f (String "]" rest)); [reflexivity|lia|exact Hwx|reflexivity].
  - change (String.concat ", " (map json_dumps (x :: y :: l)))
      with (json_dumps x +:+ ", " +:+ String.concat ", " (map json_dumps (y :: l))).
    rewrite !append_assoc.
    rewrite (Hx f); [|lia|exact Hwx|reflexivity].
    change (", " +:+ ?s) with (String "," (String " " s)).
    cbn [skip_ws]. change (is_ws ",") with false. cbv iota.
    change (Ascii.eqb "," "]") with false. change (Ascii.eqb "," ",") with true.
    cbv iota. rewrite skip_ws_sep_dumps.
    rewrite IH; [reflexivity|discriminate|exact Hall|exact Hwf|lia|exact Hrest].
Qed.

Lemma skip_ws_space_quote (k rest : string) :
  skip_ws (String " " (quote k +:+ rest)) = quote k +:+ rest.
Proof. reflexivity. Qed.

Lemma skip_ws_sep_members (kv : string * json) (kvs : pydict) (rest : string) :
  skip_ws (String " " (String.concat ", " (map member_text (kv :: kvs)) +:+ rest)) =
  String.concat ", " (map member_text (kv :: kvs)) +:+ rest.
Proof.
  destruct (concat_head member_text kv kvs rest) as [tail ->].
  destruct kv as [k w]. unfold member_text. rewrite !append_assoc.
  apply skip_ws_space_quote.
Qed.

Lemma parse_members_dumps (kvs : pydict) :
  kvs <> [] -> Forall (fun kv => parses_back (snd kv)) kvs ->
  forallb (fun kv => wf_json (snd kv)) kvs = true ->
  forall (fuel : nat) (rest : string),
    (list_sum (map (fun kv => S (cost (snd kv))) kvs) <= fuel)%nat ->
    ends_value rest = true ->
    parse_members fuel (String.concat ", " (map member_text kvs) +:+ String "}" rest) =
      Some (kvs, rest).
Proof.
  induction kvs as [|[k x] kvs IH]; [contradiction|].
  intros _ Hall Hwf fuel rest Hfuel Hrest.
  apply Forall_cons in Hall as [Hx Hall]. cbn [snd] in Hx.
  cbn [forallb snd] in Hwf. apply andb_true_iff in Hwf as [Hwx Hwf].
  change (S (cost x) + list_sum (map (fun kv => S (cost (snd kv))) kvs) <= fuel)%nat
    in Hfuel.
  destruct fuel as [|f]; [lia|]. cbn [parse_members].
  assert (Hone : forall tail, ends_value tail = true ->
            exists body,
              member_text (k, x) +:+ tail = String dquote body
              /\ parse_str_body body = Some (k, ": " +:+ json_dumps x +:+ tail)
              /\ parse_value f (json_dumps x +:+ tail) = Some (x, tail)).
  { intros tail Htail.
    destruct (parse_str_body_quote k (": " +:+ json_dumps x +:+ tail)) as (body & E & Hb).
    exists body. split; [|split; [exact Hb|]].
    - rewrite <- E. unfold member_text. now rewrite !append_assoc.
    - apply Hx; [lia|exact Hwx|exact Htail]. }
  destruct kvs as [|[k' y] kvs].
  - cbn [map String.concat].
    destruct (Hone (String "}" rest) eq_refl) as (body & -> & -> & Hv).
    change (Ascii.eqb dquote dquote) with true. cbv iota.
    change (": " +:+ ?s) with (String ":" (String " " s)).
    cbn [skip_ws]. change (is_ws ":") with false. cbv iota.
    change (Ascii.eqb ":" ":") with true. cbv iota.
    rewrite skip_ws_space_dumps, Hv. reflexivity.
  - change (String.concat ", " (map member_text ((k, x) :: (k', y) :: kvs)))
      with (member_text (k, x) +:+ ", "
            +:+ String.concat ", " (map member_text ((k', y) :: kvs))).
    rewrite !append_assoc.
    match goal with
    | |- context [member_text (k, x) +:+ ?t] =>
        destruct (Hone t eq_refl) as (body & -> & -> & Hv)
    end.
    change (Ascii.eqb dquote dquote) with true. cbv iota.
    change (": " +:+ ?s) with (String ":" (String " " s)).
    cbn [skip_ws]. change (is_ws ":") with false. cbv iota.
    change (Ascii.eqb ":" ":") with true. cbv iota.
    rewrite skip_ws_space_dumps, Hv.
    change (", " +:+ ?s) with (String "," (String " " s)).
    cbn [skip_ws]. change (is_ws ",") with false. cbv iota.
    change (Ascii.eqb "," "}") with false. change (Ascii.eqb "," ",") with true.
    cbv iota.
    rewrite skip_ws_sep_members.
    rewrite IH; [reflexivity|discriminate|exact Hall|exact Hwf|lia|exact Hrest].
Qed.
Lemma parse_value_dumps (v : json) : parses_back v.
Proof.
  induction v as [| b | z | s | l IHl | kvs IHkvs] using json_ind';
    intros fuel rest Hfuel Hwf Hrest;
    try (destruct fuel as [|f]; [cbn in Hfuel; lia|];
         now apply parse_value_leaf).
  - (* arrays *)
    cbn [cost] in Hfuel. destruct fuel as [|f]; [lia|].
    cbn [json_dumps wf_json] in *. rewrite !append_assoc.
    change ("[" +:+ ?s) with (String "[" s). change ("]" +:+ ?s) with (String "]" s).
    cbn [parse_value]. change (Ascii.eqb "[" dquote) with false.
    change (Ascii.eqb "[" "[") with true. cbv iota.
    destruct l as [|x l]; [reflexivity|].
    destruct (concat_head json_dumps x l (String "]" rest)) as [tail Etail].
    pose proof (starts_value_dumps x tail) as Hstart.
    rewrite <- Etail in Hstart.
    rewrite (skip_ws_starts _ Hstart).
    destruct (String.concat ", " (map json_dumps (x :: l)) +:+ String "]" rest)
      as [|c r] eqn:E; [discriminate|].
    cbn [starts_value] in Hstart.
    destruct (Ascii.eqb c "]"); [now rewrite !andb_false_r in Hstart|].
    rewrite <- E.
    rewrite parse_elems_dumps; [reflexivity|discriminate|exact IHl|exact Hwf|lia|exact Hrest].
  - (* objects *)
    cbn [cost] in Hfuel. destruct fuel as [|f]; [lia|].
    cbn [json_dumps wf_json] in *. apply andb_true_iff in Hwf as [Hnd Hwf].
    fold member_text. rewrite !append_assoc.
    change ("{" +:+ ?s) with (String "{" s). change ("}" +:+ ?s) with (String "}" s).
    cbn [parse_value]. change (Ascii.eqb "{" dquote) with false.
    change (Ascii.eqb "{" "[") with false. change (Ascii.eqb "{" "{") with true.
    cbv iota.
    destruct kvs as [|kv kvs]; [reflexivity|].
    pose proof (skip_ws_sep_members kv kvs (String "}" rest)) as Hskip.
    cbn [skip_ws] in Hskip. change (is_ws " ") with true in Hskip. cbv iota in Hskip.
    rewrite Hskip.
    destruct (concat_head member_text kv kvs (String "}" rest)) as [tail Etail].
    destruct (String.concat ", " (map member_text (kv :: kvs)) +:+ String "}" rest)
      as [|c r] eqn:E.
    { destruct kv as [k w]. unfold member_text, quote in Etail.
      rewrite !append_cons in Etail. discriminate. }
    assert (Hc : Ascii.eqb c "}" = false).
    { destruct kv as [k w]. unfold member_text, quote in Etail.
      rewrite !append_cons in Etail. injection Etail as -> _. reflexivity. }
    rewrite Hc, <- E.
    rewrite parse_members_dumps;
      [|discriminate|exact IHkvs|exact Hwf|lia|exact Hrest].
    now rewrite dict_of_pairs_nodup.
Qed.

(** *** Fuel *)

Lemma length_concat_ge {A : Type} (text : A -> string) (weight : A -> nat) (l : list A) :
  Forall (fun x => (weight x <= 2 * String.length (text x))%nat) l ->
  (list_sum (map (fun x => S (weight x)) l)
   <= 2 * String.length (String.concat ", " (map text l)) + 1)%nat.
Proof.
  induction l as [|x l IH]; intros Hall; [cbn; lia|].
  apply Forall_cons in Hall as [Hx Hall]. specialize (IH Hall).
  destruct l as [|y l].
  - cbn [map list_sum String.concat foldr]. cbn. lia.
  - change (String.concat ", " (map text (x :: y :: l)))
      with (text x +:+ ", " +:+ String.concat ", " (map text (y :: l))).
    rewrite !length_append.
    change (list_sum (map (fun x => S (weight x)) (x :: y :: l)))
      with (S (weight x) + list_sum (map (fun x => S (weight x)) (y :: l)))%nat.
    change (String.length ", ") with 2%nat. lia.
Qed.

Lemma cost_le_length (v : json) : (cost v <= 2 * String.length (json_dumps v))%nat.
Proof.
  induction v as [| b | z | s | l IHl | kvs IHkvs] using json_ind';
    cbn [cost json_dumps].
  - cbn. lia.
  - destruct b; cbn; lia.
  - destruct (head_dec_of_Z z EmptyString) as (c & s & E & _).
    rewrite append_empty_r in E. rewrite E. cbn [String.length]. lia.
  - unfold quote. cbn [String.length]. lia.
  - pose proof (length_concat_ge json_dumps cost l IHl) as Hsum.
    rewrite !length_append. change (String.length "[") with 1%nat.
    change (String.length "]") with 1%nat. lia.
  - fold member_text.
    assert (Hall : Forall (fun kv => (cost (snd kv) <= 2 * String.length (member_text kv))%nat) kvs).
    { eapply Forall_impl; [exact IHkvs|]. intros [k w] Hw. cbn [snd] in *.
      unfold member_text. rewrite !length_append. lia. }
    pose proof (length_concat_ge member_text (fun kv => cost (snd kv)) kvs Hall) as Hsum.
    rewrite !length_append. change (String.length "{") with 1%nat.
    change (String.length "}") with 1%nat. lia.
Qed.

(** [json.loads(json.dumps(v)) == v] for every value whose dictionaries
    have no repeated key. *)
Lemma json_loads_dumps (v : json) :
  wf_json v = true -> json_loads (json_dumps v) = Some v.
Proof.
  intros Hwf. unfold json_loads.
  pose proof (starts_value_dumps v EmptyString) as Hstart.
  rewrite append_empty_r in Hstart. rewrite (skip_ws_starts _ Hstart).
  pose proof (parse_value_dumps v (2 * String.length (json_dumps v) + 2)%nat EmptyString) as Hparse.
  rewrite append_empty_r in Hparse. rewrite Hparse; [reflexivity| |exact Hwf|reflexivity].
  pose proof (cost_le_length v). lia.
Qed.

(** ** The session middleware *)

(** When the exception of the application comes out of [call_next], the
    middleware has no response: [dispatch] ends there and writes nothing. *)
Lemma dispatch_propagated (mw : middleware) (fs : gmap string string)
    (req : request) (call_next : json -> call_outcome) (urandom : list ascii)
    (exn : string) (s' : json) :
  call_next (fst (load_session mw fs req)) = Propagated exn s' ->
  dispatch mw fs req call_next urandom =
    (Failed exn, fs,
     (snd (load_session mw fs req) ++ [EvCallNext (fst (load_session mw fs req))])%list).
Proof.
  intros Hcall. unfold dispatch.
  destruct (load_session mw fs req) as [session_data loaded]. cbn [fst snd] in *.
  now rewrite Hcall.
Qed.

Lemma dispatch_responded (mw : middleware) (fs : gmap string string)
    (req : request) (call_next : json -> call_outcome) (urandom : list ascii)
    (r : response) (s' : json) :
  call_next (fst (load_session mw fs req)) = Responded r s' ->
  exists set_cookie,
    dispatch mw fs req call_next urandom =
      (Sent r set_cookie,
       <[session_file_of mw (session_id_used mw req urandom) := json_dumps s']> fs,
       (snd (load_session mw fs req)
        ++ [EvCallNext (fst (load_session mw fs req));
            EvWrite (session_file_of mw (session_id_used mw req urandom))
                    (json_dumps s')])%list).
Proof.
  intros Hcall. unfold dispatch, session_id_used.
  destruct (load_session mw fs req) as [session_data loaded]. cbn [fst snd] in *.
  rewrite Hcall.
  destruct (session_id_of mw req) as [sid|]; cbn [default from_option id];
    eexists; reflexivity.
Qed.

(** ** The middleware when the disk and the codec can fail *)

Lemma io_load_session_reads {S D : Type} (mw : middleware) (cd : Io.codec S)
    (os : Io.store D) (d : D) (req : request) :
  Forall IoSpec.is_read (snd (Io.load_session mw cd os d req)).
Proof.
  unfold Io.load_session.
  destruct (session_id_of mw req) as [sid|]; cbn [snd]; [|constructor].
  destruct (Io.path_exists os d (session_file_of mw sid)); cbn [snd]; [|constructor].
  destruct (Io.read_text os d (session_file_of mw sid)); cbn [snd];
    repeat constructor; now exists (session_file_of mw sid).
Qed.

Lemma io_persist_events {S D : Type} (cd : Io.codec S) (os : Io.store D) (d : D)
    (session_file : string) (s' : S) :
  Forall (IoSpec.is_persist session_file) (snd (Io.persist cd os d session_file s')).
Proof.
  assert (Hopen : IoSpec.is_persist (S := S) session_file (Io.OpenW session_file))
    by now left.
  assert (Hwrite : forall content,
             IoSpec.is_persist (S := S) session_file (Io.WriteText session_file content))
    by (intros content; right; now exists content).
  unfold Io.persist.
  destruct (Io.open_w os d session_file) as [[[]|] opened]; cbn [snd].
  - destruct (Io.dumps cd s') as [content|]; cbn [snd].
    + destruct (Io.write_text os opened session_file content) as [[[]|] w]; cbn [snd];
        auto using Forall_cons, Forall_nil.
    + auto using Forall_cons, Forall_nil.
  - auto using Forall_cons, Forall_nil.
Qed.

(** The call of the application splits a trace in one way only. *)
Lemma split_at_call {S : Type} (session_file : string)
    (pre pre' post post' : list (Io.event S)) (s s' : S) :
  Forall IoSpec.is_read pre' -> Forall (IoSpec.is_persist session_file) post' ->
  (pre ++ Io.CallNext s :: post)%list = (pre' ++ Io.CallNext s' :: post')%list ->
  pre = pre' /\ s = s' /\ post = post'.
Proof.
  intros Hpre Hpost. revert pre' Hpre.
  induction pre as [|a pre IH]; intros [|a' pre'] Hpre Heq; cbn [app] in Heq.
  - now injection Heq as -> ->.
  - injection Heq as <- _. apply Forall_inv in Hpre. destruct Hpre as [p Hp]. discriminate.
  - injection Heq as -> Heq. exfalso.
    assert (Hin : In (Io.CallNext s) post') by (rewrite <- Heq; apply in_elt).
    rewrite List.Forall_forall in Hpost. destruct (Hpost _ Hin) as [H|[c H]]; discriminate.
  - injection Heq as -> Heq. apply Forall_inv_tail in Hpre.
    destruct (IH pre' Hpre Heq) as (-> & -> & ->). repeat split.
Qed.

(** What [dispatch] does once the session is loaded. *)
Lemma io_dispatch_loaded {S D : Type} (mw : middleware) (cd : Io.codec S)
    (os : Io.store D) (d : D) (req : request) (call_next : S -> Io.outcome S)
    (urandom : list ascii) (session_data : S) (loaded : list (Io.event S)) :
  Io.load_session mw cd os d req = (Returns session_data, loaded) ->
  Io.dispatch mw cd os d req call_next urandom =
    match call_next session_data with
    | Io.Propagated exn _ =>
        (Io.Failed (Io.Application exn), d, (loaded ++ [Io.CallNext session_data])%list)
    | Io.Responded r s' =>
        let session_id := session_id_used mw req urandom in
        let set_cookie :=
          match session_id_of mw req with
          | Some _ => None
          | None => Some {| key := cookie_name mw; value := session_id;
                            cookie_max_age := max_age mw; httponly := true;
                            samesite := "lax" |}
          end in
        match Io.persist cd os d (session_file_of mw session_id) s' with
        | (raised, d', written) =>
            (match raised with
             | Some st => Io.Failed (Io.Library st)
             | None => Io.Sent r set_cookie
             end, d', (loaded ++ Io.CallNext session_data :: written)%list)
        end
    end.
Proof.
  intros Hload. unfold Io.dispatch, session_id_used. rewrite Hload.
  destruct (call_next session_data) as [r s'|exn s']; [|reflexivity].
  destruct (session_id_of mw req) as [sid|]; cbn [default from_option id];
    destruct (Io.persist _ _ _ _ _) as [[[st|] d'] written]; reflexivity.
Qed.

(** C1, amended: [dispatch] loads the session strictly before it calls the
    wrapped application, and persists strictly after.  In every run, what
    comes before the call of the application is the load, which hands the
    application the mapping it decoded, and what comes after are the two
    steps that persist the session file.  When [call_next] returns a
    response, be it the answer of a handler that returned or the error
    response made from the [HTTPException] of a handler that raised, the
    file is opened and the JSON text of the mapping the handler left is
    written to it, and the response is returned if that write goes through;
    when opening the file or serializing the mapping raises, no text is
    written, and when one of the three raises the response is lost.  When
    the exception of the application comes out of [call_next], [dispatch]
    ends with it and the disk is as it was: nothing is written.  When
    reading the record raises, the application is not called. *)
Theorem dispatch_load_handler_persist {S D : Type} (mw : middleware)
    (cd : Io.codec S) (os : Io.store D) (d : D) (req : request)
    (call_next : S -> Io.outcome S) (urandom : list ascii) :
  let session_file := session_file_of mw (session_id_used mw req urandom) in
  let run := Io.dispatch mw cd os d req call_next urandom in
  (forall pre session_data post,
      snd run = (pre ++ Io.CallNext session_data :: post)%list ->
      Io.load_session mw cd os d req = (Returns session_data, pre)
      /\ Forall IoSpec.is_read pre
      /\ Forall (IoSpec.is_persist session_file) post)
  /\ (forall session_data loaded r s' opened content,
        Io.load_session mw cd os d req = (Returns session_data, loaded) ->
        call_next session_data = Io.Responded r s' ->
        Io.open_w os d session_file = (Returns tt, opened) ->
        Io.dumps cd s' = Returns content ->
        snd run = (loaded ++ [Io.CallNext session_data; Io.OpenW session_file;
                              Io.WriteText session_file content])%list
        /\ snd (fst run) = snd (Io.write_text os opened session_file content)
        /\ (fst (Io.write_text os opened session_file content) = Returns tt ->
            exists set_cookie, fst (fst run) = Io.Sent r set_cookie)
        /\ (fst (Io.write_text os opened session_file content) = Raises ->
            fst (fst run) = Io.Failed (Io.Library Io.Writing)))
  /\ (forall session_data loaded r s',
        Io.load_session mw cd os d req = (Returns session_data, loaded) ->
        call_next session_data = Io.Responded r s' ->
        fst (Io.open_w os d session_file) = Raises \/ Io.dumps cd s' = Raises ->
        snd run = (loaded ++ [Io.CallNext session_data; Io.OpenW session_file])%list
        /\ exists raised, fst (fst run) = Io.Failed (Io.Library raised))
  /\ (forall session_data loaded exn s',
        Io.load_session mw cd os d req = (Returns session_data, loaded) ->
        call_next session_data = Io.Propagated exn s' ->
        run = (Io.Failed (Io.Application exn), d,
               (loaded ++ [Io.CallNext session_data])%list))
  /\ (forall loaded,
        Io.load_session mw cd os d req = (Raises, loaded) ->
        run = (Io.Failed (Io.Library Io.Reading), d, loaded)
        /\ Forall IoSpec.is_read loaded).
Proof.
  intros session_file run. subst session_file run.
  pose proof (io_load_session_reads mw cd os d req) as Hreads.
  split; [|split; [|split; [|split]]].
  - intros pre session_data post Htrace.
    destruct (Io.load_session mw cd os d req) as [[s|] loaded] eqn:Hload;
      cbn [snd] in Hreads.
    + rewrite (io_dispatch_loaded mw cd os d req call_next urandom s loaded Hload)
        in Htrace.
      assert (Hsplit : exists written,
                 (pre ++ Io.CallNext session_data :: post)%list =
                   (loaded ++ Io.CallNext s :: written)%list
                 /\ Forall (IoSpec.is_persist
                              (session_file_of mw (session_id_used mw req urandom)))
                           written).
      { destruct (call_next s) as [r s'|exn s'].
        - cbn zeta in Htrace.
          pose proof (io_persist_events cd os d
                        (session_file_of mw (session_id_used mw req urandom)) s') as Hev.
          destruct (Io.persist _ _ _ _ _) as [[raised d'] written].
          cbn [snd] in Htrace, Hev. now exists written.
        - cbn [snd] in Htrace. exists []. split; [now symmetry|constructor]. }
      destruct Hsplit as (written & Heq & Hev).
      destruct (split_at_call _ _ _ _ _ _ _ Hreads Hev Heq) as (-> & -> & ->).
      repeat split; assumption.
    + exfalso. unfold Io.dispatch in Htrace. rewrite Hload in Htrace.
      cbn [snd] in Htrace. rewrite Htrace in Hreads.
      rewrite List.Forall_forall in Hreads.
      destruct (Hreads (Io.CallNext session_data) (in_elt _ _ _)) as [p Hp].
      discriminate.
  - intros session_data loaded r s' opened content Hload Hcall Hopen Hdumps.
    rewrite (io_dispatch_loaded mw cd os d req call_next urandom _ _ Hload), Hcall.
    cbn zeta. unfold Io.persist. rewrite Hopen, Hdumps.
    destruct (Io.write_text os opened _ content) as [[[]|] w]; cbn [fst snd].
    + repeat split; [intros _; eexists; reflexivity|discriminate].
    + repeat split; discriminate.
  - intros session_data loaded r s' Hload Hcall Hraises.
    rewrite (io_dispatch_loaded mw cd os d req call_next urandom _ _ Hload), Hcall.
    cbn zeta. unfold Io.persist.
    destruct (Io.open_w os d _) as [[[]|] opened]; cbn [fst] in Hraises.
    + destruct Hraises as [Hopen|Hdumps]; [discriminate|]. rewrite Hdumps.
      cbn [fst snd]. split; [reflexivity|]. eexists. reflexivity.
    + cbn [fst snd]. split; [reflexivity|]. eexists. reflexivity.
  - intros session_data loaded exn s' Hload Hcall.
    now rewrite (io_dispatch_loaded mw cd os d req call_next urandom _ _ Hload), Hcall.
  - intros loaded Hload. rewrite Hload in Hreads. cbn [snd] in Hreads.
    split; [|exact Hreads]. unfold Io.dispatch. now rewrite Hload.
Qed.

Lemma dispatch_load_handler_persist_witness :
  snd (Io.dispatch default_middleware Io.json_codec Io.text_files
         {[ "sessions/5f1d.json" := json_dumps (JObj [("state", JStr "7d9c")]) ]}
         (Sample.post_request "5f1d" [("conversation_id", JStr "42")])
         (fun s => Io.of_outcome
            (call_next_of (speak Sample.cfg_auth Sample.svc_online
               (Sample.post_request "5f1d" [("conversation_id", JStr "42")])) tt s))
         []) =
  [Io.ReadText "sessions/5f1d.json";
   Io.CallNext (JObj [("state", JStr "7d9c")]);
   Io.OpenW "sessions/5f1d.json";
   Io.WriteText "sessions/5f1d.json" (json_dumps (JObj [("state", JStr "7d9c")]))].
Proof.
  edestruct (proj1 (proj2 (dispatch_load_handler_persist default_middleware
      Io.json_codec Io.text_files
      {[ "sessions/5f1d.json" := json_dumps (JObj [("state", JStr "7d9c")]) ]}
      (Sample.post_request "5f1d" [("conversation_id", JStr "42")])
      (fun s => Io.of_outcome
         (call_next_of (speak Sample.cfg_auth Sample.svc_online
            (Sample.post_request "5f1d" [("conversation_id", JStr "42")])) tt s))
      []))
      (JObj [("state", JStr "7d9c")]) [Io.ReadText (S := json) "sessions/5f1d.json"])
    as (Htrace & _ & _).
  - vm_compute. reflexivity.
  - vm_compute. reflexivity.
  - reflexivity.
  - reflexivity.
  - exact Htrace.
Defined.

(** C1, as stated, fails.  A handler that raises: [/login] stores the
    nonce in the session, then MSAL raises while the login URL is built; the
    exception comes out of [call_next] and the mapping with the nonce is
    never written.  A handler that returns: [/logout] answers a request
    whose cookie names a directory that does not exist; opening the record
    raises after the response exists, and nothing is written. *)
Lemma write_back_counterexample :
  ~ IoSpec.writes_back_after_handler default_middleware Io.json_codec Io.text_files ∅
      (Sample.get_request [])
      (fun s => Io.of_outcome
         (call_next_of (login Sample.cfg_auth Sample.ids_down (Sample.get_request [])) tt s))
      (replicate 16 "171"%char)
  /\ ~ IoSpec.writes_back_after_handler default_middleware Io.json_codec
        (Sample.flat_directory "sessions") ∅
        (Sample.post_request "nodir/abc" [])
        (fun s => Io.of_outcome
           (call_next_of (logout Sample.cfg_auth (Sample.post_request "nodir/abc" [])) tt s))
        [].
Proof.
  split; intros H.
  - destruct (H (JObj []) []) as (content & _ & Hin); [vm_compute; reflexivity|].
    vm_compute in Hin. destruct Hin as [Hin|[]]. discriminate.
  - destruct (H (JObj []) []) as (content & _ & Hin); [vm_compute; reflexivity|].
    vm_compute in Hin. destruct Hin as [Hin|[Hin|[]]]; discriminate.
Qed.

(** [Store.dispatch] is [Io.dispatch] on the text files and the JSON codec,
    where no library call raises. *)
Lemma dispatch_on_text_files (mw : middleware) (fs : gmap string string)
    (req : request) (call_next : json -> call_outcome) (urandom : list ascii) :
  Io.dispatch mw Io.json_codec Io.text_files fs req
    (fun s => Io.of_outcome (call_next s)) urandom =
  (Io.of_result (fst (fst (dispatch mw fs req call_next urandom))),
   snd (fst (dispatch mw fs req call_next urandom)),
   flat_map Io.of_event (snd (dispatch mw fs req call_next urandom))).
Proof.
  assert (Hload : Io.load_session mw Io.json_codec Io.text_files fs req =
                  (Returns (fst (load_session mw fs req)),
                   flat_map Io.of_event (snd (load_session mw fs req)))).
  { unfold Io.load_session, load_session.
    destruct (session_id_of mw req) as [sid|]; [|reflexivity].
    cbn [Io.path_exists Io.read_text Io.text_files].
    destruct (fs !! session_file_of mw sid) as [content|] eqn:E.
    - rewrite bool_decide_eq_true_2 by (now exists content). reflexivity.
    - rewrite bool_decide_eq_false_2; [reflexivity|]. intros [c Hc]. discriminate. }
  rewrite (io_dispatch_loaded mw Io.json_codec Io.text_files fs req _ urandom _ _ Hload).
  destruct (call_next (fst (load_session mw fs req))) as [r s'|exn s'] eqn:Hcall;
    cbn [Io.of_outcome].
  - destruct (dispatch_responded mw fs req call_next urandom r s' Hcall) as [c Hrun].
    assert (Hc : c = match session_id_of mw req with
                     | Some _ => None
                     | None => Some {| key := cookie_name mw;
                                       value := session_id_used mw req urandom;
                                       cookie_max_age := max_age mw; httponly := true;
                                       samesite := "lax" |}
                     end).
    { unfold dispatch, session_id_used in *.
      destruct (load_session mw fs req) as [sd loaded]. cbn [fst] in Hcall.
      rewrite Hcall in Hrun.
      destruct (session_id_of mw req); cbn [default from_option id] in *; congruence. }
    rewrite Hrun. cbn [fst snd Io.of_result]. cbn zeta.
    unfold Io.persist. cbn [Io.open_w Io.dumps Io.write_text Io.text_files Io.json_codec].
    rewrite insert_insert_eq, flat_map_app. cbn [flat_map Io.of_event app].
    now rewrite Hc.
  - rewrite (dispatch_propagated mw fs req call_next urandom exn s' Hcall).
    cbn [fst snd Io.of_result]. now rewrite flat_map_app.
Qed.

(** ** Round trip of a session record *)

Lemma hexlify_nonempty (bytes : list ascii) :
  bytes <> [] -> hexlify bytes <> EmptyString.
Proof. destruct bytes; [contradiction|discriminate]. Qed.


Lemma session_id_of_cookie (mw : middleware) (req : request) (sid : string) :
  cookies req !! cookie_name mw = Some sid -> sid <> EmptyString ->
  session_id_of mw req = Some sid.
Proof.
  intros Hc Hne. unfold session_id_of. rewrite Hc.
  apply String.eqb_neq in Hne. now rewrite Hne.
Qed.


(** What a successful [dispatch] leaves on a disk that keeps what is
    written: the session file exists and holds the text of the mapping the
    handler left. *)
Lemma io_dispatch_sent {S D : Type} (mw : middleware) (cd : Io.codec S)
    (os : Io.store D) (d d' : D) (req : request) (call_next : S -> Io.outcome S)
    (urandom : list ascii) (session_data : S) (loaded trace : list (Io.event S))
    (r r' : response) (s' : S) (set_cookie : option cookie) :
  IoSpec.keeps_text os ->
  Io.load_session mw cd os d req = (Returns session_data, loaded) ->
  call_next session_data = Io.Responded r s' ->
  Io.dispatch mw cd os d req call_next urandom = (Io.Sent r' set_cookie, d', trace) ->
  exists content,
    Io.dumps cd s' = Returns content
    /\ Io.path_exists os d' (session_file_of mw (session_id_used mw req urandom)) = true
    /\ Io.read_text os d' (session_file_of mw (session_id_used mw req urandom))
       = Returns content
    /\ trace = (loaded ++ [Io.CallNext session_data;
                           Io.OpenW (session_file_of mw (session_id_used mw req urandom));
                           Io.WriteText (session_file_of mw (session_id_used mw req urandom))
                                    content])%list.
Proof.
  intros Hkeeps Hload Hcall Hrun.
  rewrite (io_dispatch_loaded mw cd os d req call_next urandom _ _ Hload), Hcall in Hrun.
  cbn zeta in Hrun. unfold Io.persist in Hrun.
  destruct (Io.open_w os d _) as [[[]|] opened]; [|discriminate].
  destruct (Io.dumps cd s') as [content|]; [|discriminate].
  destruct (Io.write_text os opened _ content) as [[[]|] w] eqn:Hwrite; [|discriminate].
  injection Hrun as _ _ <- <-. exists content.
  destruct (Hkeeps _ _ _ _ Hwrite) as [Hex Hread]. repeat split; assumption.
Qed.


Lemma text_files_keep_text : IoSpec.keeps_text Io.text_files.
Proof.
  intros fs path content fs' [= <-]. cbn [Io.path_exists Io.read_text Io.text_files].
  rewrite lookup_insert_eq. split; [|reflexivity].
  apply bool_decide_eq_true_2. now exists content.
Qed.



(** ** The OAuth callback *)

(** C3: with authentication enabled and no user in the session, a callback
    whose [state] query parameter differs from the nonce stored in the
    session is answered with status 400 and the body
    [{"error": "State mismatch"}]; the handler state is returned untouched:
    no call went out (no token exchange) and the session is the one it was,
    so no [user] entry was created. *)
Theorem authorized_state_mismatch {W C : Type} (cfg : config)
    (svc : services W C) (req : request) (st : hstate W) :
  ENABLE_AUTHENTICATION cfg = true ->
  truthy (dict_get (session st) "user") = false ->
  opt_str (query_params req !! "state") <> dict_get (session st) "state" ->
  authorized cfg svc req st =
    (Val (JSONResponse (JObj [("error", JStr "State mismatch")]) 400), st).
Proof.
  intros Hauth Huser Hstate.
  assert (Hneq : json_eqb (opt_str (query_params req !! "state"))
                          (dict_get (session st) "state") = false).
  { destruct (json_eqb _ _) eqn:E; [|reflexivity].
    apply json_eqb_opt_str in E. contradiction. }
  unfold authorized. rewrite Hauth. cbn [negb].
  unfold bind, get_session, ret. rewrite Huser, Hneq. reflexivity.
Qed.

Lemma authorized_state_mismatch_witness :
  authorized Sample.cfg_auth Sample.svc_online
    (Sample.get_request [("state", "forged"); ("code", "c0de")])
    (Sample.start [("state", JStr "7d9c")]) =
  (Val (JSONResponse (JObj [("error", JStr "State mismatch")]) 400),
   Sample.start [("state", JStr "7d9c")]).
Proof.
  apply (authorized_state_mismatch Sample.cfg_auth Sample.svc_online).
  - reflexivity.
  - reflexivity.
  - vm_compute. discriminate.
Defined.

Lemma load_cache_pure {W C : Type} (svc : services W C) (st : hstate W) :
  exists cache, _load_cache svc st = (Val cache, st).
Proof.
  unfold _load_cache, bind, get_session, ret.
  destruct (dict_lookup (session st) "msal_cache") as [blob|]; [|eauto].
  destruct (cache_deserialize svc blob); eauto.
Qed.

Lemma authorized_past_state {W C : Type} (cfg : config)
    (svc : services W C) (req : request) (st : hstate W) (code : string) :
  ENABLE_AUTHENTICATION cfg = true ->
  truthy (dict_get (session st) "user") = false ->
  json_eqb (opt_str (query_params req !! "state")) (dict_get (session st) "state") = true ->
  query_params req !! "error" = None ->
  query_params req !! "code" = Some code -> code <> EmptyString ->
  exchanges_code code st (snd (authorized cfg svc req st)).
Proof.
  intros Hauth Huser Hpass He Hc Hne.
  destruct (authorized cfg svc req st) as [r st'] eqn:Hrun. cbn [fst snd].
  unfold authorized, exchanges_code in *. rewrite Hauth in Hrun. cbn [negb] in Hrun.
  unfold bind at 1 in Hrun. unfold get_session at 1 in Hrun.
  rewrite Huser, Hpass, He, Hc in Hrun.
  cbn [negb opt_str truthy default from_option id] in Hrun.
  destruct (String.eqb code EmptyString) eqn:E;
    [apply String.eqb_eq in E; contradiction|]. cbn [negb] in Hrun.
  destruct (load_cache_pure svc st) as [cache Hload].
  unfold bind at 1 in Hrun. rewrite Hload in Hrun.
  unfold bind at 1 in Hrun. unfold outbound at 1 in Hrun. cbv beta in Hrun.
  destruct (acquire_token_by_authorization_code svc (world st) code cache)
    as [[a cache'] w'].
  destruct a as [result|]; cbn in Hrun.
  2:{ injection Hrun as <- <-. eexists; reflexivity. }
  destruct (dict_contains result "error"); cbn in Hrun.
  { injection Hrun as <- <-. eexists; reflexivity. }
  destruct (dict_get_default result "id_token_claims" (JObj [])); cbn in Hrun;
    try (injection Hrun as <- <-; eexists; reflexivity).
  unfold _save_cache in Hrun.
  destruct (has_state_changed cache'); cbn in Hrun;
    (injection Hrun as <- <-; eexists; reflexivity).
Qed.

(** C10: with authentication enabled and no user in the session, a callback
    that carries no [state] parameter while the session stores no [state]
    nonce ([session.get("state")] is [None]) passes the state check
    ([None != None] is false) and the handler goes on: to the provider-error check (an [error] parameter gives 400
    with its description), then to the authorization-code check (no code
    gives 400 [Authorization code not found]), and with a code it calls the
    token exchange. *)
Theorem authorized_absent_state_passes {W C : Type} (cfg : config)
    (svc : services W C) (req : request) (st : hstate W) :
  ENABLE_AUTHENTICATION cfg = true ->
  truthy (dict_get (session st) "user") = false ->
  query_params req !! "state" = None ->
  dict_get (session st) "state" = JNull ->
  (forall e, query_params req !! "error" = Some e ->
     authorized cfg svc req st =
       (Val (JSONResponse
               (JObj [("error",
                       JStr (default "Unknown error"
                               (query_params req !! "error_description")))]) 400),
        st))
  /\ (query_params req !! "error" = None ->
      truthy (opt_str (query_params req !! "code")) = false ->
      authorized cfg svc req st =
        (Val (JSONResponse (JObj [("error", JStr "Authorization code not found")]) 400),
         st))
  /\ (forall code, query_params req !! "error" = None ->
      query_params req !! "code" = Some code ->
      code <> EmptyString ->
      exchanges_code code st (snd (authorized cfg svc req st))).
Proof.
  intros Hauth Huser Hq Hs.
  assert (Hpass : json_eqb (opt_str (query_params req !! "state"))
                           (dict_get (session st) "state") = true).
  { apply json_eqb_opt_str. now rewrite Hq, Hs. }
  repeat split.
  - intros e He. unfold authorized. rewrite Hauth. cbn [negb].
    unfold bind, get_session, ret. rewrite Huser, Hpass, He.
    destruct (query_params req !! "error_description"); reflexivity.
  - intros He Hc. unfold authorized. rewrite Hauth. cbn [negb].
    unfold bind, get_session, ret. rewrite Huser, Hpass, He, Hc. reflexivity.
  - intros code He Hc Hne. now apply authorized_past_state.
Qed.

Lemma authorized_absent_state_passes_witness :
  exchanges_code "c0de" (Sample.start [])
    (snd (authorized Sample.cfg_auth Sample.svc_online
            (Sample.get_request [("code", "c0de")]) (Sample.start []))).
Proof.
  refine (proj2 (proj2 (authorized_absent_state_passes Sample.cfg_auth
            Sample.svc_online (Sample.get_request [("code", "c0de")])
            (Sample.start []) _ _ _ _)) "c0de" _ _ _);
    try reflexivity.
  discriminate.
Defined.

(** ** Logout *)

(** C7: logout leaves the session mapping without any key, whatever it
    held; the authorization check of a later request that runs on that
    empty session with authentication enabled returns the decision
    [authorized = False] with no principal id, no principal name, no group
    and no token, and makes no outbound call.  The record the middleware
    writes for the cleared session reads back as the empty mapping. *)
Theorem logout_then_unauthorized {W C : Type} (cfg : config)
    (svc : services W C) (req : request) (st : hstate W) (w' : W) :
  ENABLE_AUTHENTICATION cfg = true ->
  session (snd (logout cfg req st)) = []
  /\ (forall k, dict_lookup (session (snd (logout cfg req st))) k = None)
  /\ check_authorization cfg svc
       {| session := session (snd (logout cfg req st)); world := w'; calls := [] |} =
     (Val {| authorized_ := false;
             client_principal_id := JNull;
             client_principal_name := JNull;
             client_group_names := [];
             access_token := JNull |},
      {| session := []; world := w'; calls := [CheckAuthorization] |})
  /\ json_loads (json_dumps (JObj (session (snd (logout cfg req st))))) = Some (JObj []).
Proof.
  intros Hauth. cbn. repeat split.
  unfold check_authorization, bind, emit, get_session, ret. cbn.
  rewrite Hauth. reflexivity.
Qed.

Lemma logout_then_unauthorized_witness :
  check_authorization Sample.cfg_auth Sample.svc_online
    {| session :=
         session (snd (logout Sample.cfg_auth (Sample.get_request [])
                         (Sample.start [("user", JObj [("oid", JStr "0001")]);
                                        ("graph_access_token", JStr "at")])));
       world := tt; calls := [] |} =
  (Val {| authorized_ := false;
          client_principal_id := JNull;
          client_principal_name := JNull;
          client_group_names := [];
          access_token := JNull |},
   {| session := []; world := tt; calls := [CheckAuthorization] |}).
Proof.
  refine (proj1 (proj2 (proj2
            (logout_then_unauthorized Sample.cfg_auth Sample.svc_online
               (Sample.get_request [])
               (Sample.start [("user", JObj [("oid", JStr "0001")]);
                              ("graph_access_token", JStr "at")]) tt _)))).
  reflexivity.
Defined.

(** ** The authorization check *)

Lemma dict_lookup_set_ne (d : pydict) (k k' : string) (v : json) :
  k <> k' -> dict_lookup (dict_set d k v) k' = dict_lookup d k'.
Proof.
  intros Hne. induction d as [|[k0 v0] d IH]; simpl.
  - destruct (String.eqb k k') eqn:E; [apply String.eqb_eq in E; contradiction|reflexivity].
  - destruct (String.eqb k0 k) eqn:E; simpl.
    + apply String.eqb_eq in E. subst k0.
      destruct (String.eqb k k') eqn:E'; [apply String.eqb_eq in E'; contradiction|reflexivity].
    + destruct (String.eqb k0 k'); [reflexivity|exact IH].
Qed.

Lemma dict_lookup_set_eq (d : pydict) (k : string) (v : json) :
  dict_lookup (dict_set d k v) k = Some v.
Proof.
  induction d as [|[k0 v0] d IH]; simpl.
  - now rewrite String.eqb_refl.
  - destruct (String.eqb k0 k) eqn:E; simpl; rewrite E; [reflexivity|exact IH].
Qed.

(** A silent acquisition that raises has not touched the session. *)
Lemma get_valid_access_token_raises {W C : Type} (svc : services W C)
    (scopes : list string) (st st' : hstate W) (e : exn) :
  get_valid_access_token svc scopes st = (Exc e, st') -> session st' = session st.
Proof.
  unfold get_valid_access_token. intros Hrun.
  destruct (load_cache_pure svc st) as [cache Hload].
  unfold bind at 1 in Hrun. rewrite Hload in Hrun.
  unfold bind at 1 in Hrun. unfold outbound at 1 in Hrun. cbv beta in Hrun.
  destruct (acquire_token_silent svc (world st) scopes cache) as [[a cache'] w'].
  destruct a as [[result|]|]; cbn [fst snd] in Hrun;
    try (injection Hrun as _ <-; reflexivity).
  unfold raise, _save_cache, bind, session_setitem, ret in Hrun.
  repeat match type of Hrun with
         | context [if ?b then _ else _] => destruct b
         end;
    first [discriminate | injection Hrun as _ <-; reflexivity].
Qed.

(** Whatever its outcome, it leaves every key but [msal_cache] as it was. *)
Lemma get_valid_access_token_keeps {W C : Type} (svc : services W C)
    (scopes : list string) (st : hstate W) (k : string) :
  k <> "msal_cache" ->
  dict_lookup (session (snd (get_valid_access_token svc scopes st))) k =
  dict_lookup (session st) k.
Proof.
  intros Hk. unfold get_valid_access_token.
  destruct (load_cache_pure svc st) as [cache Hload].
  unfold bind at 1. rewrite Hload.
  unfold bind at 1. unfold outbound at 1. cbv beta.
  destruct (acquire_token_silent svc (world st) scopes cache) as [[a cache'] w'].
  destruct a as [[result|]|]; cbn [fst snd]; try reflexivity.
  unfold raise, _save_cache, bind, session_setitem, ret.
  repeat match goal with
         | |- context [if ?b then _ else _] => destruct b
         end; cbn [fst snd session]; try reflexivity.
  apply dict_lookup_set_ne. congruence.
Qed.

(** The [try]/[except] around a silent acquisition never raises: it gives
    the fresh token and stores it under [key], or falls back to the value
    the session holds under [key]. *)
Lemma try_refresh {W C : Type} (svc : services W C) (scopes : list string)
    (key : string) (st : hstate W) :
  try_except
    (let* t := get_valid_access_token svc scopes in
     do* session_setitem key t in
     ret t)
    (let* s := get_session in
     ret (dict_get_default s key JNull)) st =
  (Val match fst (get_valid_access_token svc scopes st) with
       | Val t => t
       | Exc _ => dict_get (session st) key
       end,
   match fst (get_valid_access_token svc scopes st) with
   | Val t => snd (session_setitem key t (snd (get_valid_access_token svc scopes st)))
   | Exc _ => snd (get_valid_access_token svc scopes st)
   end).
Proof.
  unfold try_except, bind.
  destruct (get_valid_access_token svc scopes st) as [[t|e] st'] eqn:Hrun;
    cbn [fst snd]; [reflexivity|].
  unfold get_session, ret, dict_get.
  now rewrite (get_valid_access_token_raises _ _ _ _ _ Hrun).
Qed.

(** C5: with authentication enabled and a [user] mapping in the session,
    the authorization check always returns an authorized decision, whatever
    the identity provider and Graph do.  When the silent acquisition of the
    basic-scope token raises, the basic token is the [graph_access_token]
    the session held when the request came in ([None] if it held none).
    When [OTHER_AUTH_SCOPES] is set, the token of these scopes is acquired
    next whether or not the first acquisition raised, and when that raises
    the secondary token is the [other_access_token] the session held.  The
    [access_token] of the decision is the secondary token when it is truthy
    and the basic token otherwise. *)
Theorem check_authorization_token_fallback {W C : Type} (cfg : config)
    (svc : services W C) (st : hstate W) (user : pydict) :
  ENABLE_AUTHENTICATION cfg = true ->
  dict_lookup (session st) "user" = Some (JObj user) ->
  user <> [] ->
  let st0 := {| session := session st; world := world st;
                calls := (calls st ++ [CheckAuthorization])%list |} in
  let basic := get_valid_access_token svc BASIC_SCOPE st0 in
  let graph_access_token :=
    match fst basic with
    | Val t => t
    | Exc _ => dict_get (session st) "graph_access_token"
    end in
  let st1 :=
    match fst basic with
    | Val t => snd (session_setitem "graph_access_token" t (snd basic))
    | Exc _ => snd basic
    end in
  let other_access_token :=
    if truthy (JStr (OTHER_AUTH_SCOPES cfg)) then
      match fst (get_valid_access_token svc (other_scopes (OTHER_AUTH_SCOPES cfg)) st1) with
      | Val t => t
      | Exc _ => dict_get (session st) "other_access_token"
      end
    else JNull in
  exists d st',
    check_authorization cfg svc st = (Val d, st')
    /\ authorized_ d = true
    /\ client_principal_id d = dict_get user "oid"
    /\ access_token d =
         (if truthy other_access_token then other_access_token else graph_access_token).
Proof.
  intros Hauth Huser Hne st0 basic graph_access_token st1 other_access_token.
  assert (Hu : dict_get (session st) "user" = JObj user).
  { unfold dict_get, dict_get_default. now rewrite Huser. }
  assert (Hut : truthy (JObj user) = true) by (destruct user; [contradiction|reflexivity]).
  assert (Hother : dict_get (session st1) "other_access_token" =
                   dict_get (session st) "other_access_token").
  { assert (Hb : dict_lookup (session (snd basic)) "other_access_token" =
                 dict_lookup (session st) "other_access_token").
    { unfold basic. now rewrite get_valid_access_token_keeps. }
    assert (Hl : dict_lookup (session st1) "other_access_token" =
                 dict_lookup (session st) "other_access_token").
    { subst st1. destruct (fst basic); [|exact Hb].
      cbn [session_setitem snd session]. now rewrite dict_lookup_set_ne. }
    unfold dict_get, dict_get_default. now rewrite Hl. }
  unfold check_authorization.
  unfold bind at 1. unfold emit at 1. fold st0.
  rewrite Hauth. cbn [negb].
  unfold bind at 1. unfold get_session at 1.
  replace (session st0) with (session st) by reflexivity.
  rewrite Hu, Hut. cbn [negb].
  unfold bind at 1. rewrite (try_refresh svc BASIC_SCOPE "graph_access_token" st0).
  fold basic. replace (session st0) with (session st) by reflexivity.
  fold graph_access_token. fold st1.
  unfold bind at 1.
  assert (Hsecond : exists st2,
            (if truthy (JStr (OTHER_AUTH_SCOPES cfg))
             then try_except
                    (let* t := get_valid_access_token svc
                                 (other_scopes (OTHER_AUTH_SCOPES cfg)) in
                     do* session_setitem "other_access_token" t in
                     ret t)
                    (let* s := get_session in
                     ret (dict_get_default s "other_access_token" JNull))
             else ret JNull) st1 = (Val other_access_token, st2)).
  { subst other_access_token. destruct (truthy (JStr (OTHER_AUTH_SCOPES cfg))).
    - rewrite try_refresh, Hother. eauto.
    - unfold ret. eauto. }
  destruct Hsecond as [st2 ->].
  unfold bind at 1.
  destruct (truthy graph_access_token).
  - unfold bind, outbound, ret.
    destruct (graph_member_of svc (world st2) graph_access_token) as [reply w'].
    do 2 eexists. repeat split.
  - unfold ret. do 2 eexists. repeat split.
Qed.

Lemma check_authorization_token_fallback_witness :
  exists d st',
    check_authorization Sample.cfg_auth Sample.svc_offline
      (Sample.start [("user", JObj [("oid", JStr "0001")]);
                     ("graph_access_token", JStr "cached")]) = (Val d, st')
    /\ authorized_ d = true
    /\ client_principal_id d = JStr "0001"
    /\ access_token d = JStr "cached".
Proof.
  exact (check_authorization_token_fallback Sample.cfg_auth Sample.svc_offline
           (Sample.start [("user", JObj [("oid", JStr "0001")]);
                          ("graph_access_token", JStr "cached")])
           [("oid", JStr "0001")] eq_refl eq_refl ltac:(discriminate)).
Defined.

(** ** The [/speak] endpoint *)



(** C9: with authentication enabled and no user in the session, a [/speak]
    request with a question is answered with status 401 and a JSON body
    holding [answer], [thoughts] and the [conversation_id] of the request
    (empty when it gave none); the only thing that ran is the authorization
    check, and nothing was posted to the orchestrator. *)
Theorem speak_unauthorized {W C : Type} (cfg : config)
    (svc : services W C) (req : request) (st : hstate W) (body : pydict) :
  ENABLE_AUTHENTICATION cfg = true ->
  req_json req = Some (JObj body) ->
  truthy (dict_get body "spokenText") = true ->
  truthy (dict_get (session st) "user") = false ->
  serve_speak cfg svc req st =
    (Val (JSONResponse
            (JObj [("answer",
                    JStr "You are not authorized to access this service. Please contact your administrator.");
                   ("thoughts", JStr "User not authorized.");
                   ("conversation_id",
                    dict_get_default body "conversation_id" (JStr EmptyString))])
            401, []),
     {| session := session st; world := world st;
        calls := (calls st ++ [CheckAuthorization])%list |}).
Proof.
  intros Hauth Hbody Hq Huser.
  unfold serve_speak, speak. rewrite Hbody, Hq. cbn [negb].
  unfold check_authorization, bind, emit, get_session, ret.
  rewrite Hauth. simpl. rewrite Huser. reflexivity.
Qed.

Lemma speak_unauthorized_witness :
  fst (serve_speak Sample.cfg_auth Sample.svc_online
         (Sample.post_request "5f1d" [("spokenText", JStr "hello")])
         (Sample.start [])) =
  Val (JSONResponse
         (JObj [("answer",
                 JStr "You are not authorized to access this service. Please contact your administrator.");
                ("thoughts", JStr "User not authorized.");
                ("conversation_id", JStr EmptyString)])
         401, []).
Proof.
  rewrite (speak_unauthorized Sample.cfg_auth Sample.svc_online _ _
             [("spokenText", JStr "hello")]); reflexivity.
Defined.

(** ** The streaming proxy *)

Lemma stream_loop_app (t : Q) (pre rest : list (Q * string)) :
  stream_loop t (pre ++ rest)%list =
  (stream_loop t pre ++ stream_loop (last_yield_after t pre) rest)%list.
Proof.
  revert t. induction pre as [|[now line] pre IH]; intros t; [reflexivity|].
  cbn [app stream_loop last_yield_after]. rewrite IH.
  rewrite <- !app_assoc. do 3 f_equal.
  destruct (heartbeat_due now t), (truthy (JStr line)); reflexivity.
Qed.

(** ** The heartbeat on the floats of the clock *)


(** Once a non-blank line has been forwarded, [last_yield] is the clock
    reading at its arrival. *)
Lemma float_last_yield_after_line (t now : Float64.float)
    (pre : list (Float64.float * string)) (line : string) :
  truthy (JStr line) = true ->
  Float64Spec.last_yield_after t (pre ++ [(now, line)])%list = now.
Proof.
  intros Hline. revert t. induction pre as [|[u l] pre IH]; intros t.
  - cbn [app Float64Spec.last_yield_after]. now rewrite Hline, orb_true_r.
  - cbn [app Float64Spec.last_yield_after]. apply IH.
Qed.




(** C4, as stated, fails: a blank line of the upstream is not forwarded. *)
Lemma forwards_every_line_counterexample :
  ~ forwards_every_line
      {| upstream_status := 200; stream_start := 0;
         upstream_lines := [(1%Q, "data: a"); (1%Q, EmptyString); (2%Q, "data: b")] |}.
Proof. unfold forwards_every_line. vm_compute. discriminate. Qed.

Lemma forwarded_stream_loop (t : Q) (lines : list (Q * string)) :
  forwarded (stream_loop t lines) = nonblank lines.
Proof.
  revert t. induction lines as [|[now line] lines IH]; intros t; [reflexivity|].
  unfold nonblank in *. cbn [stream_loop map snd List.filter].
  destruct (heartbeat_due now t), (truthy (JStr line)); cbn [app forwarded];
    now rewrite IH.
Qed.

(** C4, amended: for an upstream answered with status 200 the lines
    forwarded to the client are exactly the non-blank lines received, in the
    order received; a blank line is dropped. *)
Theorem forwards_every_nonblank_line (resp : upstream_response) :
  upstream_status resp = 200 ->
  forwarded (stream_body resp) = nonblank (upstream_lines resp).
Proof.
  intros Hstatus. unfold stream_body. rewrite Hstatus. cbn [Z.eqb Pos.eqb negb].
  apply forwarded_stream_loop.
Qed.

Lemma forwards_every_nonblank_line_witness :
  forwarded
    (stream_body {| upstream_status := 200; stream_start := 0;
                    upstream_lines := [(1%Q, "data: a"); (1%Q, EmptyString); (2%Q, "data: b")] |}) =
  ["data: a"; "data: b"].
Proof.
  apply (forwards_every_nonblank_line
           {| upstream_status := 200; stream_start := 0;
              upstream_lines := [(1%Q, "data: a"); (1%Q, EmptyString); (2%Q, "data: b")] |}).
  reflexivity.
Defined.

(** ** The session store: files, identifiers and cookies *)

Lemma append_cancel_r (a b c : string) : a +:+ c = b +:+ c -> a = b.
Proof.
  revert b. induction a as [|x a IH]; intros [|y b] H.
  - reflexivity.
  - exfalso. apply (f_equal String.length) in H.
    change (EmptyString +:+ c) with c in H. rewrite append_cons in H.
    cbn [String.length] in H. rewrite length_append in H. lia.
  - exfalso. apply (f_equal String.length) in H.
    change (EmptyString +:+ c) with c in H. rewrite append_cons in H.
    cbn [String.length] in H. rewrite length_append in H. lia.
  - rewrite !append_cons in H. injection H as -> H. f_equal. now apply IH.
Qed.

Lemma append_cancel_l (a b c : string) : a +:+ b = a +:+ c -> b = c.
Proof.
  induction a as [|x a IH]; intros H; [exact H|].
  rewrite !append_cons in H. injection H as H. now apply IH.
Qed.

Lemma starts_with_slash_append (a b : string) :
  starts_with_slash a = false -> a <> EmptyString \/ starts_with_slash b = false ->
  starts_with_slash (a +:+ b) = false.
Proof.
  destruct a as [|x a]; intros Ha [Hne|Hb]; try exact Ha; try contradiction.
  exact Hb.
Qed.

Lemma session_file_of_relative (mw : middleware) :
  exists dir, forall sid', starts_with_slash sid' = false ->
    session_file_of mw sid' = dir +:+ sid' +:+ ".json".
Proof.
  unfold session_file_of, path_join.
  destruct (String.eqb (session_dir mw) EmptyString || ends_with_slash (session_dir mw)).
  - exists (session_dir mw). intros sid' H.
    replace (starts_with_slash (sid' +:+ ".json")) with false; [reflexivity|].
    destruct sid'; [reflexivity|exact (eq_sym H)].
  - exists (session_dir mw +:+ "/"). intros sid' H.
    replace (starts_with_slash (sid' +:+ ".json")) with false;
      [now rewrite append_assoc|].
    destruct sid'; [reflexivity|exact (eq_sym H)].
Qed.

(** Two session identifiers that do not start with a slash never share a
    record file. *)
Lemma session_file_of_inj (mw : middleware) (a b : string) :
  starts_with_slash a = false -> starts_with_slash b = false ->
  session_file_of mw a = session_file_of mw b -> a = b.
Proof.
  intros Ha Hb Heq.
  destruct (session_file_of_relative mw) as [dir Hdir].
  rewrite (Hdir a Ha), (Hdir b Hb) in Heq.
  apply append_cancel_l in Heq. now apply append_cancel_r in Heq.
Qed.

Lemma dispatch_files (mw : middleware) (fs : gmap string string) (req : request)
    (call_next : json -> call_outcome) (urandom : list ascii) (path : string) :
  path <> session_file_of mw (session_id_used mw req urandom) ->
  files_after mw fs req call_next urandom !! path = fs !! path.
Proof.
  intros Hpath. unfold files_after.
  destruct (call_next (fst (load_session mw fs req))) as [r s'|exn s'] eqn:Hcall.
  - destruct (dispatch_responded mw fs req call_next urandom r s' Hcall) as [c ->].
    cbn [fst snd]. now rewrite lookup_insert_ne.
  - now rewrite (dispatch_propagated mw fs req call_next urandom exn s' Hcall).
Qed.

Lemma starts_with_slash_hex (s : string) :
  all_chars is_hex_lower s = true -> starts_with_slash s = false.
Proof.
  destruct s as [|c s]; [reflexivity|]. cbn [all_chars starts_with_slash].
  intros H. apply andb_prop in H as [Hc _].
  destruct (Ascii.eqb c "/") eqn:E; [|reflexivity].
  apply Ascii.eqb_eq in E. subst c. discriminate.
Qed.

(** X1: sessions are isolated on disk.  A request served under the session
    identifier [mine] (the one of its cookie, or the one minted for it)
    leaves the record of every other identifier [other] as it was, whatever
    the handler did, when both identifiers are made of lowercase hexadecimal
    digits, as the identifiers the middleware mints are. *)
Theorem session_records_isolated (mw : middleware) (fs : gmap string string)
    (req : request) (call_next : json -> call_outcome) (urandom : list ascii)
    (other : string) :
  let mine := session_id_used mw req urandom in
  all_chars is_hex_lower mine = true ->
  all_chars is_hex_lower other = true ->
  other <> mine ->
  files_after mw fs req call_next urandom !! session_file_of mw other =
    fs !! session_file_of mw other.
Proof.
  intros mine Hmine Hother Hne. apply dispatch_files.
  intros Heq. apply Hne.
  apply (session_file_of_inj mw); [now apply starts_with_slash_hex ..|exact Heq].
Qed.

Lemma session_records_isolated_witness :
  files_after default_middleware
    {[ "sessions/5f1d.json" := json_dumps (JObj [("state", JStr "7d9c")]);
       "sessions/a0a0.json" := json_dumps (JObj [("user", JObj [("oid", JStr "0001")])]) ]}
    (Sample.post_request "5f1d" [])
    (call_next_of (logout Sample.cfg_auth (Sample.post_request "5f1d" [])) tt) []
    !! session_file_of default_middleware "a0a0" =
  ({[ "sessions/5f1d.json" := json_dumps (JObj [("state", JStr "7d9c")]);
      "sessions/a0a0.json" := json_dumps (JObj [("user", JObj [("oid", JStr "0001")])]) ]}
     : gmap string string) !! session_file_of default_middleware "a0a0".
Proof.
  apply (session_records_isolated default_middleware _
           (Sample.post_request "5f1d" []) _ [] "a0a0").
  - reflexivity.
  - reflexivity.
  - vm_compute. discriminate.
Defined.

Lemma session_id_used_cookie (mw : middleware) (req : request)
    (urandom : list ascii) (sid : string) :
  session_id_of mw req = Some sid -> session_id_used mw req urandom = sid.
Proof. unfold session_id_used. now intros ->. Qed.



Lemma length_hexlify (bytes : list ascii) :
  String.length (hexlify bytes) = (2 * length bytes)%nat.
Proof.
  induction bytes as [|b bytes IH]; [reflexivity|].
  cbn [hexlify String.length length]. rewrite IH. lia.
Qed.

Lemma hex_digit_lower (n : N) : is_hex_lower (hex_digit n) = true.
Proof.
  destruct n as [|p]; [reflexivity|].
  do 4 (destruct p as [p|p|]; try reflexivity).
Qed.

Lemma all_hex_hexlify (bytes : list ascii) :
  all_chars is_hex_lower (hexlify bytes) = true.
Proof.
  induction bytes as [|b bytes IH]; [reflexivity|].
  cbn [hexlify all_chars]. now rewrite !hex_digit_lower, IH.
Qed.

Lemma session_id_of_none (mw : middleware) (req : request) :
  session_id_of mw req = None <->
  cookies req !! cookie_name mw = None \/
  cookies req !! cookie_name mw = Some EmptyString.
Proof.
  unfold session_id_of. destruct (cookies req !! cookie_name mw) as [sid|].
  - destruct (String.eqb sid EmptyString) eqn:E.
    + apply String.eqb_eq in E. subst. split; [now right|reflexivity].
    + apply String.eqb_neq in E. split; [discriminate|].
      intros [H|H]; [discriminate|]. injection H as ->. contradiction.
  - split; [now left|reflexivity].
Qed.

(** X3: a response carries a session cookie exactly when the request came
    without one, or with an empty one.  The request then ran on the empty
    mapping without any file being read, and the cookie set is the one the
    session was written under: named as configured, HttpOnly, SameSite
    [lax], with the configured max-age, its value two lowercase hexadecimal
    digits per random byte. *)
Theorem session_cookie_minted (mw : middleware) (fs : gmap string string)
    (req : request) (call_next : json -> call_outcome) (urandom : list ascii)
    (r : response) (s' : json) :
  call_next (fst (load_session mw fs req)) = Responded r s' ->
  (cookies req !! cookie_name mw = None \/
   cookies req !! cookie_name mw = Some EmptyString ->
   load_session mw fs req = (JObj [], [])
   /\ fst (fst (dispatch mw fs req call_next urandom)) =
        Sent r (Some {| key := cookie_name mw; value := token_hex urandom;
                        cookie_max_age := max_age mw; httponly := true;
                        samesite := "lax" |})
   /\ files_after mw fs req call_next urandom
        !! session_file_of mw (token_hex urandom) = Some (json_dumps s')
   /\ String.length (token_hex urandom) = (2 * length urandom)%nat
   /\ all_chars is_hex_lower (token_hex urandom) = true)
  /\ (forall sid, cookies req !! cookie_name mw = Some sid -> sid <> EmptyString ->
       fst (fst (dispatch mw fs req call_next urandom)) = Sent r None).
Proof.
  intros Hcall. split.
  - intros Hnone. apply session_id_of_none in Hnone.
    assert (Hload : load_session mw fs req = (JObj [], [])).
    { unfold load_session. now rewrite Hnone. }
    split; [exact Hload|].
    unfold files_after, dispatch. rewrite Hload in *. cbn [fst] in Hcall.
    rewrite Hcall, Hnone. cbn [fst snd].
    repeat split.
    + apply lookup_insert_eq.
    + apply length_hexlify.
    + apply all_hex_hexlify.
  - intros sid Hcookie Hne.
    pose proof (session_id_of_cookie mw req sid Hcookie Hne) as Hsid.
    unfold dispatch. destruct (load_session mw fs req) as [session_data loaded].
    cbn [fst] in Hcall. now rewrite Hcall, Hsid.
Qed.

Lemma session_cookie_minted_witness :
  fst (fst (dispatch default_middleware ∅ (Sample.get_request [])
              (call_next_of (logout Sample.cfg_auth (Sample.get_request [])) tt)
              (replicate 16 "171"%char))) =
  Sent (RedirectResponse
          (AUTHORITY Sample.cfg_auth +:+ "/oauth2/v2.0/logout?post_logout_redirect_uri="
             +:+ REDIRECT_URI Sample.cfg_auth) 303)
       (Some {| key := "session_id"; value := "abababababababababababababababab";
                cookie_max_age := 86400; httponly := true; samesite := "lax" |}).
Proof.
  refine (proj1 (proj2 (proj1 (session_cookie_minted default_middleware ∅
            (Sample.get_request [])
            (call_next_of (logout Sample.cfg_auth (Sample.get_request [])) tt)
            (replicate 16 "171"%char) _ (JObj []) _) _))).
  - vm_compute. reflexivity.
  - left. reflexivity.
Defined.
Lemma hex_val_hex_digit (n : N) : (n < 16)%N -> hex_val (hex_digit n) = Some n.
Proof.
  intros Hn. destruct n as [|p]; [reflexivity|].
  do 4 (destruct p as [p|p|]; try reflexivity); exfalso; lia.
Qed.

Lemma hex_pair_inj (a b : ascii) :
  hex_digit (N_of_ascii a / 16) = hex_digit (N_of_ascii b / 16) ->
  hex_digit (N_of_ascii a mod 16) = hex_digit (N_of_ascii b mod 16) ->
  a = b.
Proof.
  intros Hhi Hlo.
  pose proof (N_ascii_bounded a) as Ha. pose proof (N_ascii_bounded b) as Hb.
  assert (Hq : (N_of_ascii a / 16 = N_of_ascii b / 16)%N).
  { apply (f_equal hex_val) in Hhi.
    rewrite !hex_val_hex_digit in Hhi
      by (apply N.Div0.div_lt_upper_bound; lia).
    now injection Hhi. }
  assert (Hr : (N_of_ascii a mod 16 = N_of_ascii b mod 16)%N).
  { apply (f_equal hex_val) in Hlo.
    rewrite !hex_val_hex_digit in Hlo by (apply N.mod_lt; lia).
    now injection Hlo. }
  rewrite <- (ascii_N_embedding a), <- (ascii_N_embedding b). f_equal.
  rewrite (N.div_mod (N_of_ascii a) 16), (N.div_mod (N_of_ascii b) 16) by lia.
  now rewrite Hq, Hr.
Qed.

Lemma hexlify_inj (u1 u2 : list ascii) : hexlify u1 = hexlify u2 -> u1 = u2.
Proof.
  revert u2. induction u1 as [|a u1 IH]; intros [|b u2] H; try discriminate.
  - reflexivity.
  - cbn [hexlify] in H. injection H as Hhi Hlo H.
    f_equal; [now apply hex_pair_inj|now apply IH].
Qed.

Lemma starts_with_slash_hexlify (u : list ascii) :
  starts_with_slash (hexlify u) = false.
Proof.
  destruct u as [|b u]; [reflexivity|]. cbn [hexlify starts_with_slash].
  pose proof (hex_digit_lower (N_of_ascii b / 16)) as H.
  destruct (Ascii.eqb (hex_digit (N_of_ascii b / 16)) "/") eqn:E; [|reflexivity].
  apply Ascii.eqb_eq in E. rewrite E in H. discriminate.
Qed.

(** X4: two requests that come without a session cookie and draw different
    random bytes are given different session identifiers, and their
    sessions are written to different record files. *)
Theorem fresh_sessions_distinct (mw : middleware) (u1 u2 : list ascii) :
  u1 <> u2 ->
  token_hex u1 <> token_hex u2
  /\ session_file_of mw (token_hex u1) <> session_file_of mw (token_hex u2).
Proof.
  intros Hne.
  assert (Hid : token_hex u1 <> token_hex u2).
  { intros H. apply Hne. now apply hexlify_inj. }
  split; [exact Hid|]. intros H. apply Hid.
  apply (session_file_of_inj mw); [apply starts_with_slash_hexlify ..|exact H].
Qed.

Lemma fresh_sessions_distinct_witness :
  session_file_of default_middleware (token_hex (replicate 16 "171"%char)) <>
  session_file_of default_middleware (token_hex (replicate 16 "172"%char)).
Proof.
  refine (proj2 (fresh_sessions_distinct default_middleware
            (replicate 16 "171"%char) (replicate 16 "172"%char) _)).
  discriminate.
Defined.

(** X5: when the exception of the application comes out of [call_next],
    the changes the handler made to the session are lost: no file is
    written and no cookie is set, so every later request loads what it
    would have loaded before. *)
Theorem propagated_exception_loses_session (mw : middleware)
    (fs : gmap string string) (req req' : request)
    (call_next : json -> call_outcome) (urandom : list ascii)
    (exn : string) (s' : json) :
  call_next (fst (load_session mw fs req)) = Propagated exn s' ->
  fst (fst (dispatch mw fs req call_next urandom)) = Failed exn
  /\ files_after mw fs req call_next urandom = fs
  /\ load_session mw (files_after mw fs req call_next urandom) req' =
     load_session mw fs req'.
Proof.
  intros Hcall. unfold files_after.
  rewrite (dispatch_propagated mw fs req call_next urandom exn s' Hcall).
  repeat split.
Qed.

Lemma propagated_exception_loses_session_witness :
  files_after default_middleware
    {[ "sessions/5f1d.json" := json_dumps (JObj [("state", JStr "7d9c")]) ]}
    {| cookies := {[ "session_id" := "5f1d" ]};
       query_params := {[ "state" := "7d9c"; "code" := "c0de" ]};
       req_json := None |}
    (call_next_of (authorized Sample.cfg_auth Sample.svc_offline
                     {| cookies := {[ "session_id" := "5f1d" ]};
                        query_params := {[ "state" := "7d9c"; "code" := "c0de" ]};
                        req_json := None |}) tt) [] =
  {[ "sessions/5f1d.json" := json_dumps (JObj [("state", JStr "7d9c")]) ]}.
Proof.
  refine (proj1 (proj2 (propagated_exception_loses_session default_middleware _
            {| cookies := {[ "session_id" := "5f1d" ]};
               query_params := {[ "state" := "7d9c"; "code" := "c0de" ]};
               req_json := None |}
            (Sample.post_request "5f1d" []) _ []
            "acquire_token_by_authorization_code"
            (JObj [("state", JStr "7d9c")]) _))).
  vm_compute. reflexivity.
Defined.

(** ** A record that is not JSON *)

Lemma parse_number_not_json (c : ascii) (rest : string) :
  starts_json_value c = false -> parse_number (String c rest) = None.
Proof.
  unfold starts_json_value, parse_number. intros H.
  repeat (apply orb_false_elim in H; destruct H as [H ?]).
  replace (Ascii.eqb c "-") with false by congruence.
  destruct (Ascii.eqb c "0") eqn:E0.
  { apply Ascii.eqb_eq in E0. subst c. discriminate. }
  cbn [read_digits]. unfold digit_of.
  destruct (N_of_ascii c) as [|p] eqn:En; [reflexivity|].
  assert (Hp : ((48 <=? N.pos p) && (N.pos p <=? 57))%N = false) by assumption.
  do 6 (destruct p as [p|p|]; try reflexivity); try discriminate.
Qed.

Lemma json_loads_not_json (content : string) :
  not_json content = true -> json_loads content = None.
Proof.
  unfold not_json, json_loads. intros H.
  destruct (skip_ws content) as [|c rest].
  - now rewrite Nat.add_comm.
  - apply negb_true_iff in H. rewrite Nat.add_comm. cbn [Nat.add parse_value].
    pose proof H as Hc. unfold starts_json_value in Hc.
    repeat (apply orb_false_elim in Hc; destruct Hc as [Hc ?]).
    replace (Ascii.eqb c dquote) with false by congruence.
    replace (Ascii.eqb c "[") with false by congruence.
    replace (Ascii.eqb c "{") with false by congruence.
    replace (Ascii.eqb c "n") with false by congruence.
    replace (Ascii.eqb c "t") with false by congruence.
    replace (Ascii.eqb c "f") with false by congruence.
    now rewrite parse_number_not_json.
Qed.

(** X6: a record that is not JSON is not fatal and does not last.  When the
    record of the request's session reads as a text that is blank or starts
    with a character no JSON value starts with, the handler is called on the
    empty mapping; and a request that ends with its response, on a disk that
    keeps what is written, leaves a record that the next request of the
    session decodes to the mapping the handler left. *)
Theorem undecodable_record_replaced {D : Type} (mw : middleware) (os : Io.store D)
    (d d' : D) (req : request) (call_next : json -> Io.outcome json)
    (urandom : list ascii) (sid content : string) (r : response) (s' : json)
    (set_cookie : option cookie) (trace : list (Io.event json)) :
  session_id_of mw req = Some sid ->
  Io.path_exists os d (session_file_of mw sid) = true ->
  Io.read_text os d (session_file_of mw sid) = Returns content ->
  not_json content = true ->
  call_next (JObj []) = Io.Responded r s' ->
  Io.dispatch mw Io.json_codec os d req call_next urandom =
    (Io.Sent r set_cookie, d', trace) ->
  IoSpec.keeps_text os ->
  wf_json s' = true ->
  small_ints s' = true ->
  Io.load_session mw Io.json_codec os d req =
    (Returns (JObj []), [Io.ReadText (session_file_of mw sid)])
  /\ trace = [Io.ReadText (session_file_of mw sid); Io.CallNext (JObj []);
              Io.OpenW (session_file_of mw sid);
              Io.WriteText (session_file_of mw sid) (json_dumps s')]
  /\ fst (Io.load_session mw Io.json_codec os d' req) = Returns s'.
Proof.
  intros Hsid Hex Hread Hbad Hcall Hrun Hkeeps Hwf _.
  assert (Hload : Io.load_session mw Io.json_codec os d req =
                  (Returns (JObj []), [Io.ReadText (session_file_of mw sid)])).
  { unfold Io.load_session. rewrite Hsid, Hex, Hread.
    cbn [Io.loads Io.json_codec]. now rewrite (json_loads_not_json content Hbad). }
  split; [exact Hload|].
  destruct (io_dispatch_sent mw Io.json_codec os d d' req call_next urandom _ _ _ _ _ _ _
              Hkeeps Hload Hcall Hrun) as (text & Hdumps & Hex' & Hread' & Htrace).
  assert (Htext : text = json_dumps s').
  { change (Returns (json_dumps s') = Returns text) in Hdumps. congruence. }
  subst text. rewrite (session_id_used_cookie mw req urandom sid Hsid) in *.
  split; [exact Htrace|].
  unfold Io.load_session. rewrite Hsid, Hex', Hread'.
  cbn [fst Io.loads Io.json_codec]. now rewrite (json_loads_dumps s' Hwf).
Qed.

Lemma undecodable_record_replaced_witness :
  fst (Io.load_session default_middleware Io.json_codec Io.text_files
         (snd (fst (Io.dispatch default_middleware Io.json_codec Io.text_files
                      {[ "sessions/5f1d.json" := EmptyString ]}
                      (Sample.with_cookie "5f1d" [("code", "c0de")])
                      (fun s => Io.of_outcome
                         (call_next_of
                            (authorized Sample.cfg_auth Sample.svc_online
                               (Sample.with_cookie "5f1d" [("code", "c0de")])) tt s))
                      [])))
         (Sample.with_cookie "5f1d" [("code", "c0de")])) =
  Returns (JObj [("user", JObj [("oid", JStr "0001");
                                ("preferred_username", JStr "ada@example.org")]);
                 ("graph_access_token", JStr "at");
                 ("refresh_token", JStr "rt");
                 ("msal_cache", JStr "cache:c0de")]).
Proof.
  refine (proj2 (proj2 (undecodable_record_replaced default_middleware Io.text_files
            {[ "sessions/5f1d.json" := EmptyString ]} _
            (Sample.with_cookie "5f1d" [("code", "c0de")])
            (fun s => Io.of_outcome
               (call_next_of
                  (authorized Sample.cfg_auth Sample.svc_online
                     (Sample.with_cookie "5f1d" [("code", "c0de")])) tt s))
            [] "5f1d" EmptyString (RedirectResponse "/" 303) _ None
            (snd (Io.dispatch default_middleware Io.json_codec Io.text_files
                    {[ "sessions/5f1d.json" := EmptyString ]}
                    (Sample.with_cookie "5f1d" [("code", "c0de")])
                    (fun s => Io.of_outcome
                       (call_next_of
                          (authorized Sample.cfg_auth Sample.svc_online
                             (Sample.with_cookie "5f1d" [("code", "c0de")])) tt s))
                    []))
            _ _ _ _ _ _ text_files_keep_text _ _)));
    vm_compute; reflexivity.
Defined.

(** ** The login flow *)

Lemma dict_lookup_pop_ne (d : pydict) (k k' : string) :
  k <> k' -> dict_lookup (dict_pop d k) k' = dict_lookup d k'.
Proof.
  intros Hne. induction d as [|[k0 v0] d IH]; [reflexivity|].
  cbn [dict_pop]. destruct (String.eqb k0 k) eqn:E.
  - apply String.eqb_eq in E. subst k0. cbn [dict_lookup].
    destruct (String.eqb k k') eqn:E'; [apply String.eqb_eq in E'; contradiction|].
    reflexivity.
  - cbn [dict_lookup]. now rewrite IH.
Qed.

Lemma dict_lookup_none_keys (d : pydict) (k : string) :
  k ∉ map fst d -> dict_lookup d k = None.
Proof.
  induction d as [|[k0 v0] d IH]; [reflexivity|]. cbn [map fst dict_lookup].
  intros Hk. apply not_elem_of_cons in Hk as [Hne Hk].
  destruct (String.eqb k0 k) eqn:E; [apply String.eqb_eq in E; congruence|].
  now apply IH.
Qed.

Lemma dict_lookup_pop_eq (d : pydict) (k : string) :
  NoDup (map fst d) -> dict_lookup (dict_pop d k) k = None.
Proof.
  induction d as [|[k0 v0] d IH]; [reflexivity|]. cbn [map fst dict_pop].
  intros Hnd. apply NoDup_cons in Hnd as [Hk0 Hnd].
  destruct (String.eqb k0 k) eqn:E.
  - apply String.eqb_eq in E. subst k0. now apply dict_lookup_none_keys.
  - cbn [dict_lookup]. rewrite E. now apply IH.
Qed.

Lemma dict_set_keys (d : pydict) (k : string) (v : json) :
  map fst (dict_set d k v) =
  if dict_contains d k then map fst d else (map fst d ++ [k])%list.
Proof.
  unfold dict_contains. induction d as [|[k0 v0] d IH]; [reflexivity|].
  cbn [dict_set dict_lookup]. destruct (String.eqb k0 k) eqn:E; [reflexivity|].
  cbn [map fst]. rewrite IH. now destruct (dict_lookup d k).
Qed.

Lemma dict_contains_keys (d : pydict) (k : string) :
  dict_contains d k = false -> k ∉ map fst d.
Proof.
  unfold dict_contains. induction d as [|[k0 v0] d IH]; cbn [dict_lookup map fst].
  - intros _ H. inversion H.
  - destruct (String.eqb k0 k) eqn:E; [discriminate|].
    intros H. apply not_elem_of_cons. split; [|now apply IH].
    apply String.eqb_neq in E. congruence.
Qed.

(** Assigning to a key keeps the keys of a dictionary distinct. *)
Lemma dict_set_NoDup (d : pydict) (k : string) (v : json) :
  NoDup (map fst d) -> NoDup (map fst (dict_set d k v)).
Proof.
  intros Hnd. rewrite dict_set_keys.
  destruct (dict_contains d k) eqn:E; [exact Hnd|].
  apply NoDup_app. split; [exact Hnd|]. split; [|apply NoDup_singleton].
  intros x Hx Hk. apply list_elem_of_singleton in Hk. subst x.
  now apply (dict_contains_keys d k E).
Qed.

Lemma load_cache_run {W C : Type} (svc : services W C) (st : hstate W) :
  _load_cache svc st = (Val (loaded_cache svc (session st)), st).
Proof.
  unfold _load_cache, loaded_cache, bind, get_session, ret.
  destruct (dict_lookup (session st) "msal_cache") as [blob|]; [|reflexivity].
  now destruct (cache_deserialize svc blob).
Qed.

(** The callback on the path where every check passes and the provider
    returns tokens. *)
Lemma authorized_success {W C : Type} (cfg : config) (svc : services W C)
    (req : request) (st : hstate W) (code : string)
    (result user_claims : pydict) (cache' : token_cache C) (w' : W) :
  ENABLE_AUTHENTICATION cfg = true ->
  truthy (dict_get (session st) "user") = false ->
  opt_str (query_params req !! "state") = dict_get (session st) "state" ->
  query_params req !! "error" = None ->
  query_params req !! "code" = Some code -> code <> EmptyString ->
  acquire_token_by_authorization_code svc (world st) code
    (loaded_cache svc (session st)) = (Returns result, cache', w') ->
  dict_contains result "error" = false ->
  dict_get_default result "id_token_claims" (JObj []) = JObj user_claims ->
  authorized cfg svc req st =
    (Val (RedirectResponse "/" 303),
     {| session :=
          dict_pop
            (session
               (snd (_save_cache svc cache'
                  {| session :=
                       dict_set
                         (dict_set
                            (dict_set (session st) "user" (minimal_user_of user_claims))
                            "graph_access_token" (dict_get result "access_token"))
                         "refresh_token" (dict_get result "refresh_token");
                     world := w';
                     calls := (calls st ++ [AcquireTokenByAuthorizationCode code])%list |})))
            "state";
        world := w';
        calls := (calls st ++ [AcquireTokenByAuthorizationCode code])%list |}).
Proof.
  intros Hauth Huser Hstate He Hc Hne Hx Herr Hclaims.
  apply json_eqb_opt_str in Hstate.
  unfold authorized. rewrite Hauth. cbn [negb].
  unfold bind at 1. unfold get_session at 1.
  rewrite Huser, Hstate, He, Hc. cbn [negb opt_str truthy default from_option id].
  destruct (String.eqb code EmptyString) eqn:E;
    [apply String.eqb_eq in E; contradiction|]. cbn [negb].
  unfold bind at 1. rewrite load_cache_run.
  unfold bind at 1. unfold outbound at 1. cbv beta. rewrite Hx.
  rewrite Herr, Hclaims. unfold minimal_user_of, _save_cache.
  destruct (has_state_changed cache'); reflexivity.
Qed.
Ltac dict_lookups :=
  repeat first
    [ rewrite dict_lookup_pop_ne by congruence
    | rewrite dict_lookup_set_ne by congruence
    | rewrite dict_lookup_set_eq ].

Lemma save_cache_lookup {W C : Type} (svc : services W C) (cache : token_cache C)
    (st : hstate W) (k : string) :
  k <> "msal_cache" ->
  dict_lookup (session (snd (_save_cache svc cache st))) k = dict_lookup (session st) k.
Proof.
  intros Hk. unfold _save_cache. destruct (has_state_changed cache); [|reflexivity].
  cbn [session_setitem snd session]. now apply dict_lookup_set_ne.
Qed.

Lemma save_cache_NoDup {W C : Type} (svc : services W C) (cache : token_cache C)
    (st : hstate W) :
  NoDup (map fst (session st)) ->
  NoDup (map fst (session (snd (_save_cache svc cache st)))).
Proof.
  intros Hnd. unfold _save_cache. destruct (has_state_changed cache); [|exact Hnd].
  cbn [session_setitem snd session]. now apply dict_set_NoDup.
Qed.

(** X7: a successful callback establishes the login.  When every check
    passes and the provider returns tokens, the handler redirects to [/]
    after one token exchange, and the session then holds the user (its
    [oid], and as [preferred_username] the claim of that name or else
    [upn]), the access token under [graph_access_token] and the refresh
    token; the [state] nonce is gone; every key the callback does not name
    is as it was. *)
Theorem callback_success {W C : Type} (cfg : config) (svc : services W C)
    (req : request) (st : hstate W) (code : string)
    (result user_claims : pydict) (cache' : token_cache C) (w' : W) :
  ENABLE_AUTHENTICATION cfg = true ->
  truthy (dict_get (session st) "user") = false ->
  opt_str (query_params req !! "state") = dict_get (session st) "state" ->
  query_params req !! "error" = None ->
  query_params req !! "code" = Some code -> code <> EmptyString ->
  acquire_token_by_authorization_code svc (world st) code
    (loaded_cache svc (session st)) = (Returns result, cache', w') ->
  dict_contains result "error" = false ->
  dict_get_default result "id_token_claims" (JObj []) = JObj user_claims ->
  NoDup (map fst (session st)) ->
  let st' := snd (authorized cfg svc req st) in
  fst (authorized cfg svc req st) = Val (RedirectResponse "/" 303)
  /\ calls st' = (calls st ++ [AcquireTokenByAuthorizationCode code])%list
  /\ dict_lookup (session st') "user" = Some (minimal_user_of user_claims)
  /\ dict_lookup (session st') "graph_access_token" = Some (dict_get result "access_token")
  /\ dict_lookup (session st') "refresh_token" = Some (dict_get result "refresh_token")
  /\ dict_lookup (session st') "state" = None
  /\ (forall k, k <> "user" -> k <> "graph_access_token" -> k <> "refresh_token" ->
                k <> "msal_cache" -> k <> "state" ->
                dict_lookup (session st') k = dict_lookup (session st) k).
Proof.
  intros Hauth Huser Hstate He Hc Hne Hx Herr Hclaims Hnd st'. subst st'.
  rewrite (authorized_success cfg svc req st code result user_claims cache' w')
    by assumption.
  cbn [fst snd session calls].
  repeat split.
  - rewrite dict_lookup_pop_ne, save_cache_lookup by congruence.
    cbn [session]. now dict_lookups.
  - rewrite dict_lookup_pop_ne, save_cache_lookup by congruence.
    cbn [session]. now dict_lookups.
  - rewrite dict_lookup_pop_ne, save_cache_lookup by congruence.
    cbn [session]. now dict_lookups.
  - apply dict_lookup_pop_eq, save_cache_NoDup. cbn [session].
    now repeat apply dict_set_NoDup.
  - intros k H1 H2 H3 H4 H5.
    rewrite dict_lookup_pop_ne, save_cache_lookup by congruence.
    cbn [session]. now dict_lookups.
Qed.

Lemma callback_success_witness :
  dict_lookup
    (session (snd (authorized Sample.cfg_auth Sample.svc_online
                     (Sample.get_request [("state", "7d9c"); ("code", "c0de")])
                     (Sample.start [("state", JStr "7d9c")]))))
    "user" =
  Some (JObj [("oid", JStr "0001"); ("preferred_username", JStr "ada@example.org")]).
Proof.
  refine (proj1 (proj2 (proj2
    (callback_success Sample.cfg_auth Sample.svc_online
       (Sample.get_request [("state", "7d9c"); ("code", "c0de")])
       (Sample.start [("state", JStr "7d9c")]) "c0de"
       [("access_token", JStr "at"); ("refresh_token", JStr "rt");
        ("id_token_claims",
         JObj [("oid", JStr "0001"); ("upn", JStr "ada@example.org")])]
       [("oid", JStr "0001"); ("upn", JStr "ada@example.org")]
       {| contents := "cache:c0de"; has_state_changed := true |} tt
       _ _ _ _ _ _ _ _ _ _)))); try reflexivity.
  - discriminate.
  - repeat constructor. intros H. inversion H.
Defined.
(** X8: once a callback has established the login, the callback endpoint is
    inert and the pages open.  On the session a successful callback leaves,
    any further callback, whatever its parameters, redirects to [/] without
    a token exchange and without touching the session, and the index page
    and the icon are served instead of the redirect to [/login]. *)
Theorem callback_replay_ignored {W C : Type} (cfg : config) (svc : services W C)
    (req req2 : request) (st : hstate W) (code : string)
    (result user_claims : pydict) (cache' : token_cache C) (w' w2 : W) :
  ENABLE_AUTHENTICATION cfg = true ->
  truthy (dict_get (session st) "user") = false ->
  opt_str (query_params req !! "state") = dict_get (session st) "state" ->
  query_params req !! "error" = None ->
  query_params req !! "code" = Some code -> code <> EmptyString ->
  acquire_token_by_authorization_code svc (world st) code
    (loaded_cache svc (session st)) = (Returns result, cache', w') ->
  dict_contains result "error" = false ->
  dict_get_default result "id_token_claims" (JObj []) = JObj user_claims ->
  let s' := session (snd (authorized cfg svc req st)) in
  authorized cfg svc req2 (later s' w2) = (Val (RedirectResponse "/" 303), later s' w2)
  /\ serve_index cfg req2 (later s' w2) =
       (Val (FileResponse "static/index.html"), later s' w2)
  /\ serve_favicon cfg req2 (later s' w2) =
       (Val (FileResponse "static/image/favicon.ico"), later s' w2).
Proof.
  intros Hauth Huser Hstate He Hc Hne Hx Herr Hclaims s'.
  assert (Hu : truthy (dict_get s' "user") = true).
  { subst s'.
    rewrite (authorized_success cfg svc req st code result user_claims cache' w')
      by assumption.
    cbn [snd session]. unfold dict_get, dict_get_default.
    rewrite dict_lookup_pop_ne, save_cache_lookup by congruence.
    cbn [session]. dict_lookups. reflexivity. }
  split; [|split].
  - unfold authorized. rewrite Hauth. cbn [negb].
    unfold bind, get_session, later. cbn [session]. now rewrite Hu.
  - unfold serve_index, bind, get_session, later. cbn [session].
    now rewrite Hauth, Hu.
  - unfold serve_favicon, bind, get_session, later. cbn [session].
    now rewrite Hauth, Hu.
Qed.

Lemma callback_replay_ignored_witness :
  authorized Sample.cfg_auth Sample.svc_online
    (Sample.get_request [("state", "7d9c"); ("code", "c0de")])
    (later (session (snd (authorized Sample.cfg_auth Sample.svc_online
                            (Sample.get_request [("state", "7d9c"); ("code", "c0de")])
                            (Sample.start [("state", JStr "7d9c")])))) tt) =
  (Val (RedirectResponse "/" 303),
   later (session (snd (authorized Sample.cfg_auth Sample.svc_online
                          (Sample.get_request [("state", "7d9c"); ("code", "c0de")])
                          (Sample.start [("state", JStr "7d9c")])))) tt).
Proof.
  refine (proj1
    (callback_replay_ignored Sample.cfg_auth Sample.svc_online
       (Sample.get_request [("state", "7d9c"); ("code", "c0de")])
       (Sample.get_request [("state", "7d9c"); ("code", "c0de")])
       (Sample.start [("state", JStr "7d9c")]) "c0de"
       [("access_token", JStr "at"); ("refresh_token", JStr "rt");
        ("id_token_claims",
         JObj [("oid", JStr "0001"); ("upn", JStr "ada@example.org")])]
       [("oid", JStr "0001"); ("upn", JStr "ada@example.org")]
       {| contents := "cache:c0de"; has_state_changed := true |} tt tt
       _ _ _ _ _ _ _ _ _)); try reflexivity.
  discriminate.
Defined.

(** X9: a callback that fails leaves the session as it was.  Unless the
    handler ends with the redirect to [/], whether it answered 400 (state
    mismatch, provider error, missing code, failed exchange) or raised, no
    key of the session was added, changed or removed: no [user] appears and
    the [state] nonce is still there for a retry. *)
Theorem callback_failure_keeps_session {W C : Type} (cfg : config)
    (svc : services W C) (req : request) (st : hstate W) :
  fst (authorized cfg svc req st) <> Val (RedirectResponse "/" 303) ->
  session (snd (authorized cfg svc req st)) = session st.
Proof.
  intros Hfail.
  destruct (authorized cfg svc req st) as [r st'] eqn:Hrun. cbn [fst snd] in *.
  unfold authorized in Hrun.
  destruct (ENABLE_AUTHENTICATION cfg); cbn [negb] in Hrun;
    [|injection Hrun as <- <-; reflexivity].
  unfold bind at 1 in Hrun. unfold get_session at 1 in Hrun.
  destruct (truthy (dict_get (session st) "user"));
    [injection Hrun as <- <-; reflexivity|].
  destruct (negb (json_eqb _ _)); [injection Hrun as <- <-; reflexivity|].
  destruct (query_params req !! "error"); [injection Hrun as <- <-; reflexivity|].
  destruct (negb (truthy (opt_str (query_params req !! "code"))));
    [injection Hrun as <- <-; reflexivity|].
  unfold bind at 1 in Hrun. rewrite load_cache_run in Hrun.
  unfold bind at 1 in Hrun. unfold outbound at 1 in Hrun. cbv beta in Hrun.
  destruct (acquire_token_by_authorization_code svc (world st) _ _)
    as [[a cache'] w'].
  destruct a as [result|]; cbn in Hrun; [|injection Hrun as <- <-; reflexivity].
  destruct (dict_contains result "error"); cbn in Hrun;
    [injection Hrun as <- <-; reflexivity|].
  destruct (dict_get_default result "id_token_claims" (JObj [])); cbn in Hrun;
    try (injection Hrun as <- <-; reflexivity).
  exfalso. apply Hfail. unfold _save_cache in Hrun.
  destruct (has_state_changed cache'); cbn in Hrun; now injection Hrun as <- _.
Qed.

Lemma callback_failure_keeps_session_witness :
  session (snd (authorized Sample.cfg_auth Sample.svc_offline
                  (Sample.get_request [("state", "7d9c"); ("code", "c0de")])
                  (Sample.start [("state", JStr "7d9c")]))) =
  [("state", JStr "7d9c")].
Proof.
  apply (callback_failure_keeps_session Sample.cfg_auth Sample.svc_offline
           (Sample.get_request [("state", "7d9c"); ("code", "c0de")])
           (Sample.start [("state", JStr "7d9c")])).
  vm_compute. discriminate.
Defined.

Lemma login_run {W : Type} (cfg : config) (ids : login_services W)
    (req : request) (st : hstate W) :
  ENABLE_AUTHENTICATION cfg = true ->
  session (snd (login cfg ids req st)) =
    dict_set (session st) "state" (JStr (fst (uuid4 ids (world st)))).
Proof.
  intros Hauth. unfold login. rewrite Hauth. cbn [negb].
  unfold bind at 1. unfold world_step at 1.
  destruct (uuid4 ids (world st)) as [state w1]. cbn [fst].
  unfold bind at 1. cbn [session_setitem].
  unfold bind at 1. unfold _build_auth_url, bind, world_step. cbn [world session].
  destruct (get_authorization_request_url ids w1 BASIC_SCOPE state (REDIRECT_URI cfg))
    as [[url|] w2]; reflexivity.
Qed.

(** X10: login and callback fit together.  After [/login] the session
    holds the fresh nonce under [state] (replacing any earlier one) and is
    otherwise unchanged; a callback on that session that brings back this
    nonce, no provider error and a code passes the state check and goes to
    the token exchange with that code. *)
Theorem login_then_callback {W C : Type} (cfg : config) (svc : services W C)
    (ids : login_services W) (req req' : request) (st : hstate W) (w' : W)
    (code : string) :
  ENABLE_AUTHENTICATION cfg = true ->
  truthy (dict_get (session st) "user") = false ->
  let nonce := fst (uuid4 ids (world st)) in
  let s1 := session (snd (login cfg ids req st)) in
  query_params req' !! "state" = Some nonce ->
  query_params req' !! "error" = None ->
  query_params req' !! "code" = Some code -> code <> EmptyString ->
  dict_lookup s1 "state" = Some (JStr nonce)
  /\ (forall k, k <> "state" -> dict_lookup s1 k = dict_lookup (session st) k)
  /\ exchanges_code code (later s1 w') (snd (authorized cfg svc req' (later s1 w'))).
Proof.
  intros Hauth Huser nonce s1 Hq He Hc Hne. subst s1.
  rewrite (login_run cfg ids req st Hauth). fold nonce.
  split; [apply dict_lookup_set_eq|].
  split; [intros k Hk; now apply dict_lookup_set_ne|].
  apply authorized_past_state; try assumption.
  - unfold later, dict_get, dict_get_default. cbn [session].
    rewrite dict_lookup_set_ne by discriminate. exact Huser.
  - apply json_eqb_opt_str. rewrite Hq. unfold later, dict_get, dict_get_default.
    cbn [session opt_str]. now rewrite dict_lookup_set_eq.
Qed.

Lemma login_then_callback_witness :
  dict_lookup
    (session (snd (login Sample.cfg_auth
                     {| uuid4 := fun w => ("7d9c", w);
                        get_authorization_request_url :=
                          fun w _ state _ => (Returns ("https://idp/authorize?state=" +:+ state), w) |}
                     (Sample.get_request []) (Sample.start [("state", JStr "old")]))))
    "state" = Some (JStr "7d9c").
Proof.
  refine (proj1
    (login_then_callback Sample.cfg_auth Sample.svc_online
       {| uuid4 := fun w => ("7d9c", w);
          get_authorization_request_url :=
            fun w _ state _ => (Returns ("https://idp/authorize?state=" +:+ state), w) |}
       (Sample.get_request [])
       (Sample.get_request [("state", "7d9c"); ("code", "c0de")])
       (Sample.start [("state", JStr "old")]) tt "c0de" _ _ _ _ _ _));
    try reflexivity.
  discriminate.
Defined.

(** ** The authorization check: tokens, calls and groups *)

Lemma try_except_refreshed {W C : Type} (svc : services W C) (scopes : list string)
    (key : string) (st : hstate W) :
  try_except
    (let* t := get_valid_access_token svc scopes in
     do* session_setitem key t in
     ret t)
    (let* s := get_session in
     ret (dict_get_default s key JNull)) st =
  (Val (fst (refreshed svc scopes key st)), snd (refreshed svc scopes key st)).
Proof.
  unfold try_except, bind, refreshed.
  destruct (get_valid_access_token svc scopes st) as [[t|e] st']; reflexivity.
Qed.

Lemma get_valid_access_token_calls {W C : Type} (svc : services W C)
    (scopes : list string) (st : hstate W) :
  calls (snd (get_valid_access_token svc scopes st)) =
    (calls st ++ [AcquireTokenSilent scopes])%list.
Proof.
  destruct (get_valid_access_token svc scopes st) as [r st'] eqn:Hrun. cbn [snd].
  unfold get_valid_access_token in Hrun.
  unfold bind at 1 in Hrun. rewrite load_cache_run in Hrun.
  unfold bind at 1 in Hrun. unfold outbound at 1 in Hrun. cbv beta in Hrun.
  destruct (acquire_token_silent svc (world st) scopes _) as [[a cache'] w'].
  destruct a as [[result|]|]; cbn [fst snd] in Hrun;
    try (injection Hrun as _ <-; reflexivity).
  unfold raise, _save_cache, bind, session_setitem, ret in Hrun.
  repeat match type of Hrun with
         | context [if ?b then _ else _] => destruct b
         end; injection Hrun as _ <-; reflexivity.
Qed.

Lemma refreshed_calls {W C : Type} (svc : services W C) (scopes : list string)
    (key : string) (st : hstate W) :
  calls (snd (refreshed svc scopes key st)) =
    (calls st ++ [AcquireTokenSilent scopes])%list.
Proof.
  pose proof (get_valid_access_token_calls svc scopes st) as H.
  unfold refreshed.
  destruct (get_valid_access_token svc scopes st) as [[t|e] st']; exact H.
Qed.

Lemma refreshed_lookup {W C : Type} (svc : services W C) (scopes : list string)
    (key : string) (st : hstate W) (k : string) :
  k <> key -> k <> "msal_cache" ->
  dict_lookup (session (snd (refreshed svc scopes key st))) k = dict_lookup (session st) k.
Proof.
  intros Hk Hm. pose proof (get_valid_access_token_keeps svc scopes st k Hm) as H.
  unfold refreshed.
  destruct (get_valid_access_token svc scopes st) as [[t|e] st']; cbn [snd] in *;
    [|exact H].
  cbn [session_setitem snd session]. now rewrite dict_lookup_set_ne by congruence.
Qed.

(** The session holds, under [key], the token the block yields. *)
Lemma refreshed_cached {W C : Type} (svc : services W C) (scopes : list string)
    (key : string) (st : hstate W) :
  dict_get (session (snd (refreshed svc scopes key st))) key =
    fst (refreshed svc scopes key st).
Proof.
  unfold refreshed.
  destruct (get_valid_access_token svc scopes st) as [[t|e] st']; cbn [fst snd];
    [|reflexivity].
  cbn [session_setitem snd session]. unfold dict_get, dict_get_default.
  now rewrite dict_lookup_set_eq.
Qed.

(** The authorization check of a request whose session holds a user. *)
Lemma check_authorization_run {W C : Type} (cfg : config) (svc : services W C)
    (st : hstate W) (user : pydict) :
  ENABLE_AUTHENTICATION cfg = true ->
  dict_get (session st) "user" = JObj user -> user <> [] ->
  let b := refreshed svc BASIC_SCOPE "graph_access_token" (entered st) in
  let o := refreshed_other cfg svc (snd b) in
  let reply := graph_member_of svc (world (snd o)) (fst b) in
  check_authorization cfg svc st =
    (Val {| authorized_ := true;
            client_principal_id := dict_get user "oid";
            client_principal_name :=
              py_or (dict_get user "preferred_username") (dict_get user "upn");
            client_group_names :=
              if truthy (fst b) then groups_of (fst reply) else [];
            access_token := if truthy (fst o) then fst o else fst b |},
     if truthy (fst b)
     then {| session := session (snd o); world := snd reply;
             calls := (calls (snd o) ++ [GraphMemberOf (fst b)])%list |}
     else snd o).
Proof.
  intros Hauth Hu Hne b o reply.
  assert (Hut : truthy (JObj user) = true) by (destruct user; [contradiction|reflexivity]).
  unfold check_authorization.
  unfold bind at 1. unfold emit at 1. fold (entered st).
  rewrite Hauth. cbn [negb].
  unfold bind at 1. unfold get_session at 1.
  replace (session (entered st)) with (session st) by reflexivity.
  rewrite Hu, Hut. cbn [negb].
  unfold bind at 1. rewrite try_except_refreshed. fold b.
  unfold bind at 1.
  assert (Hsecond :
            (if truthy (JStr (OTHER_AUTH_SCOPES cfg))
             then try_except
                    (let* t := get_valid_access_token svc
                                 (other_scopes (OTHER_AUTH_SCOPES cfg)) in
                     do* session_setitem "other_access_token" t in
                     ret t)
                    (let* s := get_session in
                     ret (dict_get_default s "other_access_token" JNull))
             else ret JNull) (snd b) = (Val (fst o), snd o)).
  { subst o. unfold refreshed_other.
    destruct (truthy (JStr (OTHER_AUTH_SCOPES cfg))).
    - apply try_except_refreshed.
    - reflexivity. }
  rewrite Hsecond. unfold bind at 1.
  destruct (truthy (fst b)).
  - unfold bind, outbound, ret. fold reply.
    destruct reply as [r w'] eqn:E. reflexivity.
  - reflexivity.
Qed.
(** X11: the outbound calls of an authorization check are fixed by the
    configuration and the basic token.  For a session with a user, the
    check makes one silent acquisition for the basic scope, then one for the
    scopes parsed from [OTHER_AUTH_SCOPES] exactly when that setting is not
    empty, then one Graph request exactly when a basic token is available,
    made with that token; without a basic token the group list is empty. *)
Theorem check_authorization_calls {W C : Type} (cfg : config) (svc : services W C)
    (st : hstate W) (user : pydict) :
  ENABLE_AUTHENTICATION cfg = true ->
  dict_get (session st) "user" = JObj user -> user <> [] ->
  let basic := fst (refreshed svc BASIC_SCOPE "graph_access_token" (entered st)) in
  calls (snd (check_authorization cfg svc st)) =
    (calls st
     ++ [CheckAuthorization; AcquireTokenSilent BASIC_SCOPE]
     ++ (if truthy (JStr (OTHER_AUTH_SCOPES cfg))
         then [AcquireTokenSilent (other_scopes (OTHER_AUTH_SCOPES cfg))] else [])
     ++ (if truthy basic then [GraphMemberOf basic] else []))%list
  /\ (truthy basic = false ->
      forall d, fst (check_authorization cfg svc st) = Val d ->
                client_group_names d = []).
Proof.
  intros Hauth Hu Hne basic.
  rewrite (check_authorization_run cfg svc st user Hauth Hu Hne). fold basic.
  assert (Hcalls :
    calls (snd (refreshed_other cfg svc
                  (snd (refreshed svc BASIC_SCOPE "graph_access_token" (entered st))))) =
    (calls st ++ [CheckAuthorization; AcquireTokenSilent BASIC_SCOPE]
     ++ (if truthy (JStr (OTHER_AUTH_SCOPES cfg))
         then [AcquireTokenSilent (other_scopes (OTHER_AUTH_SCOPES cfg))] else []))%list).
  { unfold refreshed_other. destruct (truthy (JStr (OTHER_AUTH_SCOPES cfg))).
    - rewrite !refreshed_calls. cbn [entered calls]. now rewrite <- !app_assoc.
    - cbn [snd]. rewrite refreshed_calls. cbn [entered calls].
      now rewrite <- !app_assoc. }
  split.
  - destruct (truthy basic); cbn [snd calls]; rewrite Hcalls.
    + now rewrite <- !app_assoc.
    + now rewrite !app_nil_r.
  - intros Hb d. rewrite Hb. cbn [fst]. now intros [= <-].
Qed.

Lemma check_authorization_calls_witness :
  calls (snd (check_authorization Sample.cfg_auth Sample.svc_offline
                (Sample.start [("user", JObj [("oid", JStr "0001")])]))) =
  [CheckAuthorization; AcquireTokenSilent ["User.Read"];
   AcquireTokenSilent ["api://orc/.default"; "api://kb/.default"]].
Proof.
  refine (proj1 (check_authorization_calls Sample.cfg_auth Sample.svc_offline
            (Sample.start [("user", JObj [("oid", JStr "0001")])])
            [("oid", JStr "0001")] _ _ _)); try reflexivity.
  discriminate.
Defined.

Lemma refreshed_other_lookup {W C : Type} (cfg : config) (svc : services W C)
    (st : hstate W) (k : string) :
  k <> "other_access_token" -> k <> "msal_cache" ->
  dict_lookup (session (snd (refreshed_other cfg svc st))) k = dict_lookup (session st) k.
Proof.
  intros Hk Hm. unfold refreshed_other.
  destruct (truthy (JStr (OTHER_AUTH_SCOPES cfg))); [|reflexivity].
  now apply refreshed_lookup.
Qed.

(** X12: the authorization check writes to the session under three keys
    only.  Whatever the configuration, the session and the outcome, every
    key other than [graph_access_token], [other_access_token] and
    [msal_cache] has after the check the value it had before: the user, the
    refresh token and the state nonce are never touched. *)
Theorem check_authorization_frame {W C : Type} (cfg : config) (svc : services W C)
    (st : hstate W) (k : string) :
  k <> "graph_access_token" -> k <> "other_access_token" -> k <> "msal_cache" ->
  dict_lookup (session (snd (check_authorization cfg svc st))) k =
    dict_lookup (session st) k.
Proof.
  intros Hg Ho Hm.
  destruct (ENABLE_AUTHENTICATION cfg) eqn:Hauth.
  2:{ unfold check_authorization, bind, emit, ret. now rewrite Hauth. }
  destruct (truthy (dict_get (session st) "user")) eqn:Hut.
  2:{ unfold check_authorization, bind, emit, get_session, ret.
      rewrite Hauth. cbn [negb session]. now rewrite Hut. }
  destruct (dict_get (session st) "user") as [| | | | |user] eqn:Hu;
    try (unfold check_authorization, bind, emit, get_session, raise;
         rewrite Hauth; cbn [negb session]; rewrite Hu, Hut; reflexivity).
  assert (Hne : user <> []) by (intros ->; discriminate).
  rewrite (check_authorization_run cfg svc st user Hauth Hu Hne).
  assert (Hs : dict_lookup
                 (session (snd (refreshed_other cfg svc
                    (snd (refreshed svc BASIC_SCOPE "graph_access_token" (entered st))))))
                 k = dict_lookup (session st) k).
  { rewrite refreshed_other_lookup, refreshed_lookup by assumption. reflexivity. }
  destruct (truthy (fst (refreshed svc BASIC_SCOPE "graph_access_token" (entered st))));
    exact Hs.
Qed.

Lemma check_authorization_frame_witness :
  dict_lookup
    (session (snd (check_authorization Sample.cfg_auth Sample.svc_online
                     (Sample.start [("user", JObj [("oid", JStr "0001")]);
                                    ("refresh_token", JStr "rt")]))))
    "refresh_token" = Some (JStr "rt").
Proof.
  apply (check_authorization_frame Sample.cfg_auth Sample.svc_online
           (Sample.start [("user", JObj [("oid", JStr "0001")]);
                          ("refresh_token", JStr "rt")]) "refresh_token");
    discriminate.
Defined.

(** X13: the token of a decision is one the session caches.  After the
    check of a session with a user, [graph_access_token] holds the basic
    token the decision was made with, [other_access_token] the secondary
    one when [OTHER_AUTH_SCOPES] is set, and the [access_token] of the
    decision can be read back from them: the secondary one if the setting
    is not empty and the token is truthy, the basic one otherwise. *)
Theorem decision_token_is_cached {W C : Type} (cfg : config) (svc : services W C)
    (st : hstate W) (user : pydict) :
  ENABLE_AUTHENTICATION cfg = true ->
  dict_get (session st) "user" = JObj user -> user <> [] ->
  let s' := session (snd (check_authorization cfg svc st)) in
  exists d,
    fst (check_authorization cfg svc st) = Val d
    /\ dict_get s' "graph_access_token" =
         fst (refreshed svc BASIC_SCOPE "graph_access_token" (entered st))
    /\ (truthy (JStr (OTHER_AUTH_SCOPES cfg)) = true ->
        dict_get s' "other_access_token" =
          fst (refreshed svc (other_scopes (OTHER_AUTH_SCOPES cfg)) "other_access_token"
                 (snd (refreshed svc BASIC_SCOPE "graph_access_token" (entered st)))))
    /\ access_token d =
         (if truthy (JStr (OTHER_AUTH_SCOPES cfg))
             && truthy (dict_get s' "other_access_token")
          then dict_get s' "other_access_token"
          else dict_get s' "graph_access_token").
Proof.
  intros Hauth Hu Hne s'. subst s'.
  rewrite (check_authorization_run cfg svc st user Hauth Hu Hne).
  set (b := refreshed svc BASIC_SCOPE "graph_access_token" (entered st)).
  set (o := refreshed_other cfg svc (snd b)).
  assert (Hsess : session (snd (Val tt, if truthy (fst b)
               then {| session := session (snd o);
                       world := snd (graph_member_of svc (world (snd o)) (fst b));
                       calls := (calls (snd o) ++ [GraphMemberOf (fst b)])%list |}
               else snd o)) = session (snd o)).
  { cbn [snd]. now destruct (truthy (fst b)). }
  cbn [fst snd] in *. rewrite Hsess.
  assert (Hg : dict_get (session (snd o)) "graph_access_token" = fst b).
  { unfold dict_get, dict_get_default. subst o.
    rewrite refreshed_other_lookup by discriminate.
    exact (refreshed_cached svc BASIC_SCOPE "graph_access_token" (entered st)). }
  eexists. split; [reflexivity|]. split; [exact Hg|]. split.
  - intros Hother. subst o. unfold refreshed_other. rewrite Hother.
    apply refreshed_cached.
  - cbn [access_token]. rewrite Hg. subst o. unfold refreshed_other.
    destruct (truthy (JStr (OTHER_AUTH_SCOPES cfg))); cbn [andb fst snd].
    + now rewrite refreshed_cached.
    + reflexivity.
Qed.

Lemma decision_token_is_cached_witness :
  exists d,
    fst (check_authorization Sample.cfg_auth Sample.svc_online
           (Sample.start [("user", JObj [("oid", JStr "0001")])])) = Val d
    /\ dict_get
         (session (snd (check_authorization Sample.cfg_auth Sample.svc_online
                          (Sample.start [("user", JObj [("oid", JStr "0001")])]))))
         "graph_access_token" = JStr "fresh"
    /\ (true = true ->
        dict_get
          (session (snd (check_authorization Sample.cfg_auth Sample.svc_online
                           (Sample.start [("user", JObj [("oid", JStr "0001")])]))))
          "other_access_token" = JStr "fresh")
    /\ access_token d = JStr "fresh".
Proof.
  exact (decision_token_is_cached Sample.cfg_auth Sample.svc_online
           (Sample.start [("user", JObj [("oid", JStr "0001")])])
           [("oid", JStr "0001")] eq_refl eq_refl ltac:(discriminate)).
Defined.

Lemma display_names_spec (value : list json) :
  display_names value =
    if forallb is_object value then Some (map display_name value) else None.
Proof.
  induction value as [|g value IH]; [reflexivity|].
  destruct g; cbn [display_names forallb is_object andb]; try reflexivity.
  rewrite IH. now destruct (forallb is_object value).
Qed.

(** X14: the group list is all or nothing.  When Graph answers with an
    object whose [value] is a list, the groups are the [displayName] of
    every member, [missing-group] for a member without one, provided every
    member is an object; a single member that is not an object leaves the
    list empty rather than shortened. *)
Theorem groups_all_or_nothing (group_data : pydict) (value : list json) :
  dict_lookup group_data "value" = Some (JArr value) ->
  groups_of (Returns (JObj group_data)) =
    if forallb is_object value then map display_name value else [].
Proof.
  intros Hv. unfold groups_of, dict_get_default. rewrite Hv, display_names_spec.
  now destruct (forallb is_object value).
Qed.

Lemma groups_all_or_nothing_witness :
  groups_of (Returns (JObj [("value", JArr [JObj [("displayName", JStr "staff")];
                                            JStr "stray"])])) = [].
Proof.
  exact (groups_all_or_nothing
           [("value", JArr [JObj [("displayName", JStr "staff")]; JStr "stray"])]
           [JObj [("displayName", JStr "staff")]; JStr "stray"] eq_refl).
Defined.
(** ** The [/speak] endpoint: what reaches the orchestrator *)

(** X15: with authentication disabled, [/speak] serves any session as the
    anonymous principal.  A request with a question posts once to the
    orchestrator, with the function key, a payload that names the principal
    [no-auth] / [anonymous] with no group and carries no [access_token];
    the body of the response is what the generator makes of the upstream's
    answer, and the session is left as it was. *)
Theorem speak_anonymous {W C : Type} (cfg : config) (svc : services W C)
    (req : request) (st : hstate W) (body : pydict) :
  ENABLE_AUTHENTICATION cfg = false ->
  req_json req = Some (JObj body) ->
  truthy (dict_get body "spokenText") = true ->
  let payload :=
    [("conversation_id", dict_get_default body "conversation_id" (JStr EmptyString));
     ("question", dict_get body "spokenText");
     ("text_only", JBool true);
     ("client_principal_id", JStr "no-auth");
     ("client_principal_name", JStr "anonymous");
     ("client_group_names", JArr [])] in
  let headers :=
    [("x-functions-key", JStr (FUNCTION_KEY cfg));
     ("Content-Type", JStr "application/json")] in
  let upstream := orchestrator svc (world st) payload headers in
  serve_speak cfg svc req st =
    (Val (StreamingResponse payload headers "text/event-stream",
          map render (stream_body (fst upstream))),
     {| session := session st; world := snd upstream;
        calls := (calls st ++ [CheckAuthorization; OrchestratorPost payload headers])%list |}).
Proof.
  intros Hauth Hbody Hq payload headers upstream.
  unfold serve_speak, speak. rewrite Hbody, Hq. cbn [negb].
  unfold check_authorization, bind, emit, ret. rewrite Hauth.
  cbn [negb authorized_ access_token truthy client_principal_id
       client_principal_name client_group_names].
  unfold stream_generator, bind, outbound, ret. cbn [world session calls].
  fold payload headers upstream. destruct upstream as [resp w'].
  cbn [fst snd]. now rewrite <- app_assoc.
Qed.

Lemma speak_anonymous_witness :
  fst (serve_speak
         {| ENABLE_AUTHENTICATION := false; AUTHORITY := EmptyString;
            REDIRECT_URI := EmptyString; OTHER_AUTH_SCOPES := EmptyString;
            FUNCTION_KEY := "function-key" |}
         Sample.svc_offline
         (Sample.post_request "5f1d" [("spokenText", JStr "hello")])
         (Sample.start [("user", JObj [("oid", JStr "0001")])])) =
  Val (StreamingResponse
         [("conversation_id", JStr EmptyString); ("question", JStr "hello");
          ("text_only", JBool true); ("client_principal_id", JStr "no-auth");
          ("client_principal_name", JStr "anonymous"); ("client_group_names", JArr [])]
         [("x-functions-key", JStr "function-key");
          ("Content-Type", JStr "application/json")]
         "text/event-stream",
       ["Error: 503"]).
Proof.
  rewrite (speak_anonymous _ Sample.svc_offline _ _ [("spokenText", JStr "hello")]);
    reflexivity.
Defined.

(** X16: for a logged-in user, what [/speak] sends is read from the body
    and the session.  The response is a stream whose request to the
    orchestrator carries the function key, the question and conversation
    identifier of the body, the [oid] of the session's user as principal
    id, and an [access_token] entry exactly when the decision has a truthy
    token. *)
Theorem speak_payload {W C : Type} (cfg : config) (svc : services W C)
    (req : request) (st : hstate W) (body user : pydict) :
  ENABLE_AUTHENTICATION cfg = true ->
  req_json req = Some (JObj body) ->
  truthy (dict_get body "spokenText") = true ->
  dict_get (session st) "user" = JObj user -> user <> [] ->
  exists d payload,
    fst (check_authorization cfg svc st) = Val d
    /\ fst (speak cfg svc req st) =
         Val (StreamingResponse payload
                [("x-functions-key", JStr (FUNCTION_KEY cfg));
                 ("Content-Type", JStr "application/json")]
                "text/event-stream")
    /\ dict_lookup payload "question" = Some (dict_get body "spokenText")
    /\ dict_lookup payload "conversation_id" =
         Some (dict_get_default body "conversation_id" (JStr EmptyString))
    /\ dict_lookup payload "text_only" = Some (JBool true)
    /\ dict_lookup payload "client_principal_id" = Some (dict_get user "oid")
    /\ dict_lookup payload "client_group_names" = Some (JArr (client_group_names d))
    /\ dict_lookup payload "access_token" =
         (if truthy (access_token d) then Some (access_token d) else None).
Proof.
  intros Hauth Hbody Hq Hu Hne.
  unfold speak. rewrite Hbody, Hq. cbn [negb]. unfold bind.
  rewrite (check_authorization_run cfg svc st user Hauth Hu Hne).
  cbn [fst authorized_ negb access_token client_principal_id
       client_principal_name client_group_names].
  match goal with
  | |- context [if truthy ?t then dict_set ?p "access_token" _ else _] =>
      set (tok := t); set (base := p)
  end.
  eexists. exists (if truthy tok then dict_set base "access_token" tok else base).
  split; [reflexivity|]. split; [reflexivity|].
  cbn [access_token client_group_names].
  destruct (truthy tok); subst base; repeat split.
Qed.

Lemma speak_payload_witness :
  exists d payload,
    fst (check_authorization Sample.cfg_auth Sample.svc_online
           (Sample.start [("user", JObj [("oid", JStr "0001")])])) = Val d
    /\ fst (speak Sample.cfg_auth Sample.svc_online
              (Sample.post_request "5f1d" [("spokenText", JStr "hello")])
              (Sample.start [("user", JObj [("oid", JStr "0001")])])) =
         Val (StreamingResponse payload
                [("x-functions-key", JStr "function-key");
                 ("Content-Type", JStr "application/json")]
                "text/event-stream")
    /\ dict_lookup payload "question" = Some (JStr "hello")
    /\ dict_lookup payload "conversation_id" = Some (JStr EmptyString)
    /\ dict_lookup payload "text_only" = Some (JBool true)
    /\ dict_lookup payload "client_principal_id" = Some (JStr "0001")
    /\ dict_lookup payload "client_group_names" = Some (JArr (client_group_names d))
    /\ dict_lookup payload "access_token" =
         (if truthy (access_token d) then Some (access_token d) else None).
Proof.
  exact (speak_payload Sample.cfg_auth Sample.svc_online
           (Sample.post_request "5f1d" [("spokenText", JStr "hello")])
           (Sample.start [("user", JObj [("oid", JStr "0001")])])
           [("spokenText", JStr "hello")] [("oid", JStr "0001")]
           eq_refl eq_refl eq_refl eq_refl ltac:(discriminate)).
Defined.

(** ** The streaming loop: when heartbeats are sent *)

(** X17: heartbeats are only sent when a line arrives.  The loop sends at
    most one heartbeat per line received from the upstream, each right
    before what it sends for that line; while the upstream sends nothing,
    the client is sent nothing, however long the silence lasts. *)
Theorem heartbeats_bounded_by_lines (t : Q) (lines : list (Q * string)) :
  (heartbeats (stream_loop t lines) <= length lines)%nat
  /\ (length (stream_loop t lines)
      = heartbeats (stream_loop t lines) + length (nonblank lines))%nat.
Proof.
  revert t. induction lines as [|[now line] lines IH]; intros t; [split; reflexivity|].
  unfold nonblank in *. cbn [stream_loop map snd List.filter length].
  set (t' := if truthy (JStr line) then now
             else if heartbeat_due now t then now else t).
  destruct (IH t') as [IH1 IH2].
  destruct (heartbeat_due now t), (truthy (JStr line));
    cbn [app heartbeats length]; split; lia.
Qed.

Lemma heartbeat_not_due (now t : Q) : (now - t <= 15)%Q -> heartbeat_due now t = false.
Proof.
  intros H. unfold heartbeat_due. apply Qle_bool_iff in H. now rewrite H.
Qed.

(** X18: a steady stream is relayed as it is.  When every line is
    non-blank and arrives within 15 seconds of the line before it (of the
    start of the body for the first), the stream sent to the client is the
    lines received, in order, with no heartbeat among them. *)
Theorem steady_stream_unchanged (t : Q) (lines : list (Q * string)) :
  steady t lines ->
  stream_loop t lines = map (fun l => Line (snd l)) lines.
Proof.
  revert t. induction lines as [|[now line] lines IH]; intros t; [reflexivity|].
  intros (Hgap & Hne & Hrest). cbn [stream_loop map snd].
  rewrite (heartbeat_not_due now t Hgap).
  assert (Hl : truthy (JStr line) = true).
  { cbn [truthy]. apply negb_true_iff. now apply String.eqb_neq. }
  rewrite Hl. cbn [app]. f_equal. now apply IH.
Qed.

Lemma steady_stream_unchanged_witness :
  stream_loop 0 [(2%Q, "data: a"); (17%Q, "data: b"); (30%Q, "data: c")] =
  [Line "data: a"; Line "data: b"; Line "data: c"].
Proof.
  apply (steady_stream_unchanged 0
           [(2%Q, "data: a"); (17%Q, "data: b"); (30%Q, "data: c")]).
  cbn. repeat split; try discriminate; unfold Qle; simpl; lia.
Defined.
(** X19: a blank line does not count as activity.  A blank line that
    arrives while no heartbeat is due, anywhere in the stream, is not
    forwarded and does not reset the clock of the last yield: the stream
    sent is exactly the one sent had the line not come, so the next
    heartbeat is measured from the last thing sent, not from the last line
    received. *)
Theorem blank_line_invisible (t now : Q) (pre rest : list (Q * string)) :
  (now - last_yield_after t pre <= 15)%Q ->
  stream_loop t (pre ++ (now, EmptyString) :: rest)%list =
  stream_loop t (pre ++ rest)%list.
Proof.
  intros Hgap. rewrite !stream_loop_app. f_equal.
  cbn [stream_loop truthy String.eqb negb].
  now rewrite (heartbeat_not_due _ _ Hgap).
Qed.

Lemma blank_line_invisible_witness :
  stream_loop 0 ([(8%Q, "data: a")] ++ (10%Q, EmptyString) :: [(24%Q, "data: b")])%list =
  stream_loop 0 ([(8%Q, "data: a")] ++ [(24%Q, "data: b")])%list.
Proof.
  apply (blank_line_invisible 0 10 [(8%Q, "data: a")] [(24%Q, "data: b")]).
  vm_compute. discriminate.
Defined.

(** ** Scope and language lists *)

Lemma split_comma_nonempty (s : string) : split_comma s <> [].
Proof.
  destruct s as [|c s]; [discriminate|]. cbn [split_comma].
  destruct (Ascii.eqb c ","); [discriminate|]. now destruct (split_comma s).
Qed.

Lemma split_comma_pieces (p : ascii -> bool) (s : string) :
  all_chars (fun c => Ascii.eqb c "," || p c) s = true ->
  Forall (fun x => all_chars (fun c => not_comma c && p c) x = true) (split_comma s).
Proof.
  induction s as [|c s IH]; intros Hs.
  - repeat constructor.
  - cbn [all_chars] in Hs. apply andb_true_iff in Hs as [Hc Hs].
    specialize (IH Hs). cbn [split_comma].
    destruct (Ascii.eqb c ",") eqn:E.
    + constructor; [reflexivity|exact IH].
    + destruct (split_comma s) as [|x xs] eqn:Es.
      * now destruct (split_comma_nonempty s).
      * apply Forall_cons in IH as [Hx Hxs]. constructor; [|exact Hxs].
        cbn [all_chars]. unfold not_comma at 1. rewrite E. cbn [negb andb orb] in *.
        now rewrite Hc, Hx.
Qed.

Lemma all_chars_true (s : string) : all_chars (fun c => Ascii.eqb c "," || true) s = true.
Proof.
  induction s as [|c s IH]; [reflexivity|]. cbn [all_chars].
  now rewrite orb_true_r, IH.
Qed.

Lemma all_chars_impl (p q : ascii -> bool) (s : string) :
  (forall c, p c = true -> q c = true) ->
  all_chars p s = true -> all_chars q s = true.
Proof.
  intros Hpq. induction s as [|c s IH]; [reflexivity|]. cbn [all_chars].
  intros H. apply andb_true_iff in H as [Hc Hs]. now rewrite (Hpq c Hc), IH.
Qed.

Lemma all_chars_lstrip (p : ascii -> bool) (s : string) :
  all_chars p s = true -> all_chars p (lstrip s) = true.
Proof.
  induction s as [|c s IH]; [reflexivity|]. intros H. cbn [lstrip].
  destruct (py_isspace c); [|exact H].
  cbn [all_chars] in H. apply andb_true_iff in H as [_ H]. now apply IH.
Qed.

Lemma all_chars_rstrip (p : ascii -> bool) (s : string) :
  all_chars p s = true -> all_chars p (rstrip s) = true.
Proof.
  induction s as [|c s IH]; [reflexivity|]. intros H. cbn [rstrip].
  cbn [all_chars] in H. apply andb_true_iff in H as [Hc H].
  destruct (py_isspace c && String.eqb (rstrip s) EmptyString); [reflexivity|].
  cbn [all_chars]. now rewrite Hc, IH.
Qed.

Lemma rstrip_idem (s : string) : rstrip (rstrip s) = rstrip s.
Proof.
  induction s as [|c s IH]; [reflexivity|]. cbn [rstrip].
  destruct (py_isspace c && String.eqb (rstrip s) EmptyString) eqn:E; [reflexivity|].
  cbn [rstrip]. now rewrite IH, E.
Qed.

Lemma lstrip_head (s : string) :
  match lstrip s with
  | EmptyString => True
  | String c _ => py_isspace c = false
  end.
Proof.
  induction s as [|c s IH]; [exact I|]. cbn [lstrip].
  destruct (py_isspace c) eqn:E; [exact IH|exact E].
Qed.

Lemma lstrip_strip (s : string) : lstrip (strip s) = strip s.
Proof.
  unfold strip. pose proof (lstrip_head s) as H.
  destruct (lstrip s) as [|c r]; [reflexivity|].
  cbn [rstrip]. rewrite H. cbn [andb lstrip]. now rewrite H.
Qed.

Lemma strip_idem (s : string) : strip (strip s) = strip s.
Proof.
  unfold strip at 1. rewrite lstrip_strip. unfold strip. apply rstrip_idem.
Qed.

Lemma stripped_pieces (s x : string) :
  In x (map strip (split_comma s)) ->
  strip x = x /\ all_chars not_comma x = true.
Proof.
  intros Hin. apply in_map_iff in Hin as (y & <- & Hy).
  split; [apply strip_idem|].
  pose proof (split_comma_pieces (fun _ => true) s (all_chars_true s)) as Hall.
  rewrite Forall_forall in Hall. apply list_elem_of_In in Hy.
  specialize (Hall y Hy). unfold strip.
  apply all_chars_rstrip, all_chars_lstrip.
  eapply all_chars_impl; [|exact Hall].
  intros c Hc. now apply andb_true_iff in Hc as [Hc _].
Qed.

(** X20: the scopes asked for are clean.  Every scope parsed from
    [OTHER_AUTH_SCOPES] is non-empty, holds no comma and has no white space
    at either end, whatever the setting looks like (stray commas, padding,
    empty items). *)
Theorem other_scopes_clean (other_auth_scopes x : string) :
  In x (other_scopes other_auth_scopes) ->
  x <> EmptyString /\ strip x = x /\ all_chars not_comma x = true.
Proof.
  unfold other_scopes. intros Hin. apply filter_In in Hin as [Hin Hne].
  split; [|now apply (stripped_pieces other_auth_scopes)].
  apply negb_true_iff in Hne. now apply String.eqb_neq.
Qed.

Lemma other_scopes_clean_witness :
  "api://kb/.default" <> EmptyString
  /\ strip "api://kb/.default" = "api://kb/.default"
  /\ all_chars not_comma "api://kb/.default" = true.
Proof.
  apply (other_scopes_clean " api://orc/.default ,, api://kb/.default , ").
  vm_compute. right. left. reflexivity.
Defined.

Lemma length_split_comma (s : string) :
  length (split_comma s) = S (count_commas s).
Proof.
  induction s as [|c s IH]; [reflexivity|]. cbn [split_comma count_commas].
  destruct (Ascii.eqb c ",").
  - cbn [length]. now rewrite IH.
  - destruct (split_comma s) as [|x xs]; [discriminate|]. exact IH.
Qed.

(** X21: the language list has one entry per comma-separated item, kept
    even when empty.  For any value of [SUPPORTED_LANGUAGES] the list has
    one more entry than the value has commas, so it is never empty (an
    empty value gives one empty language), and every entry is stripped of
    surrounding white space and holds no comma. *)
Theorem languages_list_shape (supported_languages : string) :
  length (languages_list supported_languages) = S (count_commas supported_languages)
  /\ Forall (fun x => strip x = x /\ all_chars not_comma x = true)
            (languages_list supported_languages).
Proof.
  unfold languages_list. split.
  - now rewrite length_map, length_split_comma.
  - apply Forall_forall. intros x Hx. apply list_elem_of_In in Hx.
    now apply (stripped_pieces supported_languages).
Qed.
Lemma lstrip_spaces (x : string) :
  all_chars py_isspace x = true -> lstrip x = EmptyString.
Proof.
  induction x as [|c x IH]; [reflexivity|]. cbn [all_chars lstrip].
  intros H. apply andb_true_iff in H as [Hc H]. rewrite Hc. now apply IH.
Qed.

Lemma other_scopes_separators (s : string) :
  all_chars separator s = true -> other_scopes s = [].
Proof.
  intros Hs. unfold other_scopes.
  pose proof (split_comma_pieces py_isspace s Hs) as Hall.
  induction Hall as [|x xs Hx _ IH]; [reflexivity|].
  cbn [map List.filter].
  assert (Hstrip : strip x = EmptyString).
  { unfold strip. rewrite lstrip_spaces; [reflexivity|].
    eapply all_chars_impl; [|exact Hx].
    intros c Hc. now apply andb_true_iff in Hc as [_ Hc]. }
  rewrite Hstrip. cbn [String.eqb negb]. exact IH.
Qed.

(** X22: the secondary acquisition is guarded by the raw setting, not by
    the scopes parsed from it.  When [OTHER_AUTH_SCOPES] is not empty but
    made of commas and white space only, no scope is parsed from it, and
    the check of a session with a user still makes the second silent
    acquisition, for the empty list of scopes. *)
Theorem separators_only_scopes_still_acquire {W C : Type} (cfg : config)
    (svc : services W C) (st : hstate W) (user : pydict) :
  ENABLE_AUTHENTICATION cfg = true ->
  dict_get (session st) "user" = JObj user -> user <> [] ->
  OTHER_AUTH_SCOPES cfg <> EmptyString ->
  all_chars separator (OTHER_AUTH_SCOPES cfg) = true ->
  other_scopes (OTHER_AUTH_SCOPES cfg) = []
  /\ exists after,
       calls (snd (check_authorization cfg svc st)) =
         (calls st ++ [CheckAuthorization; AcquireTokenSilent BASIC_SCOPE;
                       AcquireTokenSilent []] ++ after)%list.
Proof.
  intros Hauth Hu Hne Hset Hsep.
  pose proof (other_scopes_separators _ Hsep) as Hscopes.
  split; [exact Hscopes|].
  assert (Ht : truthy (JStr (OTHER_AUTH_SCOPES cfg)) = true).
  { cbn [truthy]. apply negb_true_iff. now apply String.eqb_neq. }
  rewrite (check_authorization_run cfg svc st user Hauth Hu Hne).
  assert (Hcalls :
    calls (snd (refreshed_other cfg svc
                  (snd (refreshed svc BASIC_SCOPE "graph_access_token" (entered st))))) =
    (calls st ++ [CheckAuthorization; AcquireTokenSilent BASIC_SCOPE;
                  AcquireTokenSilent []])%list).
  { unfold refreshed_other. rewrite Ht, Hscopes, !refreshed_calls.
    cbn [entered calls]. now rewrite <- !app_assoc. }
  destruct (truthy (fst (refreshed svc BASIC_SCOPE "graph_access_token" (entered st))));
    cbn [snd calls]; rewrite Hcalls.
  - eexists. rewrite <- !app_assoc. reflexivity.
  - exists []. now rewrite app_nil_r.
Qed.

Lemma separators_only_scopes_still_acquire_witness :
  other_scopes " , ," = []
  /\ exists after,
       calls (snd (check_authorization
                     {| ENABLE_AUTHENTICATION := true; AUTHORITY := EmptyString;
                        REDIRECT_URI := EmptyString; OTHER_AUTH_SCOPES := " , ,";
                        FUNCTION_KEY := EmptyString |}
                     Sample.svc_offline
                     (Sample.start [("user", JObj [("oid", JStr "0001")])]))) =
         ([] ++ [CheckAuthorization; AcquireTokenSilent BASIC_SCOPE;
                 AcquireTokenSilent []] ++ after)%list.
Proof.
  apply (separators_only_scopes_still_acquire
           {| ENABLE_AUTHENTICATION := true; AUTHORITY := EmptyString;
              REDIRECT_URI := EmptyString; OTHER_AUTH_SCOPES := " , ,";
              FUNCTION_KEY := EmptyString |}
           Sample.svc_offline
           (Sample.start [("user", JObj [("oid", JStr "0001")])])
           [("oid", JStr "0001")]); try reflexivity; discriminate.
Defined.

(** ** The login flow through the session store *)

Lemma login_call_next {W : Type} (cfg : config) (ids : login_services W)
    (req : request) (w : W) (url : string) :
  ENABLE_AUTHENTICATION cfg = true ->
  fst (get_authorization_request_url ids (snd (uuid4 ids w)) BASIC_SCOPE
         (fst (uuid4 ids w)) (REDIRECT_URI cfg)) = Returns url ->
  call_next_of (login cfg ids req) w (JObj []) =
    Responded (RedirectResponse url 303) (JObj [("state", JStr (fst (uuid4 ids w)))]).
Proof.
  intros Hauth Hurl. unfold call_next_of, login. rewrite Hauth. cbn [negb].
  unfold bind at 1. unfold world_step at 1. cbn [world].
  destruct (uuid4 ids w) as [state w1]. cbn [fst snd] in *.
  unfold bind at 1. cbn [session_setitem].
  unfold bind at 1. unfold _build_auth_url, bind, world_step. cbn [world session].
  destruct (get_authorization_request_url ids w1 BASIC_SCOPE state (REDIRECT_URI cfg))
    as [a w2]. cbn [fst] in Hurl. subst a. reflexivity.
Qed.

(** X23: the nonce of [/login] reaches the callback through the session
    file.  A first request to [/login] without a session cookie is
    redirected to the provider and given a session cookie; the next request
    that bears this cookie starts with a session that holds exactly the
    nonce under [state], and a callback on it that brings back the nonce
    and a code goes to the token exchange. *)
Theorem login_nonce_reaches_callback {W C : Type} (cfg : config)
    (svc : services W C) (ids : login_services W) (mw : middleware)
    (fs : gmap string string) (req req' : request) (w w' : W)
    (urandom : list ascii) (url code : string) :
  ENABLE_AUTHENTICATION cfg = true ->
  session_id_of mw req = None ->
  length urandom = 16%nat ->
  let nonce := fst (uuid4 ids w) in
  fst (get_authorization_request_url ids (snd (uuid4 ids w)) BASIC_SCOPE nonce
         (REDIRECT_URI cfg)) = Returns url ->
  cookies req' !! cookie_name mw = Some (token_hex urandom) ->
  query_params req' !! "state" = Some nonce ->
  query_params req' !! "error" = None ->
  query_params req' !! "code" = Some code -> code <> EmptyString ->
  let served := dispatch mw fs req (call_next_of (login cfg ids req) w) urandom in
  let s1 := fst (load_session mw (snd (fst served)) req') in
  (exists c, fst (fst served) = Sent (RedirectResponse url 303) (Some c)
             /\ key c = cookie_name mw /\ value c = token_hex urandom)
  /\ s1 = JObj [("state", JStr nonce)]
  /\ exchanges_code code (later [("state", JStr nonce)] w')
       (snd (authorized cfg svc req' (later [("state", JStr nonce)] w'))).
Proof.
  intros Hauth Hnone Hlen nonce Hurl Hcookie Hq He Hc Hne served s1.
  assert (Hload : load_session mw fs req = (JObj [], [])).
  { unfold load_session. now rewrite Hnone. }
  assert (Hcall : call_next_of (login cfg ids req) w (fst (load_session mw fs req)) =
                  Responded (RedirectResponse url 303) (JObj [("state", JStr nonce)])).
  { rewrite Hload. now apply login_call_next. }
  assert (Hrun : served =
            (Sent (RedirectResponse url 303)
               (Some {| key := cookie_name mw; value := token_hex urandom;
                        cookie_max_age := max_age mw; httponly := true;
                        samesite := "lax" |}),
             <[session_file_of mw (token_hex urandom) :=
                 json_dumps (JObj [("state", JStr nonce)])]> fs,
             [EvCallNext (JObj []);
              EvWrite (session_file_of mw (token_hex urandom))
                      (json_dumps (JObj [("state", JStr nonce)]))])).
  { subst served. unfold dispatch. rewrite Hload in *. cbn [fst] in Hcall.
    now rewrite Hcall, Hnone. }
  split; [|split].
  - rewrite Hrun. cbn [fst]. eexists. repeat split.
  - subst s1. rewrite Hrun. cbn [fst snd]. unfold load_session.
    rewrite (session_id_of_cookie mw req' (token_hex urandom) Hcookie).
    + rewrite lookup_insert_eq. cbn [fst]. now rewrite json_loads_dumps.
    + apply hexlify_nonempty. intros ->. discriminate.
  - apply authorized_past_state; try assumption; try reflexivity.
    apply json_eqb_opt_str. now rewrite Hq.
Qed.

Lemma login_nonce_reaches_callback_witness :
  fst (load_session default_middleware
         (snd (fst (dispatch default_middleware ∅ (Sample.get_request [])
                      (call_next_of
                         (login Sample.cfg_auth
                            {| uuid4 := fun w => ("7d9c", w);
                               get_authorization_request_url :=
                                 fun w _ state _ =>
                                   (Returns ("https://idp/authorize?state=" +:+ state), w) |}
                            (Sample.get_request [])) tt)
                      (replicate 16 "171"%char))))
         {| cookies := {[ "session_id" := "abababababababababababababababab" ]};
            query_params := {[ "state" := "7d9c"; "code" := "c0de" ]};
            req_json := None |}) =
  JObj [("state", JStr "7d9c")].
Proof.
  refine (proj1 (proj2
    (login_nonce_reaches_callback Sample.cfg_auth Sample.svc_online
       {| uuid4 := fun w => ("7d9c", w);
          get_authorization_request_url :=
            fun w _ state _ => (Returns ("https://idp/authorize?state=" +:+ state), w) |}
       default_middleware ∅ (Sample.get_request [])
       {| cookies := {[ "session_id" := "abababababababababababababababab" ]};
          query_params := {[ "state" := "7d9c"; "code" := "c0de" ]};
          req_json := None |}
       tt tt (replicate 16 "171"%char) "https://idp/authorize?state=7d9c" "c0de"
       _ _ _ _ _ _ _ _ _))); try reflexivity.
  discriminate.
Defined.
